(** * Smart facility manager: booking admission, state transitions, check-in

    A shallow embedding of the booking routes of the server
    (server/src/routes/bookings.js, server/src/routes/qr-scanner.js), of the
    request validators (server/src/middleware/validation.js) and of the
    Mongoose models they read and write (Facility, Booking, SystemSettings).

    Conventions of the embedding:
    - an ObjectId is a number ([N]); instants ([Date]) are milliseconds since
      the epoch ([Z]);
    - a collection is the list of its documents, in insertion order; a Mongo
      query is a [filter] of the collection, [findOne] the first match;
    - a route handler is a function from the database (and whatever the
      request carries) to a response and the database afterwards;
    - values minted outside the handler (the [_id] and the [checkInCode] of
      a new document, the current time) come in through [Env];
    - a string whose length or white space is looked at is the list of its
      UTF-16 code units ([JsString]). *)

From Stdlib Require Import ZArith NArith List Bool Ascii String Lia.
From stdpp Require Import base decidable list gmap strings.
Import ListNotations.

Local Open Scope Z_scope.
Local Open Scope bool_scope.

(** ** Data model *)

Abbreviation ObjectId := N.
Abbreviation Date := Z.

(** A JavaScript string whose length or white space the code looks at is
    the sequence of its UTF-16 code units. *)
Definition JsString := list N.

(** The string an ASCII literal denotes. *)
Definition js_string (s : string) : JsString :=
  N_of_ascii <$> list_ascii_of_string s.

(** Facility.type, the enum of FacilitySchema. *)
Inductive FacilityType :=
| PROJECTOR | LAB | BUS | HOSTEL | HALL | CLASSROOM | CONFERENCE_ROOM
| EQUIPMENT | VEHICLE.

#[global] Instance FacilityType_eq_dec : EqDecision FacilityType.
Proof. solve_decision. Defined.

(** The fields of a Facility document that the booking routes read. *)
Record Facility := mkFacility {
  fac_id : ObjectId;
  fac_type : FacilityType;
  capacity : Z;
  isRestricted : bool;
  bufferMinutesBetween : Z;
  active : bool;
  maintenanceMode : bool
}.

#[global] Instance Facility_eq_dec : EqDecision Facility.
Proof. solve_decision. Defined.

(** FacilitySchema.virtual('isAvailable'). *)
Definition isAvailable (f : Facility) : bool :=
  active f && negb (maintenanceMode f).

(** Booking.status, the enum of BookingSchema. *)
Inductive BookingStatus :=
| PENDING | PENDING_ADMIN | APPROVED | REJECTED | CANCELLED
| CHECKED_IN | CHECKED_OUT | EXPIRED.

#[global] Instance BookingStatus_eq_dec : EqDecision BookingStatus.
Proof. solve_decision. Defined.

Inductive ApprovalType := AUTO | MANUAL.

#[global] Instance ApprovalType_eq_dec : EqDecision ApprovalType.
Proof. solve_decision. Defined.

(** Booking.approval: every field is optional in the schema. *)
Record Approval := mkApproval {
  approval_type : option ApprovalType;
  approval_by : option ObjectId;
  approval_at : option Date;
  approval_notes : option string
}.

Inductive AuditAction :=
| BOOKING_CREATED | BOOKING_APPROVED | BOOKING_REJECTED | BOOKING_CANCELLED
| QR_CHECKIN | QR_CHECKOUT | MANUAL_CHECK_IN | MANUAL_CHECK_OUT.

Record AuditEntry := mkAudit {
  audit_action : AuditAction;
  audit_by : ObjectId;
  audit_at : Date
}.

(** What the handlers serialise into the QR image: the object passed to
    JSON.stringify before QRCode.toDataURL. [qr_type] is [true] for the
    string 'FACILITY_ACCESS'. *)
Record QrPayload := mkQr {
  qr_bookingId : option ObjectId;
  qr_checkInCode : string;
  qr_facilities : list ObjectId;
  qr_type_is_access : bool
}.

Record Booking := mkBooking {
  booking_id : ObjectId;
  userId : ObjectId;
  facilities : list ObjectId;
  startTime : Date;
  endTime : Date;
  status : BookingStatus;
  approval : option Approval;
  isExternal : bool;
  externalOrg : option JsString;
  checkInCode : string;
  qrCodeUrl : option QrPayload;
  checkInAt : option Date;
  checkOutAt : option Date;
  audit : list AuditEntry
}.

(** SystemSettingsSchema, with its defaults. *)
Record SystemSettings := mkSettings {
  autoApprovalEnabled : bool;
  reminderBeforeStartMinutes : Z;
  reminderBeforeEndMinutes : Z;
  overdueGraceMinutes : Z;
  externalBookingsEnabled : bool;
  restrictedTypes : list FacilityType;
  allowedExternalWindowDays : Z
}.

Definition defaultSettings : SystemSettings :=
  {| autoApprovalEnabled := true;
     reminderBeforeStartMinutes := 30;
     reminderBeforeEndMinutes := 10;
     overdueGraceMinutes := 5;
     externalBookingsEnabled := true;
     restrictedTypes := [];
     allowedExternalWindowDays := 180 |}.

(** The three collections the routes touch. *)
Record DB := mkDB {
  facilitiesColl : list Facility;
  bookingsColl : list Booking;
  settingsColl : list SystemSettings
}.

Inductive Role := STUDENT | STAFF | ADMIN | EXTERNAL.

#[global] Instance Role_eq_dec : EqDecision Role.
Proof. solve_decision. Defined.

(** req.user, as the auth middleware leaves it. *)
Record User := mkUser {
  user_id : ObjectId;
  role : Role
}.

(** Values a handler obtains from outside the database: [new Date()],
    the ObjectId of a freshly constructed document and the nanoid(8)
    default of [checkInCode]. *)
Record Env := mkEnv {
  now : Date;
  freshId : ObjectId;
  freshCode : string
}.

(** res.status(code).json({ success, message, data }). *)
Record Response (D : Type) := mkResponse {
  http_status : nat;
  success : bool;
  message : string;
  data : option D
}.
Arguments mkResponse {D} _ _ _ _.
Arguments http_status {D} _.
Arguments success {D} _.
Arguments message {D} _.
Arguments data {D} _.

Definition failure {D} (code : nat) (msg : string) : Response D :=
  mkResponse code false msg None.

(** ** Mongo queries *)

(** [{ field: { $in: ids } }] on a scalar field. *)
Definition in_ids (x : ObjectId) (ids : list ObjectId) : bool :=
  existsb (N.eqb x) ids.

(** [{ facilities: { $in: ids } }] on an array field: some element of the
    array is one of [ids]. *)
Definition array_in (arr ids : list ObjectId) : bool :=
  existsb (fun x => in_ids x ids) arr.

Definition status_eqb (s t : BookingStatus) : bool := bool_decide (s = t).

(** [{ status: { $nin: excluded } }]. *)
Definition status_nin (s : BookingStatus) (excluded : list BookingStatus) : bool :=
  negb (existsb (status_eqb s) excluded).

(** The filter of both Booking.find calls of POST /api/bookings:
    {facilities: {$in: ids}, status: {$nin: ['REJECTED','CANCELLED','EXPIRED']},
     $or: [{startTime: {$lt: end}, endTime: {$gt: start}}]}. *)
Definition overlap_filter (ids : list ObjectId) (startT endT : Date)
    (b : Booking) : bool :=
  array_in (facilities b) ids
  && status_nin (status b) [REJECTED; CANCELLED; EXPIRED]
  && ((startTime b <? endT) && (endTime b >? startT)).

Definition find_overlapping (coll : list Booking) (ids : list ObjectId)
    (startT endT : Date) : list Booking :=
  List.filter (overlap_filter ids startT endT) coll.

(** Booking.findById / findOne({_id}). *)
Definition findById (coll : list Booking) (id : ObjectId) : option Booking :=
  List.find (fun b => N.eqb (booking_id b) id) coll.

(** A first save() of a new document appends it to the collection. *)
Definition insert_doc (b : Booking) (coll : list Booking) : list Booking :=
  coll ++ [b].

(** save() of a loaded document writes it over the stored one with its _id. *)
Definition update_doc (b : Booking) (coll : list Booking) : list Booking :=
  List.map (fun x => if N.eqb (booking_id x) (booking_id b) then b else x) coll.

Definition set_bookings (db : DB) (coll : list Booking) : DB :=
  {| facilitiesColl := facilitiesColl db;
     bookingsColl := coll;
     settingsColl := settingsColl db |}.

Definition set_settings (db : DB) (s : list SystemSettings) : DB :=
  {| facilitiesColl := facilitiesColl db;
     bookingsColl := bookingsColl db;
     settingsColl := s |}.

(** ** POST /api/bookings *)

(** req.body of the route. [None] stands for a field that is absent or
    falsy; a present time is one that [new Date] parses. A missing
    [isExternal] behaves as [false] wherever the handler reads it. *)
Record BookingBody := mkBody {
  req_facilityIds : option (list ObjectId);
  req_startTime : option Date;
  req_endTime : option Date;
  req_isExternal : bool;
  req_externalOrg : option JsString
}.

(** Facility.find({ _id: { $in: facilityIds }, active: true }). *)
Definition find_requested (coll : list Facility) (facilityIds : list ObjectId)
    : list Facility :=
  List.filter (fun f => in_ids (fac_id f) facilityIds && active f) coll.

(** [...new Set(xs)]: the distinct values of [xs], each at its first
    occurrence. [seen] is the set built so far. *)
Fixpoint set_values {A} `{EqDecision A} (seen xs : list A) : list A :=
  match xs with
  | [] => []
  | x :: rest =>
      if bool_decide (x ∈ seen) then set_values seen rest
      else x :: set_values (x :: seen) rest
  end.

(** Facility.find({ type, active: true, maintenanceMode: false }). *)
Definition find_pool (coll : list Facility) (type : FacilityType)
    : list Facility :=
  List.filter (fun f => bool_decide (fac_type f = type) && active f
                       && negb (maintenanceMode f)) coll.

(** The two nested forEach loops that fill [bookedSet]: every facility id
    of every overlapping booking is added when it is an id of the pool. *)
Definition collect_booked (overlapping : list Booking)
    (facilityIdsOfType : list ObjectId) : gset ObjectId :=
  fold_left
    (fun bookedSet b =>
       fold_left
         (fun bookedSet fid =>
            if in_ids fid facilityIdsOfType then {[fid]} ∪ bookedSet
            else bookedSet)
         (facilities b) bookedSet)
    overlapping ∅.

(** The [for (const type of types)] loop of the capacity check; the result
    is the value of [requiresAdminApproval] when the loop is left. *)
Fixpoint capacity_loop (db : DB) (startT endT : Date)
    (types : list FacilityType) : bool :=
  match types with
  | [] => false
  | type :: rest =>
      let facilitiesOfType := find_pool (facilitiesColl db) type in
      if (length facilitiesOfType =? 0)%nat
      then capacity_loop db startT endT rest          (* continue *)
      else
        let facilityIdsOfType := List.map fac_id facilitiesOfType in
        let overlapping :=
          find_overlapping (bookingsColl db) facilityIdsOfType startT endT in
        let bookedSet := collect_booked overlapping facilityIdsOfType in
        if (length facilityIdsOfType <=? size bookedSet)%nat
        then true                                     (* break *)
        else capacity_loop db startT endT rest
  end.

(** Lines 109-149: the value of [requiresAdminApproval] after the policy. *)
Definition requiresAdminApproval (db : DB) (facilities : list Facility)
    (startT endT : Date) (isExternal : bool) : bool :=
  let hasRestrictedFacility := existsb isRestricted facilities in
  let requiresAdminApproval := hasRestrictedFacility || isExternal in
  if negb requiresAdminApproval then
    let types := set_values [] (List.map fac_type facilities) in
    capacity_loop db startT endT types
  else requiresAdminApproval.

(** The document built by [new Booking({...})] and the assignments that
    follow it, up to the first save(). *)
Definition new_booking (env : Env) (user : User) (facilityIds : list ObjectId)
    (startT endT : Date) (body : BookingBody) (autoApprove : bool) : Booking :=
  {| booking_id := freshId env;
     userId := user_id user;
     facilities := facilityIds;
     startTime := startT;
     endTime := endT;
     status := if autoApprove then APPROVED else PENDING_ADMIN;
     approval :=
       if autoApprove
       then Some (mkApproval (Some AUTO) None (Some (now env)) None)
       else None;
     isExternal := req_isExternal body;
     externalOrg := req_externalOrg body;
     checkInCode := freshCode env;
     qrCodeUrl :=
       Some (mkQr (Some (freshId env)) (freshCode env) facilityIds true);
     checkInAt := None;
     checkOutAt := None;
     audit := [] |}.

Definition push_audit (b : Booking) (e : AuditEntry) : Booking :=
  {| booking_id := booking_id b; userId := userId b;
     facilities := facilities b; startTime := startTime b;
     endTime := endTime b; status := status b; approval := approval b;
     isExternal := isExternal b; externalOrg := externalOrg b;
     checkInCode := checkInCode b; qrCodeUrl := qrCodeUrl b;
     checkInAt := checkInAt b; checkOutAt := checkOutAt b;
     audit := audit b ++ [e] |}.

(** The handler of POST /api/bookings. *)
Definition post_booking (env : Env) (user : User) (db : DB)
    (body : BookingBody) : Response Booking * DB :=
  match req_facilityIds body, req_startTime body, req_endTime body with
  | Some facilityIds, Some startT, Some endT =>
      let facilities := find_requested (facilitiesColl db) facilityIds in
      if negb (length facilities =? length facilityIds)%nat then
        (failure 404 "One or more facilities not found or inactive", db)
      else
        let conflicts :=
          find_overlapping (bookingsColl db) facilityIds startT endT in
        if (0 <? length conflicts)%nat then
          (failure 409 "Facility is already booked during this time slot", db)
        else
          let autoApprove :=
            negb (requiresAdminApproval db facilities startT endT
                    (req_isExternal body)) in
          let booking :=
            new_booking env user facilityIds startT endT body autoApprove in
          let coll1 := insert_doc booking (bookingsColl db) in
          let populatedBooking := findById coll1 (booking_id booking) in
          let booking' :=
            push_audit booking
              (mkAudit BOOKING_CREATED (user_id user) (now env)) in
          let coll2 := update_doc booking' coll1 in
          (mkResponse 201 true
             (if autoApprove
              then "Booking created and approved automatically"
              else "Booking created successfully")
             populatedBooking,
           set_bookings db coll2)
  | _, _, _ =>
      (failure 400 "Facility IDs, start time, and end time are required", db)
  end.

(** ** validateBooking (middleware/validation.js) *)

(** White space and line terminators of ECMAScript: what
    String.prototype.trim strips (the setter behind [trim: true] of a
    schema) and what the class \s of a regular expression matches (the
    sanitizer trim() of a validation chain). *)
Definition is_space (u : N) : bool :=
  (((9 <=? u) && (u <=? 13))          (* tab, LF, VT, FF, CR *)
   || (u =? 32) || (u =? 160)         (* space, U+00A0 *)
   || (u =? 5760)                     (* U+1680 *)
   || ((8192 <=? u) && (u <=? 8202))  (* U+2000 to U+200A *)
   || (u =? 8232) || (u =? 8233)      (* U+2028, U+2029 *)
   || (u =? 8239) || (u =? 8287)      (* U+202F, U+205F *)
   || (u =? 12288) || (u =? 65279))%N (* U+3000, U+FEFF *).

Fixpoint trim_start (s : JsString) : JsString :=
  match s with
  | c :: rest => if is_space c then trim_start rest else s
  | [] => []
  end.

Fixpoint trim_end (s : JsString) : JsString :=
  match s with
  | c :: rest =>
      match trim_end rest with
      | [] => if is_space c then [] else [c]
      | rest' => c :: rest'
      end
  | [] => []
  end.

Definition trim (s : JsString) : JsString := trim_end (trim_start s).

Definition is_high_surrogate (u : N) : bool :=
  ((55296 <=? u) && (u <=? 56319))%N (* U+D800 to U+DBFF *).

Definition is_low_surrogate (u : N) : bool :=
  ((56320 <=? u) && (u <=? 57343))%N (* U+DC00 to U+DFFF *).

(** The matches of /(\uFE0F|\uFE0E)/g. *)
Definition presentationSequences (s : JsString) : nat :=
  length (List.filter (fun u => (u =? 65039) || (u =? 65038))%N s).

(** The matches of /[\uD800-\uDBFF][\uDC00-\uDFFF]/g. *)
Fixpoint surrogatePairs (s : JsString) : nat :=
  match s with
  | h :: tl =>
      match tl with
      | l :: rest =>
          if is_high_surrogate h && is_low_surrogate l
          then S (surrogatePairs rest)
          else surrogatePairs tl
      | [] => 0%nat
      end
  | [] => 0%nat
  end.

(** The rule isLength({ min, max }) of a chain: the length it compares is
    [str.length] less the variation selectors and less one for every
    surrogate pair. *)
Definition isLength (min max : nat) (s : JsString) : bool :=
  let len := (length s - presentationSequences s - surrogatePairs s)%nat in
  ((min <=? len) && (len <=? max))%nat.

(** A value written in a chain as the argument of a rule. *)
Inductive Literal :=
| LString (s : string)
| LBoolean (b : bool).

(** What a rule is handed: the field's value converted to a string. *)
Definition toString (b : bool) : string :=
  if b then "true"%string else "false"%string.

(** The rule equals(comparison): [str === comparison], which no string
    satisfies when the comparison is not a string. *)
Definition equals (str : string) (comparison : Literal) : bool :=
  match comparison with
  | LString s => String.eqb str s
  | LBoolean _ => false
  end.

(** The rule chain of [validateBooking]; [true] when validationResult is
    empty, so that handleValidationErrors calls next(). The isMongoId,
    isISO8601 and isBoolean rules hold of every value of the types used
    here. *)
Definition validateBooking (body : BookingBody) : bool :=
  (* body('facilityIds').isArray({ min: 1 }) *)
  match req_facilityIds body with
  | Some ids => (1 <=? length ids)%nat
  | None => false
  end
  (* body('startTime').isISO8601() *)
  && match req_startTime body with Some _ => true | None => false end
  (* body('endTime').isISO8601().custom(...) *)
  && match req_endTime body, req_startTime body with
     | Some endT, Some startT => negb (endT <=? startT)
     | Some _, None => true
     | None, _ => false
     end
  (* body('externalOrg').if(body('isExternal').equals(true))
       .trim().isLength({ min: 2, max: 100 }) *)
  && (if equals (toString (req_isExternal body)) (LBoolean true) then
        match req_externalOrg body with
        | Some org => isLength 2 100 (trim org)
        | None => false
        end
      else true).

(** ** PATCH /api/bookings/:id/approve, /reject, /cancel *)

Definition set_status (b : Booking) (s : BookingStatus) : Booking :=
  {| booking_id := booking_id b; userId := userId b;
     facilities := facilities b; startTime := startTime b;
     endTime := endTime b; status := s; approval := approval b;
     isExternal := isExternal b; externalOrg := externalOrg b;
     checkInCode := checkInCode b; qrCodeUrl := qrCodeUrl b;
     checkInAt := checkInAt b; checkOutAt := checkOutAt b;
     audit := audit b |}.

Definition set_approval (b : Booking) (a : option Approval) : Booking :=
  {| booking_id := booking_id b; userId := userId b;
     facilities := facilities b; startTime := startTime b;
     endTime := endTime b; status := status b; approval := a;
     isExternal := isExternal b; externalOrg := externalOrg b;
     checkInCode := checkInCode b; qrCodeUrl := qrCodeUrl b;
     checkInAt := checkInAt b; checkOutAt := checkOutAt b;
     audit := audit b |}.

Definition set_qrCodeUrl (b : Booking) (q : option QrPayload) : Booking :=
  {| booking_id := booking_id b; userId := userId b;
     facilities := facilities b; startTime := startTime b;
     endTime := endTime b; status := status b; approval := approval b;
     isExternal := isExternal b; externalOrg := externalOrg b;
     checkInCode := checkInCode b; qrCodeUrl := q;
     checkInAt := checkInAt b; checkOutAt := checkOutAt b;
     audit := audit b |}.

Definition set_checkInAt (b : Booking) (t : option Date) : Booking :=
  {| booking_id := booking_id b; userId := userId b;
     facilities := facilities b; startTime := startTime b;
     endTime := endTime b; status := status b; approval := approval b;
     isExternal := isExternal b; externalOrg := externalOrg b;
     checkInCode := checkInCode b; qrCodeUrl := qrCodeUrl b;
     checkInAt := t; checkOutAt := checkOutAt b;
     audit := audit b |}.

Definition set_checkOutAt (b : Booking) (t : option Date) : Booking :=
  {| booking_id := booking_id b; userId := userId b;
     facilities := facilities b; startTime := startTime b;
     endTime := endTime b; status := status b; approval := approval b;
     isExternal := isExternal b; externalOrg := externalOrg b;
     checkInCode := checkInCode b; qrCodeUrl := qrCodeUrl b;
     checkInAt := checkInAt b; checkOutAt := t;
     audit := audit b |}.

(** requireRole(roles): allowedRoles.includes(req.user.role). *)
Definition requireRole (roles : list Role) (user : User) : bool :=
  existsb (fun r => bool_decide (r = role user)) roles.

Definition manual_approval (env : Env) (user : User) (notes : option string)
    : Approval :=
  mkApproval (Some MANUAL) (Some (user_id user)) (Some (now env)) notes.

(** [if (s)] on an optional string: absent and empty are both falsy. *)
Definition truthy (s : option string) : option string :=
  match s with
  | Some EmptyString => None
  | other => other
  end.

(** The handler of PATCH /api/bookings/:id/approve. *)
Definition patch_approve (env : Env) (user : User) (db : DB)
    (id : ObjectId) (notes : option string) : Response Booking * DB :=
  if negb (requireRole [ADMIN] user) then
    (failure 403 "Insufficient permissions.", db)
  else
    match findById (bookingsColl db) id with
    | None => (failure 404 "Booking not found", db)
    | Some booking =>
        if negb (status_eqb (status booking) PENDING_ADMIN)
           && negb (status_eqb (status booking) PENDING)
        then (failure 400 "Only pending bookings can be approved", db)
        else
          let booking := set_status booking APPROVED in
          let booking :=
            set_approval booking (Some (manual_approval env user notes)) in
          let booking :=
            match qrCodeUrl booking with
            | Some _ => booking
            | None =>
                set_qrCodeUrl booking
                  (Some (mkQr (Some (booking_id booking))
                           (checkInCode booking) (facilities booking) true))
            end in
          let booking :=
            push_audit booking
              (mkAudit BOOKING_APPROVED (user_id user) (now env)) in
          let coll := update_doc booking (bookingsColl db) in
          (mkResponse 200 true "Booking approved successfully"
             (findById coll (booking_id booking)),
           set_bookings db coll)
    end.

(** The handler of PATCH /api/bookings/:id/reject. *)
Definition patch_reject (env : Env) (user : User) (db : DB)
    (id : ObjectId) (notes : option string) : Response Booking * DB :=
  if negb (requireRole [ADMIN] user) then
    (failure 403 "Insufficient permissions.", db)
  else
    match findById (bookingsColl db) id with
    | None => (failure 404 "Booking not found", db)
    | Some booking =>
        let booking := set_status booking REJECTED in
        let booking :=
          set_approval booking (Some (manual_approval env user notes)) in
        let booking :=
          push_audit booking
            (mkAudit BOOKING_REJECTED (user_id user) (now env)) in
        let coll := update_doc booking (bookingsColl db) in
        (mkResponse 200 true "Booking rejected successfully"
           (findById coll (booking_id booking)),
         set_bookings db coll)
    end.

(** Reading [booking.approval]. In BookingSchema [approval] is a nested
    path (an object of four fields, not a sub-document), and reading a
    nested path of a Mongoose document gives an object also when nothing
    is stored under it: each of its fields is then undefined. *)
Definition get_approval (b : Booking) : Approval :=
  match approval b with
  | Some a => a
  | None => mkApproval None None None None
  end.

(** The handler of PATCH /api/bookings/:id/cancel. *)
Definition patch_cancel (env : Env) (user : User) (db : DB)
    (id : ObjectId) (notes : option string) : Response Booking * DB :=
  match findById (bookingsColl db) id with
  | None => (failure 404 "Booking not found", db)
  | Some booking =>
      if negb (bool_decide (role user = ADMIN))
         && negb (N.eqb (userId booking) (user_id user))
      then (failure 403 "Access denied", db)
      else if status_eqb (status booking) CHECKED_IN
              || status_eqb (status booking) CHECKED_OUT
      then (failure 400
              "Cannot cancel booking that is already checked in or out", db)
      else
        let booking := set_status booking CANCELLED in
        let booking :=
          push_audit booking
            (mkAudit BOOKING_CANCELLED (user_id user) (now env)) in
        let booking :=
          match truthy notes with
          | Some n =>
              (* [if (!booking.approval) booking.approval = { type: 'MANUAL' }]
                 is not taken: the object read is truthy. *)
              let a := get_approval booking in
              set_approval booking
                (Some (mkApproval (approval_type a) (approval_by a)
                         (approval_at a) (Some n)))
          | None => booking
          end in
        let coll := update_doc booking (bookingsColl db) in
        (mkResponse 200 true "Booking cancelled successfully"
           (findById coll (booking_id booking)),
         set_bookings db coll)
  end.

(** ** POST /api/qr-scanner/scan *)

Definition is_lower (c : ascii) : bool :=
  let n := nat_of_ascii c in ((97 <=? n) && (n <=? 122))%nat.

Definition upper_ascii (c : ascii) : ascii :=
  if is_lower c then ascii_of_nat (nat_of_ascii c - 32) else c.

(** String.prototype.toUpperCase on the characters a check-in code is made
    of (nanoid draws from A-Z, a-z, 0-9, _ and -): the letters a-z go to
    A-Z, every other character is kept. *)
Fixpoint toUpperCase (s : string) : string :=
  match s with
  | EmptyString => EmptyString
  | String c rest => String (upper_ascii c) (toUpperCase rest)
  end.

Fixpoint has_lower (s : string) : bool :=
  match s with
  | EmptyString => false
  | String c rest => is_lower c || has_lower rest
  end.

Inductive ScanAction := checkin | checkout.

(** req.body of the scan route. [scan_qrData] is [None] when qrData is
    absent or empty, [Some None] when JSON.parse throws on it, and
    [Some (Some p)] when it parses to [p]. *)
Record ScanBody := mkScan {
  scan_qrData : option (option QrPayload);
  scan_manualCode : option string
}.

(** Booking.findOne(query) with query = { checkInCode } or
    { checkInCode, _id: bookingId }. *)
Definition findOne_checkIn (coll : list Booking) (code : string)
    (bookingId : option ObjectId) : option Booking :=
  List.find
    (fun b =>
       String.eqb (checkInCode b) code
       && match bookingId with
          | Some id => N.eqb (booking_id b) id
          | None => true
          end)
    coll.

(** Lines 11-37 of the handler: the query the request leads to, or the
    error response. *)
Definition scan_query (body : ScanBody)
    : Response (ScanAction * Booking) + (string * option ObjectId) :=
  match scan_qrData body with
  | Some (Some parsed) =>
      if negb (qr_type_is_access parsed)
      then inl (failure 400 "Invalid QR code type")
      else inr (qr_checkInCode parsed, qr_bookingId parsed)
  | Some None => inl (failure 400 "Invalid QR code format")
  | None =>
      match truthy (scan_manualCode body) with
      | Some manualCode => inr (toUpperCase manualCode, None)
      | None => inl (failure 400 "QR data or manual code required")
      end
  end.

(** The handler of POST /api/qr-scanner/scan. *)
Definition post_scan (env : Env) (user : User) (db : DB) (body : ScanBody)
    : Response (ScanAction * Booking) * DB :=
  if negb (requireRole [ADMIN; STAFF] user) then
    (failure 403 "Insufficient permissions.", db)
  else
    match scan_query body with
    | inl err => (err, db)
    | inr (code, bookingId) =>
        match findOne_checkIn (bookingsColl db) code bookingId with
        | None => (failure 404 "Invalid or expired check-in code", db)
        | Some booking =>
            if negb (existsb (status_eqb (status booking))
                       [APPROVED; CHECKED_IN])
            then (failure 400 "Booking is not approved for check-in", db)
            else
              let checkInStart := startTime booking - 30 * 60 * 1000 in
              let checkInEnd := endTime booking + 30 * 60 * 1000 in
              if now env <? checkInStart then
                (failure 400
                   "Check-in is only allowed 30 minutes before booking start time",
                 db)
              else if now env >? checkInEnd then
                (failure 400
                   "Booking has expired. Check-in no longer allowed.", db)
              else
                let transition :=
                  if status_eqb (status booking) APPROVED
                  then Some (checkin, CHECKED_IN,
                             set_checkInAt booking (Some (now env)))
                  else if status_eqb (status booking) CHECKED_IN
                  then Some (checkout, CHECKED_OUT,
                             set_checkOutAt booking (Some (now env)))
                  else None in
                match transition with
                | Some (action, newStatus, booking) =>
                    let booking := set_status booking newStatus in
                    let booking :=
                      push_audit booking
                        (mkAudit
                           (match action with
                            | checkin => QR_CHECKIN
                            | checkout => QR_CHECKOUT
                            end)
                           (user_id user) (now env)) in
                    (mkResponse 200 true EmptyString (Some (action, booking)),
                     set_bookings db (update_doc booking (bookingsColl db)))
                | None =>
                    (* action is undefined: action.toUpperCase() throws and
                       the catch block answers before anything is saved *)
                    (failure 500 "Cannot read properties of undefined", db)
                end
        end
    end.

(** ** /api/check-in-requests: create, approve, reject *)

Inductive RequestType := CHECK_IN | CHECK_OUT.

#[global] Instance RequestType_eq_dec : EqDecision RequestType.
Proof. solve_decision. Defined.

Inductive RequestStatus := REQUEST_PENDING | REQUEST_APPROVED | REQUEST_REJECTED.

#[global] Instance RequestStatus_eq_dec : EqDecision RequestStatus.
Proof. solve_decision. Defined.

(** CheckInRequest.feedback; a rating is a whole number here. *)
Record RequestFeedback := mkRequestFeedback {
  feedback_rating : option Z;
  feedback_comment : option string
}.

(** CheckInRequest.damageReport. *)
Record DamageReport := mkDamage {
  hasDamage : bool;
  damage_description : option string;
  reportedBy : option ObjectId
}.

(** CheckInRequestSchema. *)
Record CheckInRequest := mkRequest {
  request_id : ObjectId;
  request_bookingId : ObjectId;
  request_userId : ObjectId;
  request_facilityId : ObjectId;
  request_type : RequestType;
  request_status : RequestStatus;
  request_feedback : option RequestFeedback;
  request_damageReport : option DamageReport;
  processedBy : option ObjectId;
  processedAt : option Date
}.

Definition findRequestById (coll : list CheckInRequest) (id : ObjectId)
    : option CheckInRequest :=
  List.find (fun r => N.eqb (request_id r) id) coll.

Definition update_request (r : CheckInRequest) (coll : list CheckInRequest)
    : list CheckInRequest :=
  List.map (fun x => if N.eqb (request_id x) (request_id r) then r else x) coll.

(** CheckInRequest.findOne({ bookingId, type, status: 'PENDING' }). *)
Definition find_pending_request (coll : list CheckInRequest)
    (bookingId : ObjectId) (type : RequestType) : option CheckInRequest :=
  List.find
    (fun r => N.eqb (request_bookingId r) bookingId
              && bool_decide (request_type r = type)
              && bool_decide (request_status r = REQUEST_PENDING))
    coll.

(** req.body of POST /api/check-in-requests; [None] is an absent field. *)
Record RequestBody := mkRequestBody {
  rb_bookingId : option ObjectId;
  rb_facilityId : option ObjectId;
  rb_type : option RequestType;
  rb_feedback : option RequestFeedback
}.

(** The schema's validators for feedback.rating: min 1, max 5. *)
Definition request_valid (r : CheckInRequest) : bool :=
  match request_feedback r with
  | Some fb =>
      match feedback_rating fb with
      | Some n => (1 <=? n) && (n <=? 5)
      | None => true
      end
  | None => true
  end.

(** The handler of POST /api/check-in-requests. *)
Definition post_request (env : Env) (user : User)
    (requests : list CheckInRequest) (db : DB) (body : RequestBody)
    : Response CheckInRequest * list CheckInRequest :=
  match rb_bookingId body, rb_facilityId body, rb_type body with
  | Some bookingId, Some facilityId, Some type =>
      match findById (bookingsColl db) bookingId with
      | None => (failure 404 "Booking not found", requests)
      | Some booking =>
          if negb (N.eqb (userId booking) (user_id user)) then
            (failure 403 "Access denied", requests)
          else
            match find_pending_request requests bookingId type with
            | Some _ =>
                (failure 400
                   "A pending request already exists for this action",
                 requests)
            | None =>
                let request :=
                  {| request_id := freshId env;
                     request_bookingId := bookingId;
                     request_userId := user_id user;
                     request_facilityId := facilityId;
                     request_type := type;
                     request_status := REQUEST_PENDING;
                     request_feedback :=
                       match type with
                       | CHECK_OUT => rb_feedback body
                       | CHECK_IN => None
                       end;
                     request_damageReport := None;
                     processedBy := None;
                     processedAt := None |} in
                if negb (request_valid request) then
                  (* save() throws a ValidationError; the catch answers 500 *)
                  (failure 500 "CheckInRequest validation failed", requests)
                else
                  (mkResponse 201 true
                     (match type with
                      | CHECK_IN => "Check-in request submitted successfully"
                      | CHECK_OUT => "Check-out request submitted successfully"
                      end)
                     (Some request),
                   requests ++ [request])
            end
      end
  | _, _, _ =>
      (failure 400 "Booking ID, facility ID, and type are required", requests)
  end.

Definition process_request (request : CheckInRequest) (s : RequestStatus)
    (user : User) (t : Date) (damage : option DamageReport) : CheckInRequest :=
  {| request_id := request_id request;
     request_bookingId := request_bookingId request;
     request_userId := request_userId request;
     request_facilityId := request_facilityId request;
     request_type := request_type request;
     request_status := s;
     request_feedback := request_feedback request;
     request_damageReport := damage;
     processedBy := Some (user_id user);
     processedAt := Some t |}.

(** The handler of PATCH /api/check-in-requests/:id/approve: it writes the
    booking the request refers to, then the request. [damageReport] is
    req.body.damageReport. *)
Definition patch_request_approve (env : Env) (user : User)
    (requests : list CheckInRequest) (db : DB) (id : ObjectId)
    (damageReport : option DamageReport)
    : Response CheckInRequest * list CheckInRequest * DB :=
  if negb (requireRole [ADMIN; STAFF] user) then
    (failure 403 "Insufficient permissions.", requests, db)
  else
    match findRequestById requests id with
    | None => (failure 404 "Request not found", requests, db)
    | Some request =>
        if negb (bool_decide (request_status request = REQUEST_PENDING)) then
          (failure 400 "Only pending requests can be approved", requests, db)
        else
          match findById (bookingsColl db) (request_bookingId request) with
          | None => (failure 404 "Booking not found", requests, db)
          | Some booking =>
              let booking :=
                match request_type request with
                | CHECK_IN =>
                    push_audit
                      (set_checkInAt (set_status booking CHECKED_IN)
                         (Some (now env)))
                      (mkAudit MANUAL_CHECK_IN (user_id user) (now env))
                | CHECK_OUT =>
                    push_audit
                      (set_checkOutAt (set_status booking CHECKED_OUT)
                         (Some (now env)))
                      (mkAudit MANUAL_CHECK_OUT (user_id user) (now env))
                end in
              let db' := set_bookings db (update_doc booking (bookingsColl db)) in
              let request :=
                process_request request REQUEST_APPROVED user (now env)
                  (match damageReport with
                   | Some d =>
                       Some (mkDamage (hasDamage d) (damage_description d)
                               (Some (user_id user)))
                   | None => request_damageReport request
                   end) in
              (mkResponse 200 true
                 (match request_type request with
                  | CHECK_IN => "Check-in approved successfully"
                  | CHECK_OUT => "Check-out approved successfully"
                  end)
                 (Some request),
               update_request request requests, db')
          end
    end.

(** The handler of PATCH /api/check-in-requests/:id/reject. *)
Definition patch_request_reject (env : Env) (user : User)
    (requests : list CheckInRequest) (id : ObjectId)
    : Response CheckInRequest * list CheckInRequest :=
  if negb (requireRole [ADMIN; STAFF] user) then
    (failure 403 "Insufficient permissions.", requests)
  else
    match findRequestById requests id with
    | None => (failure 404 "Request not found", requests)
    | Some request =>
        if negb (bool_decide (request_status request = REQUEST_PENDING)) then
          (failure 400 "Only pending requests can be rejected", requests)
        else
          let request :=
            process_request request REQUEST_REJECTED user (now env)
              (request_damageReport request) in
          (mkResponse 200 true "Request rejected successfully" (Some request),
           update_request request requests)
    end.

(** At most one PENDING request per booking and type. *)
Definition pending_unique (requests : list CheckInRequest) : Prop :=
  forall i j r1 r2,
    i <> j -> requests !! i = Some r1 -> requests !! j = Some r2 ->
    request_status r1 = REQUEST_PENDING ->
    request_status r2 = REQUEST_PENDING ->
    request_bookingId r1 = request_bookingId r2 ->
    request_type r1 <> request_type r2.

(** ** The admission decision and the life cycle, as the handlers take them *)

Inductive Decision :=
| REJECT_CONFLICT | REJECT_INACTIVE | AUTO_APPROVE | REQUIRES_ADMIN_APPROVAL.

(** Which of the four exits of the handler (lines 82-151) a request with
    all three required fields takes: the 404 of the facility lookup, the 409
    of the conflict query, or the creation with [autoApprove] false or true. *)
Definition decision (db : DB) (facilityIds : list ObjectId)
    (startT endT : Date) (isExternal : bool) : Decision :=
  let facilities := find_requested (facilitiesColl db) facilityIds in
  if negb (length facilities =? length facilityIds)%nat then REJECT_INACTIVE
  else if (0 <? length (find_overlapping (bookingsColl db) facilityIds
                          startT endT))%nat
  then REJECT_CONFLICT
  else if requiresAdminApproval db facilities startT endT isExternal
  then REQUIRES_ADMIN_APPROVAL
  else AUTO_APPROVE.

(** A booking of the collection that is not rejected, cancelled or expired
    holds facility [fid] at some instant of [startT, endT). *)
Definition reserved (coll : list Booking) (startT endT : Date)
    (fid : ObjectId) : bool :=
  existsb
    (fun b => in_ids fid (facilities b)
              && status_nin (status b) [REJECTED; CANCELLED; EXPIRED]
              && ((startTime b <? endT) && (endTime b >? startT)))
    coll.

(** The pool of a type and the number of its members that are reserved. *)
Definition pool_ids (db : DB) (type : FacilityType) : list ObjectId :=
  List.map fac_id (find_pool (facilitiesColl db) type).

Definition reserved_count (db : DB) (startT endT : Date)
    (type : FacilityType) : nat :=
  length (List.filter (reserved (bookingsColl db) startT endT)
            (pool_ids db type)).

(** The ObjectId minted for a new booking is not one already stored. *)
Definition fresh (env : Env) (db : DB) : Prop :=
  freshId env ∉ List.map booking_id (bookingsColl db).

(** _id is a unique key of the bookings and of the facilities collection. *)
Definition unique_booking_ids (db : DB) : Prop :=
  NoDup (List.map booking_id (bookingsColl db)).

Definition unique_facility_ids (db : DB) : Prop :=
  NoDup (List.map fac_id (facilitiesColl db)).

Definition is_terminal (s : BookingStatus) : bool :=
  existsb (status_eqb s) [REJECTED; CANCELLED; EXPIRED; CHECKED_OUT].

(** The operations on a stored booking, each with what its request carries. *)
Inductive Operation :=
| Approve (id : ObjectId) (notes : option string)
| Reject (id : ObjectId) (notes : option string)
| Cancel (id : ObjectId) (notes : option string)
| Scan (body : ScanBody).

(** One request against the database: the HTTP status and the database
    the handler leaves. *)
Definition run (env : Env) (user : User) (db : DB) (op : Operation)
    : nat * DB :=
  match op with
  | Approve id notes =>
      let '(r, db') := patch_approve env user db id notes in
      (http_status r, db')
  | Reject id notes =>
      let '(r, db') := patch_reject env user db id notes in
      (http_status r, db')
  | Cancel id notes =>
      let '(r, db') := patch_cancel env user db id notes in
      (http_status r, db')
  | Scan body =>
      let '(r, db') := post_scan env user db body in
      (http_status r, db')
  end.

Definition status_of (db : DB) (id : ObjectId) : option BookingStatus :=
  status <$> findById (bookingsColl db) id.

Definition approval_of (db : DB) (id : ObjectId) : option (option Approval) :=
  approval <$> findById (bookingsColl db) id.

(** ** DELETE /api/bookings/:id, GET /api/bookings/:id, GET /api/qr-scanner/booking/:code *)

(** Booking.findByIdAndDelete(id): the first document with that _id goes. *)
Fixpoint delete_doc (id : ObjectId) (coll : list Booking) : list Booking :=
  match coll with
  | [] => []
  | x :: rest =>
      if N.eqb (booking_id x) id then rest else x :: delete_doc id rest
  end.

(** The handler of DELETE /api/bookings/:id. *)
Definition delete_booking (user : User) (db : DB) (id : ObjectId)
    : Response Booking * DB :=
  if negb (requireRole [ADMIN] user) then
    (failure 403 "Insufficient permissions.", db)
  else
    match findById (bookingsColl db) id with
    | None => (failure 404 "Booking not found", db)
    | Some _ =>
        (mkResponse 200 true "Booking deleted successfully" None,
         set_bookings db (delete_doc id (bookingsColl db)))
    end.

(** The handler of GET /api/bookings/:id. *)
Definition get_booking (user : User) (db : DB) (id : ObjectId)
    : Response Booking :=
  match findById (bookingsColl db) id with
  | None => failure 404 "Booking not found"
  | Some booking =>
      if negb (bool_decide (role user = ADMIN))
         && negb (N.eqb (userId booking) (user_id user))
      then failure 403 "Access denied"
      else mkResponse 200 true EmptyString (Some booking)
  end.

(** The handler of GET /api/qr-scanner/booking/:code. *)
Definition get_booking_by_code (user : User) (db : DB) (code : string)
    : Response Booking :=
  if negb (requireRole [ADMIN; STAFF] user) then
    failure 403 "Insufficient permissions."
  else
    match findOne_checkIn (bookingsColl db) (toUpperCase code) None with
    | None => failure 404 "Booking not found"
    | Some booking => mkResponse 200 true EmptyString (Some booking)
    end.

(** ** Login attempts and account lock (UserSchema) *)

(** The two fields of a User document the lock methods read and write.
    An unset [loginAttempts] reads as its default, 0. *)
Record LoginState := mkLogin {
  loginAttempts : Z;
  lockUntil : option Date
}.

(** UserSchema.virtual('isLocked'), read at time [t]. *)
Definition isLocked (u : LoginState) (t : Date) : bool :=
  match lockUntil u with
  | Some l => l >? t
  | None => false
  end.

(** UserSchema.methods.incrementLoginAttempts, run at time [t] on a
    document that is in step with the stored one: the stored fields after
    the updateOne. *)
Definition incrementLoginAttempts (u : LoginState) (t : Date) : LoginState :=
  if match lockUntil u with Some l => l <? t | None => false end then
    (* { $unset: { lockUntil: 1 }, $set: { loginAttempts: 1 } } *)
    mkLogin 1 None
  else if (loginAttempts u + 1 >=? 5) && negb (isLocked u t) then
    (* { $inc: { loginAttempts: 1 }, $set: { lockUntil: now + 2 h } } *)
    mkLogin (loginAttempts u + 1) (Some (t + 2 * 60 * 60 * 1000))
  else
    (* { $inc: { loginAttempts: 1 } } *)
    mkLogin (loginAttempts u + 1) (lockUntil u).

(** UserSchema.methods.resetLoginAttempts. *)
Definition resetLoginAttempts (u : LoginState) : LoginState :=
  mkLogin 0 None.

(** Failed logins at the times [ts], one after the other. *)
Definition failed_logins (u : LoginState) (ts : list Date) : LoginState :=
  fold_left incrementLoginAttempts ts u.

(** ** The Facility model: virtuals, methods and static queries *)

(** A Facility document with the further fields its methods and static
    queries read. *)
Record FacilityDoc := mkFacilityDoc {
  fd_base : Facility;
  allowedRoles : list Role;
  externalBookingEnabled : bool;
  availabilityStart : option Date;
  availabilityEnd : option Date
}.

(** FacilitySchema.virtual('isExternalBookingAvailable'), read at [t]. *)
Definition isExternalBookingAvailable (f : FacilityDoc) (t : Date) : bool :=
  if negb (externalBookingEnabled f) || negb (isAvailable (fd_base f))
  then false
  else
    let startAvailable :=
      match availabilityStart f with Some s => s <=? t | None => true end in
    let endAvailable :=
      match availabilityEnd f with Some e => e >=? t | None => true end in
    startAvailable && endAvailable.

(** FacilitySchema.methods.canUserBook. *)
Definition canUserBook (f : FacilityDoc) (userRole : Role) : bool :=
  if negb (isAvailable (fd_base f)) then false
  else existsb (fun r => bool_decide (r = userRole)) (allowedRoles f).

(** The values a queried field can hold; [VAbsent] for a field that is
    not set. *)
Inductive Value :=
| VBool (b : bool)
| VDate (d : Date)
| VType (t : FacilityType)
| VRoles (rs : list Role)
| VAbsent.

(** The conditions the static queries put on a field. *)
Inductive Cond :=
| CEq (v : Value)              (* field: v *)
| CInRoles (rs : list Role)    (* field: { $in: rs } on an array of roles *)
| CExists (b : bool)           (* field: { $exists: b } *)
| CLte (d : Date)              (* field: { $lte: d } *)
| CGte (d : Date).             (* field: { $gte: d } *)

(** What a query document holds under one key: a condition on the field
    of that name, or, under the key $or, a list of one-field documents. *)
Inductive QueryEntry :=
| QField (c : Cond)
| QOr (alternatives : list (string * Cond)).

(** A JavaScript object literal: the keys are set one after the other, so
    that a key written twice keeps its last value. *)
Definition object_literal (entries : list (string * QueryEntry))
    : gmap string QueryEntry :=
  fold_left (fun obj kv => <[kv.1 := kv.2]> obj) entries ∅.

Definition get_field (f : FacilityDoc) (key : string) : Value :=
  if String.eqb key "active" then VBool (active (fd_base f))
  else if String.eqb key "maintenanceMode"
  then VBool (maintenanceMode (fd_base f))
  else if String.eqb key "externalBookingEnabled"
  then VBool (externalBookingEnabled f)
  else if String.eqb key "type" then VType (fac_type (fd_base f))
  else if String.eqb key "allowedRoles" then VRoles (allowedRoles f)
  else if String.eqb key "availabilityStart"
  then match availabilityStart f with Some d => VDate d | None => VAbsent end
  else if String.eqb key "availabilityEnd"
  then match availabilityEnd f with Some d => VDate d | None => VAbsent end
  else VAbsent.

Definition match_cond (v : Value) (c : Cond) : bool :=
  match c, v with
  | CEq (VBool b), VBool b' => Bool.eqb b b'
  | CEq (VType t), VType t' => bool_decide (t = t')
  | CEq (VDate d), VDate d' => d =? d'
  | CEq _, _ => false
  | CInRoles rs, VRoles rs' =>
      existsb (fun r => existsb (fun r' => bool_decide (r = r')) rs) rs'
  | CInRoles _, _ => false
  | CExists b, VAbsent => negb b
  | CExists b, _ => b
  | CLte d, VDate d' => d' <=? d
  | CLte _, _ => false
  | CGte d, VDate d' => d' >=? d
  | CGte _, _ => false
  end.

Definition match_entry (f : FacilityDoc) (key : string) (e : QueryEntry)
    : bool :=
  match e with
  | QField c => match_cond (get_field f key) c
  | QOr alternatives =>
      existsb (fun kc => match_cond (get_field f kc.1) kc.2) alternatives
  end.

(** Facility.find(query): the documents that satisfy every entry. *)
Definition find_facilities (coll : list FacilityDoc)
    (query : gmap string QueryEntry) : list FacilityDoc :=
  List.filter
    (fun f => bool_decide (map_Forall (fun k e => match_entry f k e = true)
                             query))
    coll.

(** FacilitySchema.statics.findAvailable. *)
Definition findAvailable (coll : list FacilityDoc) (userRole : option Role)
    : list FacilityDoc :=
  let query :=
    object_literal [("active", QField (CEq (VBool true)));
                    ("maintenanceMode", QField (CEq (VBool false)))] in
  let query :=
    match userRole with
    | Some r => <["allowedRoles" := QField (CInRoles [r])]> query
    | None => query
    end in
  find_facilities coll query.

(** FacilitySchema.statics.findByType. *)
Definition findByType (coll : list FacilityDoc) (type : FacilityType)
    : list FacilityDoc :=
  find_facilities coll
    (object_literal [("type", QField (CEq (VType type)));
                     ("active", QField (CEq (VBool true)))]).

(** FacilitySchema.statics.findForExternalBooking, run at [t]. The literal
    writes the key $or twice. *)
Definition findForExternalBooking (coll : list FacilityDoc) (t : Date)
    : list FacilityDoc :=
  find_facilities coll
    (object_literal
       [("active", QField (CEq (VBool true)));
        ("externalBookingEnabled", QField (CEq (VBool true)));
        ("$or", QOr [("availabilityStart", CExists false);
                     ("availabilityStart", CLte t)]);
        ("$or", QOr [("availabilityEnd", CExists false);
                     ("availabilityEnd", CGte t)])]).

(** ** POST /api/feedback, PATCH /api/feedback/:id/respond, validateFeedback *)

Inductive FeedbackCategory := FACILITY | SERVICE | OVERALL.

Inductive FeedbackStatus := FEEDBACK_PENDING | FEEDBACK_REVIEWED | FEEDBACK_RESOLVED.

Record AdminResponse := mkAdminResponse {
  response_message : string;
  respondedBy : ObjectId;
  respondedAt : Date
}.

(** FeedbackSchema; a rating is a whole number here. *)
Record Feedback := mkFeedback {
  fb_id : ObjectId;
  fb_bookingId : ObjectId;
  fb_userId : ObjectId;
  fb_facilities : list ObjectId;
  fb_rating : option Z;
  fb_comment : option JsString;
  fb_category : FeedbackCategory;
  fb_isAnonymous : bool;
  fb_status : FeedbackStatus;
  fb_adminResponse : option AdminResponse
}.

(** req.body of POST /api/feedback; [None] is an absent field. *)
Record FeedbackBody := mkFeedbackBody {
  fbb_bookingId : option ObjectId;
  fbb_rating : option Z;
  fbb_comment : option JsString;
  fbb_category : option FeedbackCategory;
  fbb_isAnonymous : bool
}.

(** The validators of FeedbackSchema that a save() of a new document
    runs: rating required, min 1, max 5; comment maxlength 500, which
    compares the [length] of the string, its number of code units. *)
Definition feedback_valid (f : Feedback) : bool :=
  match fb_rating f with
  | Some n => (1 <=? n) && (n <=? 5)
  | None => false
  end
  && match fb_comment f with
     | Some c => (length c <=? 500)%nat
     | None => true
     end.

(** Feedback.findOne({ bookingId, userId }). *)
Definition find_feedback (coll : list Feedback) (bookingId userId : ObjectId)
    : option Feedback :=
  List.find (fun f => N.eqb (fb_bookingId f) bookingId
                      && N.eqb (fb_userId f) userId) coll.

(** The handler of POST /api/feedback. *)
Definition post_feedback (env : Env) (user : User) (feedbacks : list Feedback)
    (db : DB) (body : FeedbackBody) : Response Feedback * list Feedback :=
  match fbb_bookingId body ≫= findById (bookingsColl db) with
  | None => (failure 404 "Booking not found", feedbacks)
  | Some booking =>
      if negb (N.eqb (userId booking) (user_id user)) then
        (failure 403 "Not your booking", feedbacks)
      else if negb (status_eqb (status booking) CHECKED_OUT) then
        (failure 400 "Feedback can only be submitted for completed bookings",
         feedbacks)
      else
        match find_feedback feedbacks (booking_id booking) (user_id user) with
        | Some _ =>
            (failure 400 "Feedback already submitted for this booking",
             feedbacks)
        | None =>
            let feedback :=
              {| fb_id := freshId env;
                 fb_bookingId := booking_id booking;
                 fb_userId := user_id user;
                 fb_facilities := facilities booking;
                 fb_rating := fbb_rating body;
                 fb_comment := trim <$> fbb_comment body;
                 fb_category :=
                   match fbb_category body with
                   | Some c => c
                   | None => OVERALL
                   end;
                 fb_isAnonymous := fbb_isAnonymous body;
                 fb_status := FEEDBACK_PENDING;
                 fb_adminResponse := None |} in
            if negb (feedback_valid feedback) then
              (failure 400 "Validation error", feedbacks)
            else
              (mkResponse 201 true EmptyString (Some feedback),
               feedbacks ++ [feedback])
        end
  end.

(** The handler of PATCH /api/feedback/:id/respond. *)
Definition patch_feedback_respond (env : Env) (user : User)
    (feedbacks : list Feedback) (id : ObjectId) (message : option string)
    : Response Feedback * list Feedback :=
  if negb (requireRole [ADMIN] user) then
    (failure 403 "Insufficient permissions.", feedbacks)
  else
    match truthy message with
    | None => (failure 400 "Response message is required", feedbacks)
    | Some message =>
        match List.find (fun f => N.eqb (fb_id f) id) feedbacks with
        | None => (failure 404 "Feedback not found", feedbacks)
        | Some feedback =>
            let feedback :=
              {| fb_id := fb_id feedback;
                 fb_bookingId := fb_bookingId feedback;
                 fb_userId := fb_userId feedback;
                 fb_facilities := fb_facilities feedback;
                 fb_rating := fb_rating feedback;
                 fb_comment := fb_comment feedback;
                 fb_category := fb_category feedback;
                 fb_isAnonymous := fb_isAnonymous feedback;
                 fb_status := FEEDBACK_REVIEWED;
                 fb_adminResponse :=
                   Some (mkAdminResponse message (user_id user) (now env)) |}
            in
            (mkResponse 200 true EmptyString (Some feedback),
             List.map (fun x => if N.eqb (fb_id x) (fb_id feedback)
                                then feedback else x) feedbacks)
        end
    end.

(** The rule chain of [validateFeedback]; [true] when validationResult is
    empty. The isMongoId and isIn rules hold of every value of the types
    used here. *)
Definition validateFeedback (body : FeedbackBody) : bool :=
  (* body('bookingId').isMongoId() *)
  match fbb_bookingId body with Some _ => true | None => false end
  (* body('rating').isInt({ min: 1, max: 5 }) *)
  && match fbb_rating body with
     | Some n => (1 <=? n) && (n <=? 5)
     | None => false
     end
  (* body('comment').optional().trim().isLength({ max: 500 }) *)
  && match fbb_comment body with
     | Some c => isLength 0 500 (trim c)
     | None => true
     end.

(** A string of which isLength counts every code unit: it holds no high
    surrogate, hence no surrogate pair, and no variation selector. *)
Definition counted_in_full (s : JsString) : bool :=
  forallb (fun u => negb (is_high_surrogate u)
                    && negb ((u =? 65039) || (u =? 65038))%N) s.

(** At most one feedback per booking and user. *)
Definition feedback_unique (feedbacks : list Feedback) : Prop :=
  forall i j f1 f2,
    i <> j -> feedbacks !! i = Some f1 -> feedbacks !! j = Some f2 ->
    fb_bookingId f1 = fb_bookingId f2 -> fb_userId f1 <> fb_userId f2.

(** ** The requests that write the bookings collection *)

(** The handlers that save or delete a booking: the routes of bookings.js
    (create, approve, reject, cancel, delete), the scan of qr-scanner.js
    and the approval of a check-in request. No other handler writes a
    booking. *)
Inductive Route :=
| CreateBooking (body : BookingBody)
| ChangeBooking (op : Operation)
| DeleteBooking (id : ObjectId)
| ApproveCheckInRequest (id : ObjectId) (damageReport : option DamageReport).

(** The database a request leaves. *)
Definition handle (env : Env) (user : User) (requests : list CheckInRequest)
    (db : DB) (r : Route) : DB :=
  match r with
  | CreateBooking body => snd (post_booking env user db body)
  | ChangeBooking op => snd (run env user db op)
  | DeleteBooking id => snd (delete_booking user db id)
  | ApproveCheckInRequest id damageReport =>
      snd (patch_request_approve env user requests db id damageReport)
  end.

(** ** DELETE /api/facilities/:id *)

Definition set_active (f : Facility) (a : bool) : Facility :=
  {| fac_id := fac_id f; fac_type := fac_type f; capacity := capacity f;
     isRestricted := isRestricted f;
     bufferMinutesBetween := bufferMinutesBetween f;
     active := a; maintenanceMode := maintenanceMode f |}.

(** The handler of DELETE /api/facilities/:id: a soft delete. The save()
    re-runs the pre-save checks of the schema, which a document that was
    saved before passes again, none of the fields they read being
    changed. *)
Definition delete_facility (user : User) (db : DB) (id : ObjectId)
    : Response Facility * DB :=
  if negb (requireRole [ADMIN] user) then
    (failure 403 "Insufficient permissions.", db)
  else
    match List.find (fun f => N.eqb (fac_id f) id) (facilitiesColl db) with
    | None => (failure 404 "Facility not found", db)
    | Some facility =>
        let facility := set_active facility false in
        (mkResponse 200 true "Facility deleted successfully" None,
         {| facilitiesColl :=
              List.map (fun x => if N.eqb (fac_id x) (fac_id facility)
                                 then facility else x) (facilitiesColl db);
            bookingsColl := bookingsColl db;
            settingsColl := settingsColl db |})
    end.

(** ** Invariants and relations used to state what the handlers keep *)

(** A booking that the conflict query takes into account. *)
Definition live (b : Booking) : bool :=
  status_nin (status b) [REJECTED; CANCELLED; EXPIRED].

Definition shares_facility (a b : Booking) : Prop :=
  exists fid, fid ∈ facilities a /\ fid ∈ facilities b.

Definition overlaps (a b : Booking) : Prop :=
  startTime a < endTime b /\ startTime b < endTime a.

(** No two live bookings stored at different positions hold a common
    facility over intersecting intervals. *)
Definition conflict_free (coll : list Booking) : Prop :=
  forall i j a b,
    i <> j -> coll !! i = Some a -> coll !! j = Some b ->
    live a = true -> live b = true ->
    shares_facility a b -> ~ overlaps a b.

(** The fields no handler assigns once the booking is stored. *)
Definition same_core (b b' : Booking) : Prop :=
  booking_id b' = booking_id b /\ userId b' = userId b
  /\ facilities b' = facilities b
  /\ startTime b' = startTime b /\ endTime b' = endTime b
  /\ isExternal b' = isExternal b /\ externalOrg b' = externalOrg b
  /\ checkInCode b' = checkInCode b.

(** The status assignments of the four handlers behind [run], each with
    the statuses its guard lets through. *)
Inductive status_step : Operation -> BookingStatus -> BookingStatus -> Prop :=
| step_approve id notes s :
    s = PENDING \/ s = PENDING_ADMIN ->
    status_step (Approve id notes) s APPROVED
| step_reject id notes s :
    status_step (Reject id notes) s REJECTED
| step_cancel id notes s :
    s <> CHECKED_IN -> s <> CHECKED_OUT ->
    status_step (Cancel id notes) s CANCELLED
| step_checkin body :
    status_step (Scan body) APPROVED CHECKED_IN
| step_checkout body :
    status_step (Scan body) CHECKED_IN CHECKED_OUT.

(** ** A small database used by the examples *)

Module Sample.

Definition room (id : ObjectId) (t : FacilityType) (restricted act maint : bool)
    : Facility :=
  mkFacility id t 10 restricted 15 act maint.

Definition held (id fid : ObjectId) (s e : Date) (st : BookingStatus)
    (code : string) : Booking :=
  mkBooking id 100%N [fid] s e st None false None code None None None [].

Definition student : User := mkUser 100%N STUDENT.
Definition admin : User := mkUser 1%N ADMIN.
Definition env0 : Env := mkEnv 5000 77%N "V1StGXR8".

(** Two conference rooms, the first with an approved booking 10:00-11:00
    (in minutes, as in the concrete scenario of the specification), a
    restricted lab, an inactive hall, a bus under maintenance and a second
    bus booked 10:00-11:00. *)
Definition db0 : DB :=
  mkDB [room 1%N CONFERENCE_ROOM false true false;
        room 2%N CONFERENCE_ROOM false true false;
        room 3%N LAB true true false;
        room 4%N HALL false false false;
        room 5%N BUS false true true;
        room 6%N BUS false true false]
       [held 50%N 1%N 600 660 APPROVED "aB3dE6gH";
        held 51%N 6%N 600 660 APPROVED "QRSTUVWX"]
       [defaultSettings].

(** A single bus, under maintenance, and no booking. *)
Definition db1 : DB :=
  mkDB [room 5%N BUS false true true] [] [defaultSettings].

Definition request (ids : list ObjectId) (s e : Date) (ext : bool)
    : BookingBody :=
  mkBody (Some ids) (Some s) (Some e) ext None.

(** [db0] after the student has asked for the restricted lab (booking 77,
    created PENDING_ADMIN), and after the administrator has rejected it. *)
Definition db_pending : DB :=
  snd (post_booking env0 student db0 (request [3%N] 0 10 false)).

Definition db_rejected : DB :=
  snd (run env0 admin db_pending (Reject 77%N None)).

(** One pending check-in request, by the student, for booking 50. *)
Definition requests0 : list CheckInRequest :=
  [mkRequest 9%N 50%N 100%N 1%N CHECK_IN REQUEST_PENDING None None None None].

(** [db0] with the settings document switched to manual approval only. *)
Definition db_manual_only : DB :=
  set_settings db0
    [mkSettings false 30 10 5 true [] 180].

(** Two bookings of the student that are over, and the feedback the
    student has left for the second one. *)
Definition db_done : DB :=
  set_bookings db0
    [held 60%N 1%N 0 10 CHECKED_OUT "ZZZZ0000";
     held 61%N 2%N 20 30 CHECKED_OUT "YYYY1111"].

Definition feedbacks0 : list Feedback :=
  [mkFeedback 900%N 61%N 100%N [2%N] (Some 5) None OVERALL false
     FEEDBACK_PENDING None].

Definition feedback_body (bid : ObjectId) (rating : Z) (comment : string)
    : FeedbackBody :=
  mkFeedbackBody (Some bid) (Some rating) (Some (js_string comment)) None
    false.

End Sample.

Lemma sample_fresh0 : fresh Sample.env0 Sample.db0.
Proof. unfold fresh. apply (bool_decide_unpack _). vm_compute. exact I. Qed.

Lemma sample_fresh1 : fresh Sample.env0 Sample.db1.
Proof. unfold fresh. apply (bool_decide_unpack _). vm_compute. exact I. Qed.

Lemma sample_unique_facilities0 : unique_facility_ids Sample.db0.
Proof.
  unfold unique_facility_ids. apply (bool_decide_unpack _). vm_compute. exact I.
Qed.

Lemma sample_unique_facilities1 : unique_facility_ids Sample.db1.
Proof.
  unfold unique_facility_ids. apply (bool_decide_unpack _). vm_compute. exact I.
Qed.

Lemma sample_unique_bookings0 : unique_booking_ids Sample.db0.
Proof.
  unfold unique_booking_ids. apply (bool_decide_unpack _). vm_compute. exact I.
Qed.

Example sample_overlap_409 :
  http_status (fst (post_booking Sample.env0 Sample.student Sample.db0
                      (Sample.request [1%N] 630 690 false))) = 409%nat.
Proof. reflexivity. Qed.

Example sample_touching_created :
  let '(r, db') := post_booking Sample.env0 Sample.student Sample.db0
                     (Sample.request [1%N] 660 720 false) in
  http_status r = 201%nat /\ status <$> data r = Some APPROVED
  /\ length (bookingsColl db') = 3%nat.
Proof. vm_compute. auto. Qed.

Example sample_restricted_pending :
  status <$> data (fst (post_booking Sample.env0 Sample.student Sample.db0
                          (Sample.request [3%N] 0 10 false)))
  = Some PENDING_ADMIN.
Proof. reflexivity. Qed.

Example sample_inactive_404 :
  http_status (fst (post_booking Sample.env0 Sample.student Sample.db0
                      (Sample.request [4%N] 0 10 false))) = 404%nat.
Proof. reflexivity. Qed.

(** ** Query predicates *)

Lemma in_ids_spec (x : ObjectId) (ids : list ObjectId) :
  in_ids x ids = true <-> x ∈ ids.
Proof.
  unfold in_ids. rewrite existsb_exists. split.
  - intros (y & Hy & Heq). apply N.eqb_eq in Heq. subst.
    by apply list_elem_of_In.
  - intros Hx. exists x. split; [by apply list_elem_of_In | apply N.eqb_refl].
Qed.

Lemma array_in_spec (arr ids : list ObjectId) :
  array_in arr ids = true <-> exists fid, fid ∈ arr /\ fid ∈ ids.
Proof.
  unfold array_in. rewrite existsb_exists. split.
  - intros (y & Hy & Hin). exists y. split; [by apply list_elem_of_In |].
    by apply in_ids_spec.
  - intros (y & Hy & Hin). exists y. split; [by apply list_elem_of_In |].
    by apply in_ids_spec.
Qed.

Lemma status_eqb_spec (s t : BookingStatus) : status_eqb s t = true <-> s = t.
Proof. unfold status_eqb. apply bool_decide_eq_true. Qed.

Lemma status_nin_spec (s : BookingStatus) (excluded : list BookingStatus) :
  status_nin s excluded = true <-> s ∉ excluded.
Proof.
  unfold status_nin. rewrite negb_true_iff, <- not_true_iff_false.
  rewrite existsb_exists. split.
  - intros Hno Hin. apply Hno. exists s.
    split; [by apply list_elem_of_In | by apply status_eqb_spec].
  - intros Hnot (t & Ht & Heq). apply status_eqb_spec in Heq. subst.
    by apply Hnot, list_elem_of_In.
Qed.

Lemma overlap_filter_spec ids startT endT (R : Booking) :
  overlap_filter ids startT endT R = true <->
  (exists fid, fid ∈ facilities R /\ fid ∈ ids)
  /\ (status R ∉ [REJECTED; CANCELLED; EXPIRED])
  /\ startTime R < endT /\ endTime R > startT.
Proof.
  unfold overlap_filter.
  rewrite !andb_true_iff, array_in_spec, status_nin_spec, Z.ltb_lt, Z.gtb_gt.
  tauto.
Qed.

Lemma find_overlapping_spec coll ids startT endT (R : Booking) :
  R ∈ find_overlapping coll ids startT endT <->
  R ∈ coll /\ overlap_filter ids startT endT R = true.
Proof.
  unfold find_overlapping. rewrite !list_elem_of_In. apply filter_In.
Qed.

Lemma length_pos_exists {A} (l : list A) :
  (0 <? length l)%nat = true <-> exists x, x ∈ l.
Proof.
  rewrite Nat.ltb_lt. destruct l as [|x l]; simpl.
  - split; [lia | intros [x Hx]; by apply elem_of_nil in Hx].
  - split; [intros _; exists x; left | lia].
Qed.

Lemma reserved_spec coll startT endT fid :
  reserved coll startT endT fid = true <->
  exists R, R ∈ coll /\ fid ∈ facilities R
            /\ (status R ∉ [REJECTED; CANCELLED; EXPIRED])
            /\ startTime R < endT /\ endTime R > startT.
Proof.
  unfold reserved. rewrite existsb_exists. split.
  - intros (R & HR & Hc). exists R.
    rewrite !andb_true_iff, in_ids_spec, status_nin_spec, Z.ltb_lt, Z.gtb_gt in Hc.
    rewrite list_elem_of_In. tauto.
  - intros (R & HR & Hc). exists R.
    rewrite !andb_true_iff, in_ids_spec, status_nin_spec, Z.ltb_lt, Z.gtb_gt.
    rewrite <- list_elem_of_In. tauto.
Qed.

(** ** The conflict query of booking creation *)

(** C1. Once a creation request has passed the facility lookup, the handler
    reports a conflict (answers 409) exactly when some stored booking [R]
    has a status outside REJECTED, CANCELLED and EXPIRED, shares a facility
    id with the request and satisfies R.startTime < end and
    R.endTime > start. A booking that ends at the request's start is never
    among the conflicts. *)
Theorem conflict_reported_iff (env : Env) (user : User) (db : DB)
    (body : BookingBody) (ids : list ObjectId) (startT endT : Date) :
  req_facilityIds body = Some ids ->
  req_startTime body = Some startT ->
  req_endTime body = Some endT ->
  length (find_requested (facilitiesColl db) ids) = length ids ->
  (http_status (fst (post_booking env user db body)) = 409%nat <->
   exists R, R ∈ bookingsColl db
             /\ (status R ∉ [REJECTED; CANCELLED; EXPIRED])
             /\ (exists fid, fid ∈ facilities R /\ fid ∈ ids)
             /\ startTime R < endT /\ endTime R > startT)
  /\ (forall R, endTime R = startT ->
        R ∉ find_overlapping (bookingsColl db) ids startT endT).
Proof.
  intros Hids Hs He Hlen. split.
  - unfold post_booking. rewrite Hids, Hs, He, Hlen, Nat.eqb_refl. simpl.
    destruct (0 <? length (find_overlapping (bookingsColl db) ids startT endT))%nat
      eqn:Hc; simpl.
    + split; [intros _ | done].
      apply length_pos_exists in Hc as [R HR].
      apply find_overlapping_spec in HR as [HR Hf].
      apply overlap_filter_spec in Hf. exists R. tauto.
    + split; [discriminate |].
      intros (R & HR & Hst & Hfid & Hlt & Hgt).
      assert ((0 <? length (find_overlapping (bookingsColl db) ids startT endT))%nat
              = true) as Hpos; [| congruence].
      apply length_pos_exists. exists R. apply find_overlapping_spec.
      split; [done |]. apply overlap_filter_spec. tauto.
  - intros R Hend HR. apply find_overlapping_spec in HR as [_ Hf].
    apply overlap_filter_spec in Hf. lia.
Qed.

Lemma conflict_reported_iff_witness :
  (http_status (fst (post_booking Sample.env0 Sample.student Sample.db0
                       (Sample.request [1%N] 660 720 false))) = 409%nat <->
   exists R, R ∈ bookingsColl Sample.db0
             /\ (status R ∉ [REJECTED; CANCELLED; EXPIRED])
             /\ (exists fid, fid ∈ facilities R /\ fid ∈ [1%N])
             /\ startTime R < 720 /\ endTime R > 660)
  /\ (forall R, endTime R = 660 ->
        R ∉ find_overlapping (bookingsColl Sample.db0) [1%N] 660 720).
Proof.
  apply (conflict_reported_iff Sample.env0 Sample.student Sample.db0
           (Sample.request [1%N] 660 720 false) [1%N] 660 720);
    reflexivity.
Defined.

(** ** Saving and reloading documents *)

Lemma find_app_fresh (coll : list Booking) (b : Booking) :
  booking_id b ∉ List.map booking_id coll ->
  findById (coll ++ [b]) (booking_id b) = Some b.
Proof.
  unfold findById. induction coll as [|x coll IH]; simpl; intros Hfresh.
  - by rewrite N.eqb_refl.
  - destruct (N.eqb_spec (booking_id x) (booking_id b)) as [Heq|Hne].
    + exfalso. apply Hfresh. rewrite Heq. left.
    + apply IH. intros Hin. apply Hfresh. by right.
Qed.

Lemma update_doc_fresh (coll : list Booking) (b : Booking) :
  booking_id b ∉ List.map booking_id coll -> update_doc b coll = coll.
Proof.
  unfold update_doc. induction coll as [|x coll IH]; simpl; intros Hfresh.
  - done.
  - destruct (N.eqb_spec (booking_id x) (booking_id b)) as [Heq|Hne].
    + exfalso. apply Hfresh. rewrite Heq. left.
    + f_equal. apply IH. intros Hin. apply Hfresh. by right.
Qed.

Lemma update_doc_app (b : Booking) (l k : list Booking) :
  update_doc b (l ++ k) = update_doc b l ++ update_doc b k.
Proof. unfold update_doc. apply map_app. Qed.

(** The answer and the effect of a creation request that carries its three
    required fields, exit by exit. *)
Lemma post_booking_exits (env : Env) (user : User) (db : DB)
    (body : BookingBody) (ids : list ObjectId) (startT endT : Date) :
  req_facilityIds body = Some ids ->
  req_startTime body = Some startT ->
  req_endTime body = Some endT ->
  fresh env db ->
  post_booking env user db body =
  match decision db ids startT endT (req_isExternal body) with
  | REJECT_INACTIVE =>
      (failure 404 "One or more facilities not found or inactive", db)
  | REJECT_CONFLICT =>
      (failure 409 "Facility is already booked during this time slot", db)
  | REQUIRES_ADMIN_APPROVAL =>
      let b := new_booking env user ids startT endT body false in
      (mkResponse 201 true "Booking created successfully" (Some b),
       set_bookings db
         (bookingsColl db
          ++ [push_audit b (mkAudit BOOKING_CREATED (user_id user) (now env))]))
  | AUTO_APPROVE =>
      let b := new_booking env user ids startT endT body true in
      (mkResponse 201 true "Booking created and approved automatically"
         (Some b),
       set_bookings db
         (bookingsColl db
          ++ [push_audit b (mkAudit BOOKING_CREATED (user_id user) (now env))]))
  end.
Proof.
  intros Hids Hs He Hfresh. unfold post_booking, decision.
  rewrite Hids, Hs, He.
  destruct (negb (length (find_requested (facilitiesColl db) ids)
                  =? length ids)%nat); [done |].
  destruct (0 <? length (find_overlapping (bookingsColl db) ids startT endT))%nat;
    [done |].
  assert (forall auto,
    let b := new_booking env user ids startT endT body auto in
    let b' := push_audit b (mkAudit BOOKING_CREATED (user_id user) (now env)) in
    findById (insert_doc b (bookingsColl db)) (booking_id b) = Some b
    /\ update_doc b' (insert_doc b (bookingsColl db)) = bookingsColl db ++ [b'])
    as Hsave.
  { intros auto b b'. unfold insert_doc. split.
    - by apply find_app_fresh.
    - rewrite update_doc_app, update_doc_fresh by done.
      unfold update_doc. simpl. by rewrite N.eqb_refl. }
  destruct (requiresAdminApproval db (find_requested (facilitiesColl db) ids)
              startT endT (req_isExternal body)); simpl negb; cbv zeta;
    [destruct (Hsave false) as [-> ->] | destruct (Hsave true) as [-> ->]];
    done.
Qed.

(** ** Decision and persisted state *)

(** C6. For a creation request carrying its required fields, the exit the
    handler takes fixes the persisted state: AUTO_APPROVE appends one
    booking with status APPROVED and approval.type AUTO; on
    REQUIRES_ADMIN_APPROVAL the appended booking has status PENDING_ADMIN
    (and no approval); REJECT_CONFLICT and REJECT_INACTIVE answer with an
    error (409, 404) and leave the database as it was. *)
Theorem decision_fixes_persisted_state (env : Env) (user : User) (db : DB)
    (body : BookingBody) (ids : list ObjectId) (startT endT : Date) :
  req_facilityIds body = Some ids ->
  req_startTime body = Some startT ->
  req_endTime body = Some endT ->
  fresh env db ->
  let r := fst (post_booking env user db body) in
  let db' := snd (post_booking env user db body) in
  match decision db ids startT endT (req_isExternal body) with
  | AUTO_APPROVE =>
      http_status r = 201%nat
      /\ exists b, bookingsColl db' = bookingsColl db ++ [b]
           /\ status b = APPROVED
           /\ (approval b ≫= approval_type) = Some AUTO
           /\ (status <$> data r) = Some APPROVED
  | REQUIRES_ADMIN_APPROVAL =>
      http_status r = 201%nat
      /\ exists b, bookingsColl db' = bookingsColl db ++ [b]
           /\ status b = PENDING_ADMIN
           /\ approval b = None
           /\ (status <$> data r) = Some PENDING_ADMIN
  | REJECT_CONFLICT =>
      http_status r = 409%nat /\ success r = false /\ db' = db
  | REJECT_INACTIVE =>
      http_status r = 404%nat /\ success r = false /\ db' = db
  end.
Proof.
  intros Hids Hs He Hfresh.
  rewrite (post_booking_exits env user db body ids startT endT) by done.
  destruct (decision db ids startT endT (req_isExternal body)); simpl.
  - done.
  - done.
  - split; [done | eexists; split; [reflexivity | done]].
  - split; [done | eexists; split; [reflexivity | done]].
Qed.

Lemma decision_fixes_persisted_state_witness :
  http_status (fst (post_booking Sample.env0 Sample.student Sample.db0
                      (Sample.request [2%N] 600 660 false))) = 201%nat
  /\ exists b,
       bookingsColl (snd (post_booking Sample.env0 Sample.student Sample.db0
                            (Sample.request [2%N] 600 660 false)))
       = bookingsColl Sample.db0 ++ [b]
       /\ status b = APPROVED
       /\ (approval b ≫= approval_type) = Some AUTO
       /\ (status <$> data (fst (post_booking Sample.env0 Sample.student
                                   Sample.db0
                                   (Sample.request [2%N] 600 660 false))))
          = Some APPROVED.
Proof.
  apply (decision_fixes_persisted_state Sample.env0 Sample.student Sample.db0
           (Sample.request [2%N] 600 660 false) [2%N] 600 660);
    try reflexivity.
  apply sample_fresh0.
Defined.

(** ** The facility lookup *)

Lemma find_requested_spec coll ids (f : Facility) :
  f ∈ find_requested coll ids <->
  f ∈ coll /\ fac_id f ∈ ids /\ active f = true.
Proof.
  unfold find_requested.
  rewrite list_elem_of_In, filter_In, andb_true_iff, in_ids_spec.
  rewrite <- list_elem_of_In. tauto.
Qed.

Lemma NoDup_map_filter {A B} (f : A -> B) (p : A -> bool) (l : list A) :
  NoDup (List.map f l) -> NoDup (List.map f (List.filter p l)).
Proof.
  induction l as [|x l IH]; simpl; [done |].
  rewrite NoDup_cons. intros [Hx Hl].
  destruct (p x); simpl; [| by apply IH].
  apply NoDup_cons. split; [| by apply IH].
  intros Hin. apply Hx.
  apply list_elem_of_In, in_map_iff in Hin as (y & Hy & Hin).
  apply filter_In in Hin as [Hin _].
  apply list_elem_of_In, in_map_iff. eauto.
Qed.

Lemma unique_key {A} (key : A -> ObjectId) (l : list A) (x y : A) :
  NoDup (List.map key l) -> x ∈ l -> y ∈ l -> key x = key y -> x = y.
Proof.
  induction l as [|z l IH]; simpl; intros Hnd Hx Hy Heq.
  - by apply elem_of_nil in Hx.
  - apply NoDup_cons in Hnd as [Hz Hnd].
    apply elem_of_cons in Hx as [-> | Hx];
      apply elem_of_cons in Hy as [-> | Hy]; try done.
    + exfalso. apply Hz. rewrite Heq.
      apply list_elem_of_In, in_map, list_elem_of_In, Hy.
    + exfalso. apply Hz. rewrite <- Heq.
      apply list_elem_of_In, in_map, list_elem_of_In, Hx.
    + by apply IH.
Qed.

(** With _id a unique key, the lookup returns fewer documents than ids
    were asked for as soon as one requested facility is inactive. *)
Lemma lookup_short_when_inactive (db : DB) (ids : list ObjectId)
    (f : Facility) :
  unique_facility_ids db ->
  f ∈ facilitiesColl db -> fac_id f ∈ ids -> active f = false ->
  (length (find_requested (facilitiesColl db) ids) < length ids)%nat.
Proof.
  intros Hnd Hf Hid Hact.
  set (found := List.map fac_id (find_requested (facilitiesColl db) ids)).
  assert (NoDup (fac_id f :: found)) as Hnd'.
  { apply NoDup_cons. split; [| by apply NoDup_map_filter].
    intros Hin. apply list_elem_of_In, in_map_iff in Hin as (g & Hg & Hin).
    apply list_elem_of_In, find_requested_spec in Hin as (Hgc & _ & Hga).
    assert (g = f) by (by apply (unique_key fac_id (facilitiesColl db))).
    subst. congruence. }
  assert (fac_id f :: found ⊆+ ids) as Hsub.
  { apply NoDup_submseteq; [done |]. intros x Hx.
    apply elem_of_cons in Hx as [-> | Hx]; [done |].
    apply list_elem_of_In, in_map_iff in Hx as (g & <- & Hin).
    by apply list_elem_of_In, find_requested_spec in Hin as (_ & ? & _). }
  apply submseteq_length in Hsub. simpl in Hsub. unfold found in Hsub.
  rewrite length_map in Hsub. lia.
Qed.

(** The part of the availability rule the lookup does enforce: a request
    naming a facility with [active = false] leaves by the 404 exit. *)
Lemma inactive_facility_rejected (db : DB) (ids : list ObjectId)
    (startT endT : Date) (ext : bool) (f : Facility) :
  unique_facility_ids db ->
  f ∈ facilitiesColl db -> fac_id f ∈ ids -> active f = false ->
  decision db ids startT endT ext = REJECT_INACTIVE.
Proof.
  intros Hnd Hf Hid Hact. unfold decision.
  pose proof (lookup_short_when_inactive db ids f Hnd Hf Hid Hact) as Hlt.
  destruct (Nat.eqb_spec (length (find_requested (facilitiesColl db) ids))
              (length ids)); [lia | done].
Qed.

(** ** Mandatory manual-approval triggers *)

Lemma requiresAdminApproval_trigger db facs startT endT ext :
  existsb isRestricted facs || ext = true ->
  requiresAdminApproval db facs startT endT ext = true.
Proof. unfold requiresAdminApproval. by intros ->. Qed.

(** C3. When the request is external or names a restricted facility, the
    handler never takes the AUTO_APPROVE exit: either the request is refused
    and nothing is stored, or the booking is created with status
    PENDING_ADMIN, whatever the bookings already stored. *)
Theorem triggers_force_admin_approval (env : Env) (user : User) (db : DB)
    (body : BookingBody) (ids : list ObjectId) (startT endT : Date) :
  req_facilityIds body = Some ids ->
  req_startTime body = Some startT ->
  req_endTime body = Some endT ->
  fresh env db ->
  unique_facility_ids db ->
  (req_isExternal body = true
   \/ exists f, f ∈ facilitiesColl db /\ fac_id f ∈ ids
                /\ isRestricted f = true) ->
  let r := fst (post_booking env user db body) in
  let db' := snd (post_booking env user db body) in
  decision db ids startT endT (req_isExternal body) <> AUTO_APPROVE
  /\ ((success r = false /\ db' = db)
      \/ (http_status r = 201%nat
          /\ (status <$> data r) = Some PENDING_ADMIN
          /\ exists b, bookingsColl db' = bookingsColl db ++ [b]
                       /\ status b = PENDING_ADMIN)).
Proof.
  intros Hids Hs He Hfresh Hnd Htrig.
  assert (decision db ids startT endT (req_isExternal body) <> AUTO_APPROVE)
    as Hne.
  { unfold decision.
    destruct (Nat.eqb_spec (length (find_requested (facilitiesColl db) ids))
                (length ids)) as [Hlen|]; [simpl | done].
    destruct (0 <? length _)%nat; [done |].
    rewrite requiresAdminApproval_trigger; [done |].
    destruct Htrig as [-> | (f & Hf & Hid & Hr)]; [apply orb_true_r |].
    apply orb_true_iff. left. apply existsb_exists. exists f.
    split; [| done]. apply list_elem_of_In, find_requested_spec.
    repeat split; try done.
    destruct (active f) eqn:Hact; [done |].
    pose proof (lookup_short_when_inactive db ids f Hnd Hf Hid Hact). lia. }
  split; [done |]. cbv zeta.
  rewrite (post_booking_exits env user db body ids startT endT) by done.
  destruct (decision db ids startT endT (req_isExternal body)); simpl.
  - by left.
  - by left.
  - done.
  - right. split; [done |]. split; [done |]. eexists. by split.
Qed.

Lemma triggers_force_admin_approval_witness :
  decision Sample.db0 [3%N] 0 10 false <> AUTO_APPROVE
  /\ ((success (fst (post_booking Sample.env0 Sample.student Sample.db0
                       (Sample.request [3%N] 0 10 false))) = false
       /\ snd (post_booking Sample.env0 Sample.student Sample.db0
                 (Sample.request [3%N] 0 10 false)) = Sample.db0)
      \/ (http_status (fst (post_booking Sample.env0 Sample.student Sample.db0
                              (Sample.request [3%N] 0 10 false))) = 201%nat
          /\ (status <$> data (fst (post_booking Sample.env0 Sample.student
                                      Sample.db0
                                      (Sample.request [3%N] 0 10 false))))
             = Some PENDING_ADMIN
          /\ exists b,
               bookingsColl (snd (post_booking Sample.env0 Sample.student
                                    Sample.db0
                                    (Sample.request [3%N] 0 10 false)))
               = bookingsColl Sample.db0 ++ [b]
               /\ status b = PENDING_ADMIN)).
Proof.
  apply (triggers_force_admin_approval Sample.env0 Sample.student Sample.db0
           (Sample.request [3%N] 0 10 false) [3%N] 0 10);
    try reflexivity.
  - apply sample_fresh0.
  - apply sample_unique_facilities0.
  - right. exists (Sample.room 3%N LAB true true false).
    repeat split; try reflexivity; apply (bool_decide_unpack _); vm_compute; exact I.
Defined.

(** ** The capacity check *)

Lemma set_values_spec {A} `{EqDecision A} (seen xs : list A) (x : A) :
  x ∈ set_values seen xs <-> x ∈ xs /\ x ∉ seen.
Proof.
  revert seen. induction xs as [|y xs IH]; intros seen; simpl.
  - split; [intros Hx; by apply elem_of_nil in Hx |].
    intros [Hx _]. by apply elem_of_nil in Hx.
  - case_bool_decide as Hy.
    + rewrite IH, elem_of_cons. split; [tauto |].
      intros [[-> | Hx] Hns]; [done | tauto].
    + rewrite !elem_of_cons, IH, elem_of_cons.
      destruct (decide (x = y)) as [-> | Hne]; tauto.
Qed.

Lemma collect_inner_spec (poolIds fids : list ObjectId)
    (acc : gset ObjectId) (fid : ObjectId) :
  fid ∈ fold_left
          (fun bookedSet fid =>
             if in_ids fid poolIds then {[fid]} ∪ bookedSet else bookedSet)
          fids acc
  <-> fid ∈ acc \/ (fid ∈ fids /\ fid ∈ poolIds).
Proof.
  revert acc. induction fids as [|x fids IH]; intros acc; simpl.
  - split; [by left | intros [? | [Hx _]]; [done | by apply elem_of_nil in Hx]].
  - rewrite IH, elem_of_cons. destruct (in_ids x poolIds) eqn:Hin.
    + apply in_ids_spec in Hin. rewrite elem_of_union, elem_of_singleton.
      split; [| intros [? | [[-> | ?] ?]]; tauto].
      intros [[-> | ?] | ?]; tauto.
    + split; [tauto |]. intros [? | [[-> | ?] Hp]]; [tauto | | tauto].
      apply in_ids_spec in Hp. congruence.
Qed.

Lemma collect_outer_spec (poolIds : list ObjectId) (bs : list Booking)
    (acc : gset ObjectId) (fid : ObjectId) :
  fid ∈ fold_left
          (fun bookedSet b =>
             fold_left
               (fun bookedSet fid =>
                  if in_ids fid poolIds then {[fid]} ∪ bookedSet
                  else bookedSet)
               (facilities b) bookedSet)
          bs acc
  <-> fid ∈ acc \/ exists b, b ∈ bs /\ fid ∈ facilities b /\ fid ∈ poolIds.
Proof.
  revert acc. induction bs as [|b bs IH]; intros acc; simpl.
  - split; [by left |].
    intros [? | (b & Hb & _)]; [done | by apply elem_of_nil in Hb].
  - rewrite IH, collect_inner_spec. split.
    + intros [[? | [? ?]] | (b' & Hb' & ?)].
      * by left.
      * right. exists b. split; [left | done].
      * right. exists b'. split; [by right | done].
    + intros [? | (b' & Hb' & ?)]; [tauto |].
      apply elem_of_cons in Hb' as [-> | Hb']; [tauto |].
      right. by exists b'.
Qed.

Lemma collect_booked_spec overlapping poolIds (fid : ObjectId) :
  fid ∈ collect_booked overlapping poolIds <->
  exists b, b ∈ overlapping /\ fid ∈ facilities b /\ fid ∈ poolIds.
Proof.
  unfold collect_booked. rewrite collect_outer_spec. split; [| by right].
  intros [Hin | ?]; [| done]. by apply not_elem_of_empty in Hin.
Qed.

(** The size of [bookedSet] is the number of pool members that are
    reserved in the interval. *)
Lemma bookedSet_size (coll : list Booking) (poolIds : list ObjectId)
    (startT endT : Date) :
  NoDup poolIds ->
  size (collect_booked (find_overlapping coll poolIds startT endT) poolIds)
  = length (List.filter (reserved coll startT endT) poolIds).
Proof.
  intros Hnd.
  rewrite <- (size_list_to_set (C := gset ObjectId)
                (List.filter (reserved coll startT endT) poolIds)).
  - f_equal. apply set_eq. intros fid.
    rewrite collect_booked_spec, elem_of_list_to_set.
    rewrite (list_elem_of_In (List.filter _ _) fid), filter_In.
    rewrite <- list_elem_of_In, reserved_spec.
    split.
    + intros (b & Hb & Hf & Hp). split; [done |].
      apply find_overlapping_spec in Hb as [Hb Hov].
      apply overlap_filter_spec in Hov. exists b. tauto.
    + intros (Hp & b & Hb & Hf & Hst & Hlt & Hgt). exists b.
      split; [| done]. apply find_overlapping_spec. split; [done |].
      apply overlap_filter_spec. split; [by exists fid | done].
  - clear -Hnd. induction Hnd as [|x l Hx Hl IH]; simpl; [constructor |].
    destruct (reserved coll startT endT x); [| done].
    apply NoDup_cons. split; [| done].
    intros Hin. apply Hx.
    by apply list_elem_of_In, filter_In in Hin as [?%list_elem_of_In _].
Qed.

Lemma pool_ids_NoDup (db : DB) (type : FacilityType) :
  unique_facility_ids db -> NoDup (pool_ids db type).
Proof. intros Hnd. unfold pool_ids, find_pool. by apply NoDup_map_filter. Qed.

(** The loop leaves with [true] exactly when one of the types it visits has
    a non-empty pool all of whose members are reserved. *)
Lemma capacity_loop_spec (db : DB) (startT endT : Date)
    (types : list FacilityType) :
  unique_facility_ids db ->
  capacity_loop db startT endT types = true <->
  exists type, type ∈ types /\ pool_ids db type <> []
               /\ (length (pool_ids db type)
                   <= reserved_count db startT endT type)%nat.
Proof.
  intros Hnd. induction types as [|type rest IH]; simpl.
  - split; [done | intros (t & Ht & _); by apply elem_of_nil in Ht].
  - fold (pool_ids db type).
    rewrite bookedSet_size by (by apply pool_ids_NoDup).
    fold (reserved_count db startT endT type).
    assert (length (find_pool (facilitiesColl db) type)
            = length (pool_ids db type)) as ->
      by (unfold pool_ids; by rewrite length_map).
    destruct (Nat.eqb_spec (length (pool_ids db type)) 0) as [Hz | Hnz].
    + rewrite IH. apply length_zero_iff_nil in Hz. split.
      * intros (t & Ht & Hp). exists t. split; [by right | done].
      * intros (t & Ht & Hne & Hle).
        apply elem_of_cons in Ht as [-> | Ht]; [done | by exists t].
    + destruct (Nat.leb_spec (length (pool_ids db type))
                  (reserved_count db startT endT type)) as [Hle | Hgt].
      * split; [intros _ | done]. exists type. split; [left |].
        split; [| done]. intros Heq. by rewrite Heq in Hnz.
      * rewrite IH. split.
        -- intros (t & Ht & Hp). exists t. split; [by right | done].
        -- intros (t & Ht & Hne & Hle).
           apply elem_of_cons in Ht as [-> | Ht]; [lia | by exists t].
Qed.





(** ** Requests the handler accepts without the checks made elsewhere *)

(** C2: the lookup filters on [active] only. The bus of [Sample.db1] is in
    maintenance mode (so that [isAvailable] is false and it belongs to no
    pool), and a request for it is nevertheless accepted, auto-approved and
    stored. *)
Theorem maintenance_facility_is_booked :
  (forall f, f ∈ facilitiesColl Sample.db1 ->
             fac_id f = 5%N /\ maintenanceMode f = true
             /\ isAvailable f = false)
  /\ pool_ids Sample.db1 BUS = []
  /\ decision Sample.db1 [5%N] 0 10 false = AUTO_APPROVE
  /\ http_status (fst (post_booking Sample.env0 Sample.student Sample.db1
                         (Sample.request [5%N] 0 10 false))) = 201%nat
  /\ (status <$> bookingsColl
                   (snd (post_booking Sample.env0 Sample.student Sample.db1
                           (Sample.request [5%N] 0 10 false))))
     = [APPROVED].
Proof.
  split.
  - intros f Hf. apply list_elem_of_singleton in Hf. by subst.
  - repeat split; reflexivity.
Qed.

(** C5: [validateBooking] refuses an empty facility list and an interval
    that ends before it starts, but the POST route does not run it: the
    handler stores both requests, the first with no facility at all, the
    second with startTime 700 and endTime 650. *)
Theorem unvalidated_requests_are_stored :
  validateBooking (Sample.request [] 0 10 false) = false
  /\ http_status (fst (post_booking Sample.env0 Sample.student Sample.db1
                         (Sample.request [] 0 10 false))) = 201%nat
  /\ ((fun b => (facilities b, status b)) <$>
        bookingsColl (snd (post_booking Sample.env0 Sample.student Sample.db1
                             (Sample.request [] 0 10 false))))
     = [([], APPROVED)]
  /\ validateBooking (Sample.request [2%N] 700 650 false) = false
  /\ http_status (fst (post_booking Sample.env0 Sample.student Sample.db0
                         (Sample.request [2%N] 700 650 false))) = 201%nat
  /\ ((fun b => (startTime b, endTime b, status b)) <$>
        data (fst (post_booking Sample.env0 Sample.student Sample.db0
                     (Sample.request [2%N] 700 650 false))))
     = Some (700, 650, APPROVED)
  /\ length (bookingsColl
               (snd (post_booking Sample.env0 Sample.student Sample.db0
                       (Sample.request [2%N] 700 650 false))))
     = S (length (bookingsColl Sample.db0)).
Proof. repeat split; reflexivity. Qed.

(** What the validator would have enforced, had the route used it. *)
Lemma validateBooking_sound (body : BookingBody) :
  validateBooking body = true ->
  exists ids startT endT,
    req_facilityIds body = Some ids /\ ids <> []
    /\ req_startTime body = Some startT /\ req_endTime body = Some endT
    /\ startT < endT.
Proof.
  unfold validateBooking. rewrite !andb_true_iff.
  intros [[[Hids Hs] He] _].
  destruct (req_facilityIds body) as [ids|]; [| done].
  destruct (req_startTime body) as [startT|]; [| done].
  destruct (req_endTime body) as [endT|]; [| done].
  exists ids, startT, endT. repeat split; try done.
  - intros ->. simpl in Hids. discriminate.
  - apply negb_true_iff, Z.leb_gt in He. lia.
Qed.

(** ** Loading and saving a booking by its id *)

Lemma findById_Some coll id (b : Booking) :
  findById coll id = Some b -> b ∈ coll /\ booking_id b = id.
Proof.
  unfold findById. intros H. apply find_some in H as [Hin Heq].
  split; [by apply list_elem_of_In | by apply N.eqb_eq].
Qed.

Lemma findById_update_same coll (b b' : Booking) :
  findById coll (booking_id b') = Some b ->
  findById (update_doc b' coll) (booking_id b') = Some b'.
Proof.
  unfold findById, update_doc.
  induction coll as [|x coll IH]; simpl; [done |].
  destruct (N.eqb_spec (booking_id x) (booking_id b')) as [Heq | Hne].
  - intros _. by rewrite N.eqb_refl.
  - intros H. destruct (N.eqb_spec (booking_id x) (booking_id b')); [done |].
    by apply IH.
Qed.

Lemma findById_update_other coll (b' : Booking) (id : ObjectId) :
  id <> booking_id b' ->
  findById (update_doc b' coll) id = findById coll id.
Proof.
  intros Hne. unfold findById, update_doc.
  induction coll as [|x coll IH]; simpl; [done |].
  destruct (N.eqb_spec (booking_id x) (booking_id b')) as [Heq | Hne'].
  - destruct (N.eqb_spec (booking_id b') id); [congruence |].
    destruct (N.eqb_spec (booking_id x) id); [congruence | done].
  - by rewrite IH.
Qed.

Lemma status_of_update_same db (b b' : Booking) :
  findById (bookingsColl db) (booking_id b') = Some b ->
  status_of (set_bookings db (update_doc b' (bookingsColl db))) (booking_id b')
  = Some (status b').
Proof.
  intros H. unfold status_of. simpl.
  by rewrite (findById_update_same _ b b').
Qed.

Lemma status_of_update_other db (b' : Booking) (id : ObjectId) :
  id <> booking_id b' ->
  status_of (set_bookings db (update_doc b' (bookingsColl db))) id
  = status_of db id.
Proof.
  intros H. unfold status_of. simpl. by rewrite findById_update_other.
Qed.

(** ** Approving and rejecting *)

(** The guard of the approve route: outside PENDING and PENDING_ADMIN the
    request is refused and nothing is written. *)
Lemma approve_refused_unless_pending (env : Env) (user : User) (db : DB)
    (id : ObjectId) (notes : option string) (s : BookingStatus) :
  status_of db id = Some s -> s <> PENDING -> s <> PENDING_ADMIN ->
  success (fst (patch_approve env user db id notes)) = false
  /\ snd (patch_approve env user db id notes) = db.
Proof.
  unfold status_of, patch_approve. intros Hs Hp Hpa.
  destruct (negb (requireRole [ADMIN] user)); [done |].
  destruct (findById (bookingsColl db) id) as [b|]; [| done].
  simpl in Hs. injection Hs as ->.
  unfold status_eqb. rewrite !bool_decide_eq_false_2 by done. done.
Qed.

(** The reject route has no such guard: an administrator's reject of any
    stored booking succeeds and leaves it REJECTED with a new approval
    record. *)
Lemma reject_any_status (env : Env) (user : User) (db : DB)
    (id : ObjectId) (notes : option string) (b : Booking) :
  role user = ADMIN ->
  findById (bookingsColl db) id = Some b ->
  http_status (fst (patch_reject env user db id notes)) = 200%nat
  /\ status_of (snd (patch_reject env user db id notes)) id = Some REJECTED
  /\ approval_of (snd (patch_reject env user db id notes)) id
     = Some (Some (manual_approval env user notes)).
Proof.
  intros Hrole Hfind. unfold patch_reject, requireRole. rewrite Hrole, Hfind.
  cbn [existsb]. rewrite bool_decide_eq_true_2 by done.
  cbn [orb negb]. cbv zeta.
  destruct (findById_Some _ _ _ Hfind) as [_ <-].
  set (b' := push_audit _ _).
  change (booking_id b) with (booking_id b') in *.
  unfold status_of, approval_of. cbn [fst snd http_status bookingsColl set_bookings].
  rewrite (findById_update_same (bookingsColl db) b b') by done. done.
Qed.

(** C7: the approve route refuses a booking that is not pending, but the
    reject route does not look at the status. Rejecting booking 50 of
    [Sample.db0], which is APPROVED, succeeds, while approving it again is
    refused; the reject overwrites its status and its approval record. *)
Theorem reject_ignores_status :
  status_of Sample.db0 50%N = Some APPROVED
  /\ approval_of Sample.db0 50%N = Some None
  /\ run Sample.env0 Sample.admin Sample.db0 (Approve 50%N None)
     = (400%nat, Sample.db0)
  /\ fst (run Sample.env0 Sample.admin Sample.db0 (Reject 50%N None))
     = 200%nat
  /\ status_of (snd (run Sample.env0 Sample.admin Sample.db0
                       (Reject 50%N None))) 50%N = Some REJECTED
  /\ approval_of (snd (run Sample.env0 Sample.admin Sample.db0
                         (Reject 50%N None))) 50%N
     = Some (Some (mkApproval (Some MANUAL) (Some 1%N) (Some 5000) None)).
Proof. repeat split; reflexivity. Qed.

(** ** Terminal statuses *)

Lemma is_terminal_not_pending (s : BookingStatus) :
  is_terminal s = true ->
  s <> PENDING /\ s <> PENDING_ADMIN /\ s <> APPROVED /\ s <> CHECKED_IN.
Proof. by destruct s. Qed.

Lemma approve_keeps_terminal (env : Env) (user : User) (db : DB)
    (id id' : ObjectId) (notes : option string) (s : BookingStatus) :
  status_of db id = Some s -> is_terminal s = true ->
  status_of (snd (patch_approve env user db id' notes)) id = Some s.
Proof.
  intros Hs Hterm. unfold patch_approve.
  destruct (negb (requireRole [ADMIN] user)); [done |].
  destruct (findById (bookingsColl db) id') as [b|] eqn:Hfind; [| done].
  destruct (negb (status_eqb (status b) PENDING_ADMIN)
            && negb (status_eqb (status b) PENDING)) eqn:Hguard; [done |].
  cbv zeta. set (b' := push_audit _ _).
  assert (booking_id b' = booking_id b) as Hid.
  { subst b'. simpl. by destruct (qrCodeUrl b). }
  destruct (findById_Some _ _ _ Hfind) as [_ Hb].
  cbn [snd]. destruct (N.eq_dec id (booking_id b')) as [Heq | Hne].
  - exfalso. unfold status_of in Hs.
    rewrite Heq, Hid, Hb, Hfind in Hs. injection Hs as <-.
    destruct (is_terminal_not_pending _ Hterm) as (Hp & Hpa & _).
    unfold status_eqb in Hguard.
    rewrite !bool_decide_eq_false_2 in Hguard by done. done.
  - by rewrite status_of_update_other.
Qed.

Lemma cancel_keeps_checked_out_and_cancelled (env : Env) (user : User)
    (db : DB) (id id' : ObjectId) (notes : option string)
    (s : BookingStatus) :
  status_of db id = Some s -> s = CHECKED_OUT \/ s = CANCELLED ->
  status_of (snd (patch_cancel env user db id' notes)) id = Some s.
Proof.
  intros Hs Hcase. unfold patch_cancel.
  destruct (findById (bookingsColl db) id') as [b|] eqn:Hfind; [| done].
  destruct (negb (bool_decide (role user = ADMIN))
            && negb (N.eqb (userId b) (user_id user))); [done |].
  destruct (status_eqb (status b) CHECKED_IN
            || status_eqb (status b) CHECKED_OUT) eqn:Hguard; [done |].
  cbv zeta.
  set (b' := match truthy notes with Some _ => _ | None => _ end).
  assert (booking_id b' = booking_id b /\ status b' = CANCELLED)
    as [Hid Hst].
  { subst b'. by destruct (truthy notes). }
  destruct (findById_Some _ _ _ Hfind) as [_ Hb].
  cbn [snd]. destruct (N.eq_dec id (booking_id b')) as [Heq | Hne].
  - rewrite Heq. rewrite (status_of_update_same db b b')
      by (by rewrite Hid, Hb).
    unfold status_of in Hs. rewrite Heq, Hid, Hb, Hfind in Hs.
    injection Hs as <-. rewrite Hst.
    destruct Hcase as [Hco | Hca]; [| by rewrite Hca].
    rewrite Hco in Hguard. done.
  - by rewrite status_of_update_other.
Qed.

Lemma cancel_moves_to_cancelled (env : Env) (user : User) (db : DB)
    (id : ObjectId) (notes : option string) (b : Booking) :
  findById (bookingsColl db) id = Some b ->
  role user = ADMIN \/ userId b = user_id user ->
  status b <> CHECKED_IN -> status b <> CHECKED_OUT ->
  http_status (fst (patch_cancel env user db id notes)) = 200%nat
  /\ status_of (snd (patch_cancel env user db id notes)) id = Some CANCELLED.
Proof.
  intros Hfind Hauth Hci Hco. unfold patch_cancel. rewrite Hfind.
  assert (negb (bool_decide (role user = ADMIN))
          && negb (N.eqb (userId b) (user_id user)) = false) as ->.
  { destruct Hauth as [Hr | Hu].
    - by rewrite bool_decide_eq_true_2.
    - rewrite Hu, N.eqb_refl. apply andb_false_r. }
  unfold status_eqb. rewrite !bool_decide_eq_false_2 by done.
  cbn [orb]. cbv zeta.
  set (b' := match truthy notes with Some _ => _ | None => _ end).
  assert (booking_id b' = booking_id b /\ status b' = CANCELLED)
    as [Hid Hst].
  { subst b'. by destruct (truthy notes). }
  destruct (findById_Some _ _ _ Hfind) as [_ Hb].
  split; [done |]. cbn [snd]. rewrite <- Hb, <- Hid.
  rewrite (status_of_update_same db b b') by (by rewrite Hid, Hb).
  by rewrite Hst.
Qed.

Lemma findOne_checkIn_Some coll code bid (b : Booking) :
  findOne_checkIn coll code bid = Some b ->
  b ∈ coll /\ checkInCode b = code
  /\ (forall id, bid = Some id -> booking_id b = id).
Proof.
  unfold findOne_checkIn. intros H. apply find_some in H as [Hin Hm].
  apply andb_true_iff in Hm as [Hc Hi].
  split; [by apply list_elem_of_In |]. split; [by apply String.eqb_eq |].
  intros id ->. by apply N.eqb_eq.
Qed.

Lemma scan_keeps_terminal (env : Env) (user : User) (db : DB)
    (id : ObjectId) (body : ScanBody) (s : BookingStatus) :
  unique_booking_ids db ->
  status_of db id = Some s -> is_terminal s = true ->
  status_of (snd (post_scan env user db body)) id = Some s.
Proof.
  intros Hnd Hs Hterm. unfold post_scan.
  destruct (negb (requireRole [ADMIN; STAFF] user)); [done |].
  destruct (scan_query body) as [err | [code bid]]; [done |].
  destruct (findOne_checkIn (bookingsColl db) code bid) as [b|] eqn:Hfind;
    [| done].
  destruct (negb (existsb (status_eqb (status b)) [APPROVED; CHECKED_IN]))
    eqn:Hguard; [done |].
  cbv zeta.
  destruct (now env <? startTime b - 30 * 60 * 1000); [done |].
  destruct (now env >? endTime b + 30 * 60 * 1000); [done |].
  assert (forall b', booking_id b' = booking_id b ->
            status_of (set_bookings db (update_doc b' (bookingsColl db))) id
            = Some s) as Hupd.
  { intros b' Hid. destruct (N.eq_dec id (booking_id b')) as [Heq | Hne];
      [| by rewrite status_of_update_other].
    exfalso. unfold status_of in Hs.
    destruct (findById (bookingsColl db) id) as [x|] eqn:Hx; [| done].
    injection Hs as <-. apply findById_Some in Hx as [Hxin Hxid].
    apply findOne_checkIn_Some in Hfind as (Hbin & _).
    assert (x = b) as -> by (by apply (unique_key booking_id (bookingsColl db));
                             [| | | rewrite Hid in Heq; congruence]).
    destruct (is_terminal_not_pending _ Hterm) as (_ & _ & Ha & Hc).
    simpl in Hguard. unfold status_eqb in Hguard.
    rewrite !bool_decide_eq_false_2 in Hguard by done. done. }
  destruct (status_eqb (status b) APPROVED); [by apply Hupd |].
  destruct (status_eqb (status b) CHECKED_IN); [by apply Hupd | done].
Qed.

(** C8, as amended. For a stored booking in a terminal status (REJECTED,
    CANCELLED, EXPIRED, CHECKED_OUT): no approve request and no scan
    (check-in or check-out) changes its status, and no cancel request
    changes it when it is CHECKED_OUT or CANCELLED. The cancel route
    refuses only CHECKED_IN and CHECKED_OUT bookings, so cancelling a
    REJECTED or EXPIRED booking, by its owner or an administrator,
    succeeds and leaves it CANCELLED. *)
Theorem terminal_status_kept (env : Env) (user : User) (db : DB)
    (id : ObjectId) (s : BookingStatus) :
  unique_booking_ids db ->
  status_of db id = Some s ->
  is_terminal s = true ->
  (forall id' notes,
     status_of (snd (run env user db (Approve id' notes))) id = Some s)
  /\ (forall body,
        status_of (snd (run env user db (Scan body))) id = Some s)
  /\ (forall id' notes, s = CHECKED_OUT \/ s = CANCELLED ->
        status_of (snd (run env user db (Cancel id' notes))) id = Some s)
  /\ (forall notes b,
        findById (bookingsColl db) id = Some b ->
        role user = ADMIN \/ userId b = user_id user ->
        s = REJECTED \/ s = EXPIRED ->
        fst (run env user db (Cancel id notes)) = 200%nat
        /\ status_of (snd (run env user db (Cancel id notes))) id
           = Some CANCELLED).
Proof.
  intros Hnd Hs Hterm.
  split; [| split; [| split; [| intros notes b Hfind Hauth Hcase; split]]].
  - intros id' notes. unfold run.
    pose proof (approve_keeps_terminal env user db id id' notes s Hs Hterm).
    by destruct (patch_approve env user db id' notes).
  - intros body. unfold run.
    pose proof (scan_keeps_terminal env user db id body s Hnd Hs Hterm).
    by destruct (post_scan env user db body).
  - intros id' notes Hcase. unfold run.
    pose proof (cancel_keeps_checked_out_and_cancelled env user db id id'
                  notes s Hs Hcase).
    by destruct (patch_cancel env user db id' notes).
  - unfold run.
    assert (status b = s) as Hb
      by (unfold status_of in Hs; rewrite Hfind in Hs; by injection Hs).
    destruct (cancel_moves_to_cancelled env user db id notes b) as [H200 _];
      try done; try (destruct Hcase; congruence).
    by destruct (patch_cancel env user db id notes).
  - unfold run.
    assert (status b = s) as Hb
      by (unfold status_of in Hs; rewrite Hfind in Hs; by injection Hs).
    destruct (cancel_moves_to_cancelled env user db id notes b) as [_ Hc];
      try done; try (destruct Hcase; congruence).
    by destruct (patch_cancel env user db id notes).
Qed.

Lemma terminal_status_kept_witness :
  (forall id' notes,
     status_of (snd (run Sample.env0 Sample.student Sample.db_rejected
                       (Approve id' notes))) 77%N = Some REJECTED)
  /\ (forall body,
        status_of (snd (run Sample.env0 Sample.student Sample.db_rejected
                          (Scan body))) 77%N = Some REJECTED)
  /\ (forall id' notes, REJECTED = CHECKED_OUT \/ REJECTED = CANCELLED ->
        status_of (snd (run Sample.env0 Sample.student Sample.db_rejected
                          (Cancel id' notes))) 77%N = Some REJECTED)
  /\ (forall notes b,
        findById (bookingsColl Sample.db_rejected) 77%N = Some b ->
        role Sample.student = ADMIN \/ userId b = user_id Sample.student ->
        REJECTED = REJECTED \/ REJECTED = EXPIRED ->
        fst (run Sample.env0 Sample.student Sample.db_rejected
               (Cancel 77%N notes)) = 200%nat
        /\ status_of (snd (run Sample.env0 Sample.student Sample.db_rejected
                             (Cancel 77%N notes))) 77%N
           = Some CANCELLED).
Proof.
  apply (terminal_status_kept Sample.env0 Sample.student Sample.db_rejected
           77%N REJECTED).
  - unfold unique_booking_ids. apply (bool_decide_unpack _).
    vm_compute. exact I.
  - reflexivity.
  - reflexivity.
Defined.

(** C8 as stated fails. Booking 77 is created PENDING_ADMIN by the creation
    handler and rejected by an administrator; it is then in the terminal
    status REJECTED, and its owner's cancel request succeeds and turns it
    into CANCELLED. *)
Lemma terminal_status_counterexample :
  status_of Sample.db_pending 77%N = Some PENDING_ADMIN
  /\ status_of Sample.db_rejected 77%N = Some REJECTED
  /\ is_terminal REJECTED = true
  /\ fst (run Sample.env0 Sample.student Sample.db_rejected
            (Cancel 77%N None)) = 200%nat
  /\ status_of (snd (run Sample.env0 Sample.student Sample.db_rejected
                       (Cancel 77%N None))) 77%N = Some CANCELLED
  /\ ~ (forall env user db op id s,
          unique_booking_ids db ->
          status_of db id = Some s -> is_terminal s = true ->
          status_of (snd (run env user db op)) id = Some s).
Proof.
  repeat split; try reflexivity.
  intros Hall.
  specialize (Hall Sample.env0 Sample.student Sample.db_rejected
                (Cancel 77%N None) 77%N REJECTED).
  assert (unique_booking_ids Sample.db_rejected) as Hnd.
  { unfold unique_booking_ids. apply (bool_decide_unpack _).
    vm_compute. exact I. }
  specialize (Hall Hnd eq_refl eq_refl). vm_compute in Hall. discriminate.
Qed.

(** ** The manual check-in code *)

Lemma is_lower_upper_ascii (c : ascii) : is_lower (upper_ascii c) = false.
Proof.
  destruct c as [b0 b1 b2 b3 b4 b5 b6 b7].
  destruct b0, b1, b2, b3, b4, b5, b6, b7; reflexivity.
Qed.

Lemma has_lower_toUpperCase (s : string) : has_lower (toUpperCase s) = false.
Proof.
  induction s as [|c s IH]; simpl; [done |].
  by rewrite is_lower_upper_ascii, IH.
Qed.

Lemma find_None_all {A} (p : A -> bool) (l : list A) :
  (forall x, x ∈ l -> p x = false) -> List.find p l = None.
Proof.
  induction l as [|x l IH]; simpl; intros Hall; [done |].
  rewrite (Hall x) by left. apply IH. intros y Hy. apply Hall. by right.
Qed.

(** C9. Let [b] be a stored booking whose checkInCode contains a lowercase
    letter. Whatever manual code is submitted, the booking the scan looks
    up is never [b], since the handler searches for the upper-cased code;
    submitting the code of [b] itself is answered 404 (provided no stored
    code happens to equal its upper-casing) and changes nothing; the QR
    payload, which carries the code as it is together with the booking id,
    leads the lookup to [b]. *)
Theorem manual_code_misses_lowercase (env : Env) (user : User) (db : DB)
    (b : Booking) :
  b ∈ bookingsColl db ->
  has_lower (checkInCode b) = true ->
  (forall manualCode code bid x,
     scan_query (mkScan None (Some manualCode)) = inr (code, bid) ->
     findOne_checkIn (bookingsColl db) code bid = Some x ->
     checkInCode x <> checkInCode b /\ x <> b)
  /\ (requireRole [ADMIN; STAFF] user = true ->
      (forall x, x ∈ bookingsColl db ->
                 checkInCode x <> toUpperCase (checkInCode b)) ->
      post_scan env user db (mkScan None (Some (checkInCode b)))
      = (failure 404 "Invalid or expired check-in code", db))
  /\ (unique_booking_ids db ->
      scan_query
        (mkScan (Some (Some (mkQr (Some (booking_id b)) (checkInCode b)
                               (facilities b) true))) None)
      = inr (checkInCode b, Some (booking_id b))
      /\ findOne_checkIn (bookingsColl db) (checkInCode b)
           (Some (booking_id b)) = Some b).
Proof.
  intros Hb Hlow. split; [| split].
  - intros manualCode code bid x Hq Hfind.
    assert (checkInCode x <> checkInCode b) as Hne.
    { unfold scan_query in Hq. cbn [scan_qrData scan_manualCode] in Hq.
      destruct (truthy (Some manualCode)) as [m|]; [| done].
      injection Hq as <- <-.
      apply findOne_checkIn_Some in Hfind as (_ & Hcode & _).
      intros Heq. rewrite <- Heq, Hcode, has_lower_toUpperCase in Hlow.
      discriminate. }
    split; [done | by intros ->].
  - intros Hrole Hfree. unfold post_scan, scan_query. rewrite Hrole.
    cbn [negb scan_qrData scan_manualCode].
    assert (truthy (Some (checkInCode b)) = Some (checkInCode b)) as ->.
    { destruct (checkInCode b); [discriminate Hlow | done]. }
    unfold findOne_checkIn.
    rewrite (find_None_all _ (bookingsColl db)); [done |].
    intros x Hx. rewrite andb_true_r. apply String.eqb_neq.
    by apply Hfree.
  - intros Hnd. split; [done |].
    destruct (findOne_checkIn (bookingsColl db) (checkInCode b)
                (Some (booking_id b))) as [x|] eqn:Hfind.
    + apply findOne_checkIn_Some in Hfind as (Hx & _ & Hid).
      f_equal. apply (unique_key booking_id (bookingsColl db)); try done.
      by apply Hid.
    + exfalso. unfold findOne_checkIn in Hfind.
      apply list_elem_of_In in Hb.
      pose proof (find_none _ _ Hfind b Hb) as Hno. simpl in Hno.
      by rewrite String.eqb_refl, N.eqb_refl in Hno.
Qed.

(** Booking 50 of [Sample.db0] has the code aB3dE6gH. *)
Lemma manual_code_misses_lowercase_witness :
  (forall manualCode code bid x,
     scan_query (mkScan None (Some manualCode)) = inr (code, bid) ->
     findOne_checkIn (bookingsColl Sample.db0) code bid = Some x ->
     checkInCode x <> "aB3dE6gH"%string
     /\ x <> Sample.held 50%N 1%N 600 660 APPROVED "aB3dE6gH")
  /\ (requireRole [ADMIN; STAFF] Sample.admin = true ->
      (forall x, x ∈ bookingsColl Sample.db0 ->
                 checkInCode x <> toUpperCase "aB3dE6gH") ->
      post_scan Sample.env0 Sample.admin Sample.db0
        (mkScan None (Some "aB3dE6gH"%string))
      = (failure 404 "Invalid or expired check-in code", Sample.db0))
  /\ (unique_booking_ids Sample.db0 ->
      scan_query
        (mkScan (Some (Some (mkQr (Some 50%N) "aB3dE6gH" [1%N] true))) None)
      = inr ("aB3dE6gH"%string, Some 50%N)
      /\ findOne_checkIn (bookingsColl Sample.db0) "aB3dE6gH" (Some 50%N)
         = Some (Sample.held 50%N 1%N 600 660 APPROVED "aB3dE6gH")).
Proof.
  apply (manual_code_misses_lowercase Sample.env0 Sample.admin Sample.db0
           (Sample.held 50%N 1%N 600 660 APPROVED "aB3dE6gH")).
  - left.
  - reflexivity.
Defined.

Example sample_manual_code_404 :
  http_status (fst (post_scan Sample.env0 Sample.admin Sample.db0
                      (mkScan None (Some "aB3dE6gH"%string)))) = 404%nat
  /\ fst (run (mkEnv 600 0%N EmptyString) Sample.admin Sample.db0
            (Scan (mkScan None (Some "qrstuvwx"%string)))) = 200%nat
  /\ status_of (snd (run (mkEnv 600 0%N EmptyString) Sample.admin Sample.db0
                       (Scan (mkScan None (Some "qrstuvwx"%string))))) 51%N
     = Some CHECKED_IN.
Proof. repeat split; reflexivity. Qed.

(** ** System settings *)

Lemma capacity_loop_settings (db : DB) (s : list SystemSettings)
    (startT endT : Date) (types : list FacilityType) :
  capacity_loop (set_settings db s) startT endT types
  = capacity_loop db startT endT types.
Proof.
  induction types as [|type rest IH]; [done |].
  cbn [capacity_loop set_settings facilitiesColl bookingsColl].
  by rewrite IH.
Qed.

Lemma requiresAdminApproval_settings (db : DB) (s : list SystemSettings)
    (facs : list Facility) (startT endT : Date) (ext : bool) :
  requiresAdminApproval (set_settings db s) facs startT endT ext
  = requiresAdminApproval db facs startT endT ext.
Proof. unfold requiresAdminApproval. by rewrite capacity_loop_settings. Qed.

Lemma decision_settings (db : DB) (s : list SystemSettings)
    (ids : list ObjectId) (startT endT : Date) (ext : bool) :
  decision (set_settings db s) ids startT endT ext
  = decision db ids startT endT ext.
Proof.
  unfold decision. rewrite requiresAdminApproval_settings.
  change (facilitiesColl (set_settings db s)) with (facilitiesColl db).
  change (bookingsColl (set_settings db s)) with (bookingsColl db).
  done.
Qed.

Lemma post_booking_settings (env : Env) (user : User) (db : DB)
    (body : BookingBody) (s : list SystemSettings) :
  post_booking env user (set_settings db s) body
  = (fst (post_booking env user db body),
     set_settings (snd (post_booking env user db body)) s).
Proof.
  unfold post_booking.
  destruct (req_facilityIds body) as [ids|]; [| done].
  destruct (req_startTime body) as [startT|]; [| done].
  destruct (req_endTime body) as [endT|]; [| done].
  rewrite requiresAdminApproval_settings.
  change (facilitiesColl (set_settings db s)) with (facilitiesColl db).
  change (bookingsColl (set_settings db s)) with (bookingsColl db).
  destruct (negb (length (find_requested (facilitiesColl db) ids)
                  =? length ids)%nat); [done |].
  destruct (0 <? length (find_overlapping (bookingsColl db) ids startT endT))%nat;
    done.
Qed.

(** C10. The creation handler does not read the settings collection: with
    any two settings contents, the same request against the same
    facilities and bookings takes the same exit, is answered alike and
    leaves the same bookings. In [Sample.db_manual_only], where
    autoApprovalEnabled is false, a request for a free, unrestricted room
    is still created APPROVED with approval.type AUTO. *)
Theorem creation_ignores_settings :
  (forall env user db body s1 s2,
     fst (post_booking env user (set_settings db s1) body)
     = fst (post_booking env user (set_settings db s2) body)
     /\ bookingsColl (snd (post_booking env user (set_settings db s1) body))
        = bookingsColl (snd (post_booking env user (set_settings db s2) body)))
  /\ (forall db ids startT endT ext s1 s2,
        decision (set_settings db s1) ids startT endT ext
        = decision (set_settings db s2) ids startT endT ext)
  /\ (autoApprovalEnabled <$> settingsColl Sample.db_manual_only) = [false]
  /\ http_status (fst (post_booking Sample.env0 Sample.student
                         Sample.db_manual_only
                         (Sample.request [2%N] 600 660 false))) = 201%nat
  /\ ((fun b => (status b, approval b ≫= approval_type)) <$>
        last (bookingsColl
                (snd (post_booking Sample.env0 Sample.student
                        Sample.db_manual_only
                        (Sample.request [2%N] 600 660 false)))))
     = Some (APPROVED, Some AUTO).
Proof.
  split; [| split; [| repeat split; reflexivity]].
  - intros env user db body s1 s2. by rewrite !post_booking_settings.
  - intros db ids startT endT ext s1 s2. by rewrite !decision_settings.
Qed.

(** ** Further facts about the handlers *)

Lemma filter_length_lt {A} (p : A -> bool) (l : list A) (x : A) :
  x ∈ l -> p x = false -> (length (List.filter p l) < length l)%nat.
Proof.
  induction l as [|y l IH]; intros Hx Hp.
  - by apply elem_of_nil in Hx.
  - simpl. apply elem_of_cons in Hx as [<- | Hx].
    + rewrite Hp. pose proof (filter_length_le p l). lia.
    + specialize (IH Hx Hp). destruct (p y); simpl; lia.
Qed.

(** After the conflict query has found nothing, a requested facility that
    is not under maintenance is itself an unreserved member of the pool of
    its type: the capacity check can only fire for the types of requested
    facilities that are under maintenance. *)
Lemma capacity_needs_maintenance (db : DB) (ids : list ObjectId)
    (startT endT : Date) :
  unique_facility_ids db ->
  find_overlapping (bookingsColl db) ids startT endT = [] ->
  (forall f, f ∈ find_requested (facilitiesColl db) ids ->
             maintenanceMode f = false) ->
  capacity_loop db startT endT
    (set_values [] (List.map fac_type
                      (find_requested (facilitiesColl db) ids))) = false.
Proof.
  intros Hnd Hfree Hmaint. apply not_true_iff_false. intros Hloop.
  apply capacity_loop_spec in Hloop as (t & Ht & _ & Hle); [| done].
  apply set_values_spec in Ht as [Ht _].
  apply list_elem_of_In, in_map_iff in Ht as (f & <- & Hf).
  apply list_elem_of_In in Hf. pose proof (Hmaint f Hf) as Hm.
  apply find_requested_spec in Hf as (Hfc & Hid & Hact).
  assert (fac_id f ∈ pool_ids db (fac_type f)) as Hpool.
  { unfold pool_ids, find_pool.
    apply list_elem_of_In, in_map, filter_In. split; [by apply list_elem_of_In |].
    by rewrite bool_decide_eq_true_2, Hact, Hm. }
  assert (reserved (bookingsColl db) startT endT (fac_id f) = false) as Hres.
  { apply not_true_iff_false. intros Hres.
    apply reserved_spec in Hres as (R & HR & HfR & Hst & Hlt & Hgt).
    assert (R ∈ find_overlapping (bookingsColl db) ids startT endT) as HRin.
    { apply find_overlapping_spec. split; [done |].
      apply overlap_filter_spec. split; [by exists (fac_id f) | done]. }
    rewrite Hfree in HRin. by apply elem_of_nil in HRin. }
  pose proof (filter_length_lt _ _ _ Hpool Hres) as Hlt.
  unfold reserved_count in Hle. lia.
Qed.

(** The route that approves check-in requests writes CHECKED_IN or
    CHECKED_OUT without reading the booking's status: here a check-in
    request for the rejected booking 77 is approved. *)
Example request_approval_ignores_status :
  let requests :=
    [mkRequest 9%N 77%N 100%N 3%N CHECK_IN REQUEST_PENDING None None None
       None] in
  status_of Sample.db_rejected 77%N = Some REJECTED
  /\ http_status (fst (fst (patch_request_approve Sample.env0 Sample.admin
                              requests Sample.db_rejected 9%N None)))
     = 200%nat
  /\ status_of (snd (patch_request_approve Sample.env0 Sample.admin
                       requests Sample.db_rejected 9%N None)) 77%N
     = Some CHECKED_IN.
Proof. repeat split; reflexivity. Qed.

(** The check fires when the requested facility is under maintenance and
    so outside the pool of its type: bus 5 of [Sample.db0] is, and the one
    bus in the pool is booked from 600 to 660. *)
Example sample_saturated_pool :
  (status <$> data (fst (post_booking Sample.env0 Sample.student Sample.db0
                           (Sample.request [5%N] 630 690 false))))
  = Some PENDING_ADMIN
  /\ (status <$> data (fst (post_booking Sample.env0 Sample.student Sample.db0
                              (Sample.request [5%N] 700 800 false))))
     = Some APPROVED
  /\ pool_ids Sample.db0 BUS = [6%N]
  /\ reserved_count Sample.db0 630 690 BUS = 1%nat.
Proof. repeat split; reflexivity. Qed.

(** ** What one operation does to the stored bookings *)

(** Every request handled by [run] either is refused and writes nothing,
    or succeeds and writes one stored booking back with a new status, one
    more audit entry and its core fields untouched. *)
Lemma run_effect (env : Env) (user : User) (db : DB) (op : Operation) :
  (fst (run env user db op) <> 200%nat /\ snd (run env user db op) = db)
  \/ exists b b' e,
       b ∈ bookingsColl db
       /\ fst (run env user db op) = 200%nat
       /\ snd (run env user db op)
          = set_bookings db (update_doc b' (bookingsColl db))
       /\ same_core b b'
       /\ audit b' = audit b ++ [e]
       /\ audit_by e = user_id user /\ audit_at e = now env
       /\ status_step op (status b) (status b').
Proof.
  destruct op as [id notes | id notes | id notes | body]; unfold run.
  - unfold patch_approve.
    destruct (negb (requireRole [ADMIN] user)); [by left |].
    destruct (findById (bookingsColl db) id) as [b|] eqn:Hfind; [| by left].
    destruct (negb (status_eqb (status b) PENDING_ADMIN)
              && negb (status_eqb (status b) PENDING)) eqn:Hguard;
      [by left |].
    right. cbv zeta. eexists b, _, _.
    split; [by apply findById_Some in Hfind as [? _] |].
    split; [reflexivity |]. split; [reflexivity |].
    split; [unfold same_core; simpl; destruct (qrCodeUrl b); by repeat split |].
    split; [simpl; by destruct (qrCodeUrl b) |].
    split; [done |]. split; [done |].
    replace (status (push_audit _ _)) with APPROVED
      by (simpl; by destruct (qrCodeUrl b)).
    constructor. unfold status_eqb in Hguard.
    destruct (status b); try discriminate Hguard; auto.
  - unfold patch_reject.
    destruct (negb (requireRole [ADMIN] user)); [by left |].
    destruct (findById (bookingsColl db) id) as [b|] eqn:Hfind; [| by left].
    right. cbv zeta. eexists b, _, _.
    split; [by apply findById_Some in Hfind as [? _] |].
    split; [reflexivity |]. split; [reflexivity |].
    split; [by repeat split |]. split; [reflexivity |].
    split; [done |]. split; [done |]. constructor.
  - unfold patch_cancel.
    destruct (findById (bookingsColl db) id) as [b|] eqn:Hfind; [| by left].
    destruct (negb (bool_decide (role user = ADMIN))
              && negb (N.eqb (userId b) (user_id user))); [by left |].
    destruct (status_eqb (status b) CHECKED_IN
              || status_eqb (status b) CHECKED_OUT) eqn:Hguard; [by left |].
    right. cbv zeta. eexists b, _, _.
    split; [by apply findById_Some in Hfind as [? _] |].
    split; [reflexivity |]. split; [reflexivity |].
    split; [unfold same_core; destruct (truthy notes); by repeat split |].
    split; [by destruct (truthy notes) |].
    split; [done |]. split; [done |].
    replace (status (match truthy notes with Some _ => _ | None => _ end))
      with CANCELLED by (by destruct (truthy notes)).
    apply orb_false_iff in Hguard as [Hci Hco]. unfold status_eqb in *.
    constructor; intros Heq; rewrite Heq in *; discriminate.
  - unfold post_scan.
    destruct (negb (requireRole [ADMIN; STAFF] user)); [by left |].
    destruct (scan_query body) as [err | [code bid]] eqn:Hq.
    { left. split; [| done]. unfold scan_query in Hq.
      destruct (scan_qrData body) as [[p|]|].
      - destruct (negb (qr_type_is_access p)); by inversion Hq.
      - by inversion Hq.
      - destruct (truthy (scan_manualCode body)); by inversion Hq. }
    destruct (findOne_checkIn (bookingsColl db) code bid) as [b|] eqn:Hfind;
      [| by left].
    destruct (negb (existsb (status_eqb (status b)) [APPROVED; CHECKED_IN]));
      [by left |].
    cbv zeta.
    destruct (now env <? startTime b - 30 * 60 * 1000); [by left |].
    destruct (now env >? endTime b + 30 * 60 * 1000); [by left |].
    apply findOne_checkIn_Some in Hfind as (Hin & _).
    destruct (status_eqb (status b) APPROVED) eqn:Ha.
    { right. eexists b, _, _. split; [done |].
      split; [reflexivity |]. split; [reflexivity |].
      split; [by repeat split |]. split; [reflexivity |].
      split; [done |]. split; [done |].
      apply status_eqb_spec in Ha. rewrite Ha. constructor. }
    destruct (status_eqb (status b) CHECKED_IN) eqn:Hc; [| by left].
    right. eexists b, _, _. split; [done |].
    split; [reflexivity |]. split; [reflexivity |].
    split; [by repeat split |]. split; [reflexivity |].
    split; [done |]. split; [done |].
    apply status_eqb_spec in Hc. rewrite Hc. constructor.
Qed.

Lemma update_doc_ids (b' : Booking) (coll : list Booking) :
  List.map booking_id (update_doc b' coll) = List.map booking_id coll.
Proof.
  unfold update_doc. induction coll as [|x coll IH]; simpl; [done |].
  rewrite IH. f_equal.
  by destruct (N.eqb_spec (booking_id x) (booking_id b')).
Qed.

Lemma update_doc_elem (b' x : Booking) (coll : list Booking) :
  x ∈ update_doc b' coll -> x = b' \/ x ∈ coll.
Proof.
  unfold update_doc. intros Hx.
  apply list_elem_of_In, in_map_iff in Hx as (y & Hy & Hin).
  destruct (N.eqb (booking_id y) (booking_id b')); [by left |].
  right. subst. by apply list_elem_of_In.
Qed.

(** With _id a unique key, writing [b'] over the stored [b] changes the
    position of [b] and no other. *)
Lemma update_doc_lookup_inv (b b' : Booking) (coll : list Booking)
    (i : nat) (y : Booking) :
  NoDup (List.map booking_id coll) ->
  b ∈ coll -> booking_id b' = booking_id b ->
  update_doc b' coll !! i = Some y ->
  exists x, coll !! i = Some x
            /\ (x = b /\ y = b' \/ booking_id x <> booking_id b /\ y = x).
Proof.
  intros Hnd Hb Hid Hy. unfold update_doc in Hy.
  change (List.map ?f coll) with (f <$> coll) in Hy.
  rewrite list_lookup_fmap in Hy.
  destruct (coll !! i) as [x|] eqn:Hx; [| done].
  simpl in Hy. injection Hy as <-. exists x. split; [done |].
  assert (x ∈ coll) as Hxin by (apply list_elem_of_lookup; by exists i).
  destruct (N.eqb_spec (booking_id x) (booking_id b')) as [Heq | Hne].
  - left. split; [| done].
    apply (unique_key booking_id coll); congruence.
  - right. split; [congruence | done].
Qed.

(** ** Invariants of the stored bookings *)

(** X1. Approve, reject, cancel and scan never add, remove or reorder
    bookings, never write the facilities or the settings, and leave every
    booking but at most one as it was. *)
Theorem operations_touch_one_booking (env : Env) (user : User) (db : DB)
    (op : Operation) :
  List.map booking_id (bookingsColl (snd (run env user db op)))
  = List.map booking_id (bookingsColl db)
  /\ facilitiesColl (snd (run env user db op)) = facilitiesColl db
  /\ settingsColl (snd (run env user db op)) = settingsColl db
  /\ exists target,
       forall id, id <> target ->
         findById (bookingsColl (snd (run env user db op))) id
         = findById (bookingsColl db) id.
Proof.
  destruct (run_effect env user db op)
    as [[_ ->] | (b & b' & e & _ & _ & -> & Hcore & _)].
  - repeat split; try done. by exists 0%N.
  - simpl. split; [apply update_doc_ids |]. repeat split.
    exists (booking_id b'). intros id Hne. by apply findById_update_other.
Qed.

(** X2. Under any operation a stored booking keeps its id, owner,
    facilities, interval, external flag and check-in code, and its audit
    log only grows: it is unchanged or gets one entry more, stamped with
    the acting user and the current time. *)
Theorem operations_keep_core_and_audit (env : Env) (user : User) (db : DB)
    (op : Operation) (id : ObjectId) (b : Booking) :
  unique_booking_ids db ->
  findById (bookingsColl db) id = Some b ->
  exists b',
    findById (bookingsColl (snd (run env user db op))) id = Some b'
    /\ same_core b b'
    /\ (audit b' = audit b
        \/ exists e, audit b' = audit b ++ [e]
                     /\ audit_by e = user_id user /\ audit_at e = now env).
Proof.
  intros Hnd Hfind.
  destruct (run_effect env user db op)
    as [[_ ->] | (t & t' & e & Ht & _ & -> & Hcore & Haud & Hby & Hat & _)].
  - exists b. split; [done |]. split; [by repeat split | by left].
  - simpl. destruct Hcore as (Hid & Hrest).
    destruct (findById_Some _ _ _ Hfind) as [Hb Hbid].
    destruct (N.eq_dec id (booking_id t')) as [Heq | Hne].
    + assert (b = t) as ->
        by (by apply (unique_key booking_id (bookingsColl db));
            [| | | rewrite Hbid, Heq, Hid]).
      exists t'. rewrite Heq.
      rewrite (findById_update_same _ t t') by (by rewrite <- Heq).
      split; [done |]. split; [by split |]. right. by exists e.
    + exists b. rewrite findById_update_other by done.
      split; [done |]. split; [by repeat split | by left].
Qed.

Lemma status_step_live (op : Operation) (s s' : BookingStatus) :
  status_step op s s' ->
  status_nin s' [REJECTED; CANCELLED; EXPIRED] = true ->
  status_nin s [REJECTED; CANCELLED; EXPIRED] = true.
Proof.
  intros Hstep Hlive. inversion Hstep; subst; try done.
  by destruct H as [-> | ->].
Qed.

(** X3. Approve, reject, cancel and scan keep the store conflict-free:
    none of them turns a rejected, cancelled or expired booking into a live
    one, and none changes facilities or times. *)
Theorem operations_keep_conflict_free (env : Env) (user : User) (db : DB)
    (op : Operation) :
  unique_booking_ids db ->
  conflict_free (bookingsColl db) ->
  conflict_free (bookingsColl (snd (run env user db op))).
Proof.
  intros Hnd Hcf.
  destruct (run_effect env user db op)
    as [[_ ->] | (t & t' & e & Ht & _ & -> & Hcore & _ & _ & _ & Hstep)];
    [done |].
  simpl. destruct Hcore as (Hid & _ & Hfac & Hst & Hen & _).
  assert (forall i y, update_doc t' (bookingsColl db) !! i = Some y ->
            exists x, bookingsColl db !! i = Some x
                      /\ facilities y = facilities x
                      /\ startTime y = startTime x /\ endTime y = endTime x
                      /\ (live y = true -> live x = true)) as Hrel.
  { intros i y Hy.
    destruct (update_doc_lookup_inv t t' _ i y Hnd Ht Hid Hy)
      as (x & Hx & [[Hxt Hyt] | [_ Hyx]]); exists x; subst; [| done].
    repeat split; try done. unfold live. by apply (status_step_live op). }
  intros i j a b Hij Ha Hb Hla Hlb (fid & Hfa & Hfb) [Ho1 Ho2].
  destruct (Hrel i a Ha) as (a0 & Ha0 & Haf & Has & Hae & Hal).
  destruct (Hrel j b Hb) as (b0 & Hb0 & Hbf & Hbs & Hbe & Hbl).
  apply (Hcf i j a0 b0); auto.
  - exists fid. by rewrite <- Haf, <- Hbf.
  - unfold overlaps. by rewrite <- Has, <- Hae, <- Hbs, <- Hbe.
Qed.

Lemma no_conflict_found (db : DB) (ids : list ObjectId) (startT endT : Date)
    (ext : bool) :
  decision db ids startT endT ext = AUTO_APPROVE
  \/ decision db ids startT endT ext = REQUIRES_ADMIN_APPROVAL ->
  find_overlapping (bookingsColl db) ids startT endT = [].
Proof.
  unfold decision.
  destruct (negb (length (find_requested (facilitiesColl db) ids)
                  =? length ids)%nat); [by intros [|] |].
  destruct (find_overlapping (bookingsColl db) ids startT endT); [done |].
  by intros [|].
Qed.

(** X4. Creation keeps the store conflict-free: the booking it appends
    shares no facility over an intersecting interval with any live booking
    already stored. *)
Theorem creation_keeps_conflict_free (env : Env) (user : User) (db : DB)
    (body : BookingBody) :
  fresh env db ->
  conflict_free (bookingsColl db) ->
  conflict_free (bookingsColl (snd (post_booking env user db body))).
Proof.
  intros Hfresh Hcf.
  destruct (req_facilityIds body) as [ids|] eqn:Hids;
    [| by unfold post_booking; rewrite Hids].
  destruct (req_startTime body) as [startT|] eqn:Hs;
    [| by unfold post_booking; rewrite Hids, Hs].
  destruct (req_endTime body) as [endT|] eqn:He;
    [| by unfold post_booking; rewrite Hids, Hs, He].
  rewrite (post_booking_exits env user db body ids startT endT) by done.
  pose proof (no_conflict_found db ids startT endT (req_isExternal body))
    as Hnone.
  assert (forall auto,
    conflict_free
      (bookingsColl db
       ++ [push_audit (new_booking env user ids startT endT body auto)
             (mkAudit BOOKING_CREATED (user_id user) (now env))]) \/
    find_overlapping (bookingsColl db) ids startT endT <> []) as Hnew.
  { intros auto.
    destruct (find_overlapping (bookingsColl db) ids startT endT) eqn:Hov;
      [left | by right].
    set (nb := push_audit _ _).
    assert (forall x, x ∈ bookingsColl db -> live x = true ->
              shares_facility x nb -> ~ overlaps x nb) as Hold.
    { intros x Hx Hlx (fid & Hfx & Hfn) [Ho1 Ho2].
      assert (x ∈ find_overlapping (bookingsColl db) ids startT endT) as Hin.
      { apply find_overlapping_spec. split; [done |].
        apply overlap_filter_spec. split; [by exists fid |].
        split; [by apply status_nin_spec |]. simpl in Ho1, Ho2. lia. }
      rewrite Hov in Hin. by apply elem_of_nil in Hin. }
    intros i j a b Hij Ha Hb Hla Hlb Hsh Hov'.
    apply lookup_app_Some in Ha as [Ha | [Hia Ha]];
      apply lookup_app_Some in Hb as [Hb | [Hjb Hb]].
    - by apply (Hcf i j a b).
    - apply list_lookup_singleton_Some in Hb as [_ <-].
      apply (Hold a); [by apply list_elem_of_lookup; exists i | done..].
    - apply list_lookup_singleton_Some in Ha as [_ <-].
      apply (Hold b); [by apply list_elem_of_lookup; exists j | done | |].
      + destruct Hsh as (fid & ? & ?). by exists fid.
      + destruct Hov'. by split.
    - apply list_lookup_singleton_Some in Ha as [Hi0 _].
      apply list_lookup_singleton_Some in Hb as [Hj0 _]. lia. }
  destruct (decision db ids startT endT (req_isExternal body)); simpl;
    try done.
  - destruct (Hnew true) as [? | Hne]; [done |]. exfalso. apply Hne. auto.
  - destruct (Hnew false) as [? | Hne]; [done |]. exfalso. apply Hne. auto.
Qed.

(** X5. No route ever writes the statuses PENDING or EXPIRED: if no stored
    booking has one of them, none has after a creation request or after
    any approve, reject, cancel or scan. *)
Theorem statuses_never_pending_or_expired (env : Env) (user : User) (db : DB) :
  (forall b, b ∈ bookingsColl db ->
             status b <> PENDING /\ status b <> EXPIRED) ->
  (forall body b,
     b ∈ bookingsColl (snd (post_booking env user db body)) ->
     status b <> PENDING /\ status b <> EXPIRED)
  /\ (forall op b,
        b ∈ bookingsColl (snd (run env user db op)) ->
        status b <> PENDING /\ status b <> EXPIRED).
Proof.
  intros Hok. split.
  - intros body b. unfold post_booking.
    destruct (req_facilityIds body) as [ids|]; [| apply Hok].
    destruct (req_startTime body) as [startT|]; [| apply Hok].
    destruct (req_endTime body) as [endT|]; [| apply Hok].
    destruct (negb _); [apply Hok |].
    destruct (0 <? _)%nat; [apply Hok |].
    cbv zeta. simpl. intros Hb.
    apply update_doc_elem in Hb as [-> | Hb].
    + simpl. by destruct (negb _).
    + unfold insert_doc in Hb. apply elem_of_app in Hb as [Hb | Hb];
        [by apply Hok |].
      apply list_elem_of_singleton in Hb as ->. simpl. by destruct (negb _).
  - intros op b.
    destruct (run_effect env user db op)
      as [[_ ->] | (t & t' & e & Ht & _ & -> & _ & _ & _ & _ & Hstep)];
      [apply Hok |].
    simpl. intros Hb. apply update_doc_elem in Hb as [-> | Hb];
      [| by apply Hok].
    by inversion Hstep.
Qed.

Lemma sample_conflict_free0 : conflict_free (bookingsColl Sample.db0).
Proof.
  intros i j a b Hij Ha Hb _ _ (fid & Hfa & Hfb) _.
  destruct i as [|[|i]], j as [|[|j]]; simpl in Ha, Hb; try done;
    injection Ha as <-; injection Hb as <-; simpl in Hfa, Hfb;
    apply list_elem_of_singleton in Hfa, Hfb; congruence.
Qed.

Lemma operations_keep_core_and_audit_witness :
  exists b',
    findById (bookingsColl (snd (run Sample.env0 Sample.admin Sample.db0
                                   (Reject 50%N None)))) 50%N = Some b'
    /\ same_core (Sample.held 50%N 1%N 600 660 APPROVED "aB3dE6gH") b'
    /\ (audit b' = audit (Sample.held 50%N 1%N 600 660 APPROVED "aB3dE6gH")
        \/ exists e,
             audit b'
             = audit (Sample.held 50%N 1%N 600 660 APPROVED "aB3dE6gH") ++ [e]
             /\ audit_by e = user_id Sample.admin
             /\ audit_at e = now Sample.env0).
Proof.
  apply (operations_keep_core_and_audit Sample.env0 Sample.admin Sample.db0
           (Reject 50%N None) 50%N).
  - apply sample_unique_bookings0.
  - reflexivity.
Defined.

Lemma operations_keep_conflict_free_witness :
  conflict_free
    (bookingsColl (snd (run Sample.env0 Sample.admin Sample.db0
                          (Scan (mkScan None (Some "qrstuvwx"%string)))))).
Proof.
  apply (operations_keep_conflict_free Sample.env0 Sample.admin Sample.db0).
  - apply sample_unique_bookings0.
  - apply sample_conflict_free0.
Defined.

Lemma creation_keeps_conflict_free_witness :
  conflict_free
    (bookingsColl (snd (post_booking Sample.env0 Sample.student Sample.db0
                          (Sample.request [2%N] 600 660 false)))).
Proof.
  apply (creation_keeps_conflict_free Sample.env0 Sample.student Sample.db0).
  - apply sample_fresh0.
  - apply sample_conflict_free0.
Defined.

Lemma sample_statuses0 (b : Booking) :
  b ∈ bookingsColl Sample.db0 -> status b <> PENDING /\ status b <> EXPIRED.
Proof.
  intros Hb. simpl in Hb.
  apply elem_of_cons in Hb as [-> | Hb]; [done |].
  by apply list_elem_of_singleton in Hb as ->.
Qed.

Lemma statuses_never_pending_or_expired_witness :
  (forall body b,
     b ∈ bookingsColl (snd (post_booking Sample.env0 Sample.student
                              Sample.db0 body)) ->
     status b <> PENDING /\ status b <> EXPIRED)
  /\ (forall op b,
        b ∈ bookingsColl (snd (run Sample.env0 Sample.student Sample.db0 op)) ->
        status b <> PENDING /\ status b <> EXPIRED).
Proof.
  apply (statuses_never_pending_or_expired Sample.env0 Sample.student
           Sample.db0).
  apply sample_statuses0.
Defined.

(** ** When a request succeeds *)

(** X6. An approve request succeeds exactly when the caller is an
    administrator and the booking exists with status PENDING or
    PENDING_ADMIN. It then leaves the booking APPROVED with a MANUAL
    approval by the caller, carrying the notes, and with a QR payload; a
    refused request writes nothing. *)
Theorem approve_succeeds_iff (env : Env) (user : User) (db : DB)
    (id : ObjectId) (notes : option string) :
  (fst (run env user db (Approve id notes)) = 200%nat <->
   role user = ADMIN
   /\ exists b, findById (bookingsColl db) id = Some b
                /\ (status b = PENDING \/ status b = PENDING_ADMIN))
  /\ (fst (run env user db (Approve id notes)) = 200%nat ->
      exists b',
        findById (bookingsColl (snd (run env user db (Approve id notes)))) id
        = Some b'
        /\ status b' = APPROVED
        /\ approval b' = Some (manual_approval env user notes)
        /\ is_Some (qrCodeUrl b'))
  /\ (fst (run env user db (Approve id notes)) <> 200%nat ->
      snd (run env user db (Approve id notes)) = db).
Proof.
  unfold run, patch_approve, requireRole. cbn [existsb].
  destruct (decide (ADMIN = role user)) as [Hrole | Hrole].
  2: { rewrite bool_decide_eq_false_2 by done. simpl.
       split; [split; [done | intros [? _]; congruence] |].
       split; [done | done]. }
  rewrite bool_decide_eq_true_2 by done. cbn [orb negb].
  destruct (findById (bookingsColl db) id) as [b|] eqn:Hfind.
  2: { simpl. split; [split; [done | by intros (_ & ? & ? & _)] |].
       split; [done | done]. }
  destruct (findById_Some _ _ _ Hfind) as [_ Hid].
  unfold status_eqb.
  destruct (decide (status b = PENDING_ADMIN)) as [Hpa | Hpa];
    destruct (decide (status b = PENDING)) as [Hp | Hp];
    rewrite ?(bool_decide_eq_true_2 _ Hpa), ?(bool_decide_eq_false_2 _ Hpa),
      ?(bool_decide_eq_true_2 _ Hp), ?(bool_decide_eq_false_2 _ Hp);
    cbn [negb andb]; cbv zeta.
  4: { simpl. split; [split; [done |] |].
       - intros (_ & b0 & Hb0 & [? | ?]); congruence.
       - split; [done | done]. }
  all: set (b' := push_audit _ _);
    assert (booking_id b' = id /\ status b' = APPROVED
            /\ approval b' = Some (manual_approval env user notes)
            /\ is_Some (qrCodeUrl b')) as (Hid' & Hst & Hap & Hqr)
      by (subst b'; simpl; destruct (qrCodeUrl b) eqn:Hq; simpl;
          rewrite ?Hq; repeat split; try done; by eexists);
    cbn [fst snd http_status bookingsColl set_bookings];
    (split; [split; [intros _; split; [done | exists b; auto] | done] |]);
    (split; [| done]); intros _; exists b'; rewrite <- Hid';
    rewrite (findById_update_same _ b b') by (by rewrite Hid'); done.
Qed.

(** X7. A cancel request succeeds exactly when the booking exists, the
    caller is its owner or an administrator, and its status is neither
    CHECKED_IN nor CHECKED_OUT. It then leaves the booking CANCELLED; given
    non-empty notes it stores them as the approval's notes and leaves the
    approval's type, by and at as they were (unset when no approval was
    stored: the handler's branch that would set the type MANUAL is never
    taken); without notes the approval is untouched. A refused request
    writes nothing. *)
Theorem cancel_succeeds_iff (env : Env) (user : User) (db : DB)
    (id : ObjectId) (notes : option string) :
  (fst (run env user db (Cancel id notes)) = 200%nat <->
   exists b, findById (bookingsColl db) id = Some b
             /\ (role user = ADMIN \/ userId b = user_id user)
             /\ status b <> CHECKED_IN /\ status b <> CHECKED_OUT)
  /\ (forall b, findById (bookingsColl db) id = Some b ->
      fst (run env user db (Cancel id notes)) = 200%nat ->
      exists b',
        findById (bookingsColl (snd (run env user db (Cancel id notes)))) id
        = Some b'
        /\ status b' = CANCELLED
        /\ match truthy notes with
           | None => approval b' = approval b
           | Some n =>
               (approval b' ≫= approval_notes) = Some n
               /\ (approval b' ≫= approval_type)
                  = (approval b ≫= approval_type)
               /\ (approval b' ≫= approval_by) = (approval b ≫= approval_by)
               /\ (approval b' ≫= approval_at) = (approval b ≫= approval_at)
           end)
  /\ (fst (run env user db (Cancel id notes)) <> 200%nat ->
      snd (run env user db (Cancel id notes)) = db).
Proof.
  unfold run, patch_cancel.
  destruct (findById (bookingsColl db) id) as [b|] eqn:Hfind.
  2: { simpl. split; [split; [done | by intros (? & ? & _)] |].
       split; [done | done]. }
  destruct (findById_Some _ _ _ Hfind) as [_ Hid].
  destruct (negb (bool_decide (role user = ADMIN))
            && negb (N.eqb (userId b) (user_id user))) eqn:Hauth.
  { simpl. split; [split; [done |] | split; [by intros ? _ ? | done]].
    intros (b0 & Hb0 & Hor & _). injection Hb0 as <-.
    apply andb_true_iff in Hauth as [Hr Hu].
    apply negb_true_iff in Hr, Hu. apply N.eqb_neq in Hu.
    apply bool_decide_eq_false in Hr. by destruct Hor. }
  assert (role user = ADMIN \/ userId b = user_id user) as Hor.
  { apply andb_false_iff in Hauth as [Hr | Hu].
    - left. apply negb_false_iff in Hr. by apply bool_decide_eq_true in Hr.
    - right. apply negb_false_iff in Hu. by apply N.eqb_eq. }
  destruct (status_eqb (status b) CHECKED_IN
            || status_eqb (status b) CHECKED_OUT) eqn:Hguard.
  { simpl. split; [split; [done |] | split; [by intros ? _ ? | done]].
    intros (b0 & Hb0 & _ & Hci & Hco). injection Hb0 as <-.
    unfold status_eqb in Hguard.
    rewrite !bool_decide_eq_false_2 in Hguard by done. done. }
  apply orb_false_iff in Hguard as [Hci Hco].
  unfold status_eqb in Hci, Hco.
  apply bool_decide_eq_false in Hci, Hco.
  cbv zeta.
  set (b' := match truthy notes with Some _ => _ | None => _ end).
  assert (booking_id b' = id /\ status b' = CANCELLED) as [Hid' Hst]
    by (subst b'; by destruct (truthy notes)).
  cbn [fst snd http_status bookingsColl set_bookings].
  split; [split; [intros _; by exists b | done] |].
  split; [| done]. intros b0 Hb0 _. injection Hb0 as <-.
  exists b'. rewrite <- Hid'.
  rewrite (findById_update_same _ b b') by (by rewrite Hid').
  split; [done |]. split; [done |].
  subst b'. destruct (truthy notes); [| done].
  unfold get_approval. simpl. by destruct (approval b).
Qed.

(** The student cancels booking 50, which has no approval stored, and
    gives a reason: the approval then holds the notes and no type. *)
Example sample_cancel_notes :
  approval_of Sample.db0 50%N = Some None
  /\ approval_of (snd (run Sample.env0 Sample.student Sample.db0
                         (Cancel 50%N (Some "ill"%string)))) 50%N
     = Some (Some (mkApproval None None None (Some "ill"%string))).
Proof. split; reflexivity. Qed.

(** ** Scanning *)

Lemma requireRole_staff (user : User) :
  requireRole [ADMIN; STAFF] user = true <->
  role user = ADMIN \/ role user = STAFF.
Proof. unfold requireRole. destruct (role user); simpl; intuition congruence. Qed.

(** A scan that finds an APPROVED booking inside its window checks it in. *)
Lemma post_scan_checkin (env : Env) (user : User) (db : DB) (body : ScanBody)
    (code : string) (bid : option ObjectId) (b : Booking) :
  requireRole [ADMIN; STAFF] user = true ->
  scan_query body = inr (code, bid) ->
  findOne_checkIn (bookingsColl db) code bid = Some b ->
  status b = APPROVED ->
  startTime b - 1800000 <= now env <= endTime b + 1800000 ->
  post_scan env user db body
  = let b' :=
      push_audit (set_status (set_checkInAt b (Some (now env))) CHECKED_IN)
        (mkAudit QR_CHECKIN (user_id user) (now env)) in
    (mkResponse 200 true EmptyString (Some (checkin, b')),
     set_bookings db (update_doc b' (bookingsColl db))).
Proof.
  intros Hrole Hq Hfind Hst Hwin. unfold post_scan.
  rewrite Hrole, Hq, Hfind, Hst. cbn [negb existsb].
  change (status_eqb APPROVED APPROVED) with true.
  cbn [orb negb]. cbv zeta.
  change (30 * 60 * 1000) with 1800000.
  destruct (Z.ltb_spec (now env) (startTime b - 1800000)); [lia |].
  destruct (Z.gtb_spec (now env) (endTime b + 1800000)); [lia |].
  done.
Qed.

(** A scan that finds a CHECKED_IN booking inside its window checks it
    out. *)
Lemma post_scan_checkout (env : Env) (user : User) (db : DB) (body : ScanBody)
    (code : string) (bid : option ObjectId) (b : Booking) :
  requireRole [ADMIN; STAFF] user = true ->
  scan_query body = inr (code, bid) ->
  findOne_checkIn (bookingsColl db) code bid = Some b ->
  status b = CHECKED_IN ->
  startTime b - 1800000 <= now env <= endTime b + 1800000 ->
  post_scan env user db body
  = let b' :=
      push_audit (set_status (set_checkOutAt b (Some (now env))) CHECKED_OUT)
        (mkAudit QR_CHECKOUT (user_id user) (now env)) in
    (mkResponse 200 true EmptyString (Some (checkout, b')),
     set_bookings db (update_doc b' (bookingsColl db))).
Proof.
  intros Hrole Hq Hfind Hst Hwin. unfold post_scan.
  rewrite Hrole, Hq, Hfind, Hst. cbn [negb existsb].
  change (status_eqb CHECKED_IN APPROVED) with false.
  change (status_eqb CHECKED_IN CHECKED_IN) with true.
  cbn [orb negb]. cbv zeta.
  change (30 * 60 * 1000) with 1800000.
  destruct (Z.ltb_spec (now env) (startTime b - 1800000)); [lia |].
  destruct (Z.gtb_spec (now env) (endTime b + 1800000)); [lia |].
  done.
Qed.

(** A scan that finds a booking is refused, and writes nothing, when the
    booking is neither APPROVED nor CHECKED_IN or the scan falls outside
    the window. *)
Lemma post_scan_refused (env : Env) (user : User) (db : DB) (body : ScanBody)
    (code : string) (bid : option ObjectId) (b : Booking) :
  scan_query body = inr (code, bid) ->
  findOne_checkIn (bookingsColl db) code bid = Some b ->
  (status b <> APPROVED /\ status b <> CHECKED_IN)
  \/ now env < startTime b - 1800000
  \/ endTime b + 1800000 < now env ->
  http_status (fst (post_scan env user db body))
  = (if requireRole [ADMIN; STAFF] user then 400 else 403)%nat
  /\ snd (post_scan env user db body) = db.
Proof.
  intros Hq Hfind Hcase. unfold post_scan.
  destruct (requireRole [ADMIN; STAFF] user); [| done]. cbn [negb].
  rewrite Hq, Hfind. cbn [existsb]. unfold status_eqb.
  destruct (decide (status b = APPROVED)) as [Ha | Ha];
    destruct (decide (status b = CHECKED_IN)) as [Hc | Hc];
    rewrite ?(bool_decide_eq_true_2 _ Ha), ?(bool_decide_eq_false_2 _ Ha),
      ?(bool_decide_eq_true_2 _ Hc), ?(bool_decide_eq_false_2 _ Hc);
    cbn [orb negb]; cbv zeta; change (30 * 60 * 1000) with 1800000;
    try done;
    (destruct (Z.ltb_spec (now env) (startTime b - 1800000)); [done |]);
    (destruct (Z.gtb_spec (now env) (endTime b + 1800000)); [done |]);
    exfalso; destruct Hcase as [[? ?] | [? | ?]]; try lia; done.
Qed.

Lemma run_scan (env : Env) (user : User) (db : DB) (body : ScanBody) :
  run env user db (Scan body)
  = (http_status (fst (post_scan env user db body)),
     snd (post_scan env user db body)).
Proof. unfold run. by destruct (post_scan env user db body). Qed.

(** X8. When the scan's lookup finds booking [b], the scan succeeds
    exactly when the caller is an administrator or staff, [b] is APPROVED
    or CHECKED_IN, and the current time lies between 30 minutes before its
    start and 30 minutes after its end, both bounds included. It then
    moves APPROVED to CHECKED_IN, setting checkInAt, and CHECKED_IN to
    CHECKED_OUT, setting checkOutAt; a refused scan writes nothing. *)
Theorem scan_succeeds_iff (env : Env) (user : User) (db : DB)
    (body : ScanBody) (code : string) (bid : option ObjectId) (b : Booking) :
  scan_query body = inr (code, bid) ->
  findOne_checkIn (bookingsColl db) code bid = Some b ->
  (fst (run env user db (Scan body)) = 200%nat <->
   (role user = ADMIN \/ role user = STAFF)
   /\ (status b = APPROVED \/ status b = CHECKED_IN)
   /\ startTime b - 1800000 <= now env <= endTime b + 1800000)
  /\ (fst (run env user db (Scan body)) = 200%nat ->
      findById (bookingsColl db) (booking_id b) = Some b ->
      exists b',
        findById (bookingsColl (snd (run env user db (Scan body))))
          (booking_id b) = Some b'
        /\ (status b = APPROVED /\ status b' = CHECKED_IN
            /\ checkInAt b' = Some (now env)
            /\ checkOutAt b' = checkOutAt b
            \/ status b = CHECKED_IN /\ status b' = CHECKED_OUT
               /\ checkOutAt b' = Some (now env)
               /\ checkInAt b' = checkInAt b))
  /\ (fst (run env user db (Scan body)) <> 200%nat ->
      snd (run env user db (Scan body)) = db).
Proof.
  intros Hq Hfind. rewrite run_scan. cbn [fst snd].
  destruct (requireRole [ADMIN; STAFF] user) eqn:Hrole.
  2: { assert (post_scan env user db body
               = (failure 403 "Insufficient permissions.", db)) as ->
         by (unfold post_scan; by rewrite Hrole).
       simpl. split; [split; [done |] | by split].
       intros (Hr & _). apply requireRole_staff in Hr. congruence. }
  pose proof (proj1 (requireRole_staff user) Hrole) as Hr.
  destruct (decide (startTime b - 1800000 <= now env <= endTime b + 1800000))
    as [Hwin | Hout].
  2: { destruct (post_scan_refused env user db body code bid b Hq Hfind)
         as [Hcode Hdb]; [lia |].
       rewrite Hrole in Hcode. rewrite Hdb, Hcode.
       split; [| split; [| done]]; [split; [done | tauto] | done]. }
  destruct (decide (status b = APPROVED)) as [Ha | Ha].
  { rewrite (post_scan_checkin env user db body code bid b) by done.
    cbv zeta. cbn [fst snd http_status bookingsColl set_bookings].
    split; [by split; [intros _; auto |] |]. split; [| done].
    intros _ Hid. set (b' := push_audit _ _). exists b'.
    rewrite (findById_update_same _ b b') by done.
    split; [done |]. by left. }
  destruct (decide (status b = CHECKED_IN)) as [Hc | Hc].
  { rewrite (post_scan_checkout env user db body code bid b) by done.
    cbv zeta. cbn [fst snd http_status bookingsColl set_bookings].
    split; [by split; [intros _; auto |] |]. split; [| done].
    intros _ Hid. set (b' := push_audit _ _). exists b'.
    rewrite (findById_update_same _ b b') by done.
    split; [done |]. by right. }
  destruct (post_scan_refused env user db body code bid b Hq Hfind)
    as [Hcode Hdb]; [by left |].
  rewrite Hrole in Hcode. rewrite Hdb, Hcode.
  split; [| split; [| done]]; [split; [done | tauto] | done].
Qed.

Lemma scan_succeeds_iff_witness :
  (fst (run (mkEnv 600 0%N EmptyString) Sample.admin Sample.db0
          (Scan (mkScan None (Some "qrstuvwx"%string)))) = 200%nat <->
   (role Sample.admin = ADMIN \/ role Sample.admin = STAFF)
   /\ (APPROVED = APPROVED \/ APPROVED = CHECKED_IN)
   /\ 600 - 1800000 <= 600 <= 660 + 1800000)
  /\ (fst (run (mkEnv 600 0%N EmptyString) Sample.admin Sample.db0
             (Scan (mkScan None (Some "qrstuvwx"%string)))) = 200%nat ->
      findById (bookingsColl Sample.db0) 51%N
      = Some (Sample.held 51%N 6%N 600 660 APPROVED "QRSTUVWX") ->
      exists b',
        findById
          (bookingsColl
             (snd (run (mkEnv 600 0%N EmptyString) Sample.admin Sample.db0
                     (Scan (mkScan None (Some "qrstuvwx"%string))))))
          51%N = Some b'
        /\ (APPROVED = APPROVED /\ status b' = CHECKED_IN
            /\ checkInAt b' = Some 600 /\ checkOutAt b' = None
            \/ APPROVED = CHECKED_IN /\ status b' = CHECKED_OUT
               /\ checkOutAt b' = Some 600 /\ checkInAt b' = None))
  /\ (fst (run (mkEnv 600 0%N EmptyString) Sample.admin Sample.db0
             (Scan (mkScan None (Some "qrstuvwx"%string)))) <> 200%nat ->
      snd (run (mkEnv 600 0%N EmptyString) Sample.admin Sample.db0
             (Scan (mkScan None (Some "qrstuvwx"%string)))) = Sample.db0).
Proof.
  apply (scan_succeeds_iff (mkEnv 600 0%N EmptyString) Sample.admin
           Sample.db0 (mkScan None (Some "qrstuvwx"%string))
           "QRSTUVWX" None
           (Sample.held 51%N 6%N 600 660 APPROVED "QRSTUVWX"));
    reflexivity.
Defined.

(** ** The facility lookup of creation, exactly *)

(** X9. With _id a unique key of the facilities, a creation request
    carrying its required fields is answered 404 exactly when its list of
    facility ids repeats an id or names an id that is not the id of an
    active facility. *)
Theorem lookup_refuses_iff (env : Env) (user : User) (db : DB)
    (body : BookingBody) (ids : list ObjectId) (startT endT : Date) :
  req_facilityIds body = Some ids ->
  req_startTime body = Some startT ->
  req_endTime body = Some endT ->
  unique_facility_ids db ->
  http_status (fst (post_booking env user db body)) = 404%nat <->
  ~ (NoDup ids
     /\ forall id, id ∈ ids ->
          exists f, f ∈ facilitiesColl db /\ fac_id f = id
                    /\ active f = true).
Proof.
  intros Hids Hs He Hnd.
  set (found := List.map fac_id (find_requested (facilitiesColl db) ids)).
  assert (NoDup found) as Hfnd by (by apply NoDup_map_filter).
  assert (forall x, x ∈ found <->
            x ∈ ids /\ exists f, f ∈ facilitiesColl db /\ fac_id f = x
                                 /\ active f = true) as Hfound.
  { intros x. unfold found. rewrite list_elem_of_In, in_map_iff. split.
    - intros (f & <- & Hf).
      apply list_elem_of_In, find_requested_spec in Hf as (? & ? & ?).
      split; [done | by exists f].
    - intros (Hx & f & Hf & <- & Hact). exists f. split; [done |].
      by apply list_elem_of_In, find_requested_spec. }
  assert (length (find_requested (facilitiesColl db) ids) = length ids <->
          NoDup ids
          /\ forall id, id ∈ ids ->
               exists f, f ∈ facilitiesColl db /\ fac_id f = id
                         /\ active f = true) as Hiff.
  { replace (length (find_requested (facilitiesColl db) ids))
      with (length found) by (unfold found; apply length_map).
    split.
    - intros Hlen.
      assert (found ≡ₚ ids) as Hperm.
      { apply submseteq_length_Permutation; [| lia].
        apply NoDup_submseteq; [done |]. intros x Hx. by apply Hfound. }
      split; [by rewrite <- Hperm |].
      intros id Hid. rewrite <- Hperm in Hid. by apply Hfound in Hid as [_ ?].
    - intros [Hndi Hall]. apply Permutation_length.
      apply NoDup_Permutation; [done | done |]. intros x.
      rewrite Hfound. split; [tauto |]. intros Hx. split; [done | auto]. }
  unfold post_booking. rewrite Hids, Hs, He.
  destruct (Nat.eqb_spec (length (find_requested (facilitiesColl db) ids))
              (length ids)) as [Hlen | Hlen]; cbn [negb].
  - split; [| tauto]. destruct (0 <? _)%nat; simpl; discriminate.
  - split; [tauto | done].
Qed.

Lemma lookup_refuses_iff_witness :
  http_status (fst (post_booking Sample.env0 Sample.student Sample.db0
                      (Sample.request [2%N; 2%N] 0 10 false))) = 404%nat <->
  ~ (NoDup [2%N; 2%N]
     /\ forall id, id ∈ [2%N; 2%N] ->
          exists f, f ∈ facilitiesColl Sample.db0 /\ fac_id f = id
                    /\ active f = true).
Proof.
  apply (lookup_refuses_iff Sample.env0 Sample.student Sample.db0
           (Sample.request [2%N; 2%N] 0 10 false) [2%N; 2%N] 0 10);
    try reflexivity.
  apply sample_unique_facilities0.
Defined.

Example sample_duplicate_ids_404 :
  http_status (fst (post_booking Sample.env0 Sample.student Sample.db0
                      (Sample.request [2%N; 2%N] 0 10 false))) = 404%nat
  /\ http_status (fst (post_booking Sample.env0 Sample.student Sample.db0
                         (Sample.request [2%N; 9%N] 0 10 false))) = 404%nat.
Proof. split; reflexivity. Qed.

(** ** From creation to check-out *)

Lemma findOne_app_fresh (coll : list Booking) (x : Booking) :
  booking_id x ∉ List.map booking_id coll ->
  findOne_checkIn (coll ++ [x]) (checkInCode x) (Some (booking_id x))
  = Some x.
Proof.
  unfold findOne_checkIn. induction coll as [|y coll IH]; simpl; intros Hf.
  - by rewrite String.eqb_refl, N.eqb_refl.
  - destruct (N.eqb_spec (booking_id y) (booking_id x)) as [Heq | Hne].
    + exfalso. apply Hf. rewrite Heq. left.
    + rewrite andb_false_r. apply IH. intros Hin. apply Hf. by right.
Qed.

Lemma update_doc_last (coll : list Booking) (x x' : Booking) :
  booking_id x ∉ List.map booking_id coll ->
  booking_id x' = booking_id x ->
  update_doc x' (coll ++ [x]) = coll ++ [x'].
Proof.
  intros Hf Hid. rewrite update_doc_app, update_doc_fresh by (by rewrite Hid).
  unfold update_doc. simpl. by rewrite Hid, N.eqb_refl.
Qed.

(** X10. The QR payload stored with an auto-approved booking leads back
    to it: scanned by staff inside the window, it checks the new booking
    in; scanned again, it checks it out; a third scan is refused with 400
    and changes nothing. *)
Theorem created_booking_checks_in_and_out (env env1 env2 env3 : Env)
    (user staff : User) (db : DB) (body : BookingBody)
    (ids : list ObjectId) (startT endT : Date) :
  req_facilityIds body = Some ids ->
  req_startTime body = Some startT ->
  req_endTime body = Some endT ->
  fresh env db ->
  decision db ids startT endT (req_isExternal body) = AUTO_APPROVE ->
  role staff = ADMIN \/ role staff = STAFF ->
  startT - 1800000 <= now env1 <= endT + 1800000 ->
  startT - 1800000 <= now env2 <= endT + 1800000 ->
  exists b payload db1 db2 db3,
    post_booking env user db body
    = (mkResponse 201 true "Booking created and approved automatically"
         (Some b), db1)
    /\ qrCodeUrl b = Some payload
    /\ run env1 staff db1 (Scan (mkScan (Some (Some payload)) None))
       = (200%nat, db2)
    /\ status_of db2 (freshId env) = Some CHECKED_IN
    /\ run env2 staff db2 (Scan (mkScan (Some (Some payload)) None))
       = (200%nat, db3)
    /\ status_of db3 (freshId env) = Some CHECKED_OUT
    /\ run env3 staff db3 (Scan (mkScan (Some (Some payload)) None))
       = (400%nat, db3).
Proof.
  intros Hids Hs He Hfresh Hdec Hstaff Hw1 Hw2.
  apply requireRole_staff in Hstaff.
  rewrite (post_booking_exits env user db body ids startT endT), Hdec by done.
  cbv zeta.
  set (b := new_booking env user ids startT endT body true).
  set (nb := push_audit b (mkAudit BOOKING_CREATED (user_id user) (now env))).
  set (payload := mkQr (Some (freshId env)) (freshCode env) ids true).
  set (scan := mkScan (Some (Some payload)) None).
  set (b1 := push_audit
               (set_status (set_checkInAt nb (Some (now env1))) CHECKED_IN)
               (mkAudit QR_CHECKIN (user_id staff) (now env1))).
  set (b2 := push_audit
               (set_status (set_checkOutAt b1 (Some (now env2))) CHECKED_OUT)
               (mkAudit QR_CHECKOUT (user_id staff) (now env2))).
  exists b, payload, (set_bookings db (bookingsColl db ++ [nb])),
    (set_bookings db (bookingsColl db ++ [b1])),
    (set_bookings db (bookingsColl db ++ [b2])).
  assert (scan_query scan = inr (freshCode env, Some (freshId env))) as Hq
    by reflexivity.
  assert (forall x, booking_id x = freshId env -> checkInCode x = freshCode env ->
            findOne_checkIn
              (bookingsColl (set_bookings db (bookingsColl db ++ [x])))
              (freshCode env) (Some (freshId env)) = Some x) as Hfind.
  { intros x Hx Hc. cbn [bookingsColl set_bookings]. rewrite <- Hx, <- Hc.
    apply findOne_app_fresh. by rewrite Hx. }
  assert (forall x, booking_id x = freshId env ->
            status_of (set_bookings db (bookingsColl db ++ [x])) (freshId env)
            = Some (status x)) as Hstatus.
  { intros x Hx. unfold status_of. cbn [bookingsColl set_bookings].
    rewrite <- Hx. rewrite find_app_fresh; [done | by rewrite Hx]. }
  split; [done |]. split; [done |].
  split.
  { rewrite run_scan.
    rewrite (post_scan_checkin env1 staff _ scan (freshCode env)
               (Some (freshId env)) nb); try done; [| by apply Hfind].
    cbv zeta. cbn [fst snd http_status bookingsColl set_bookings].
    f_equal. unfold set_bookings at 1. cbn [facilitiesColl settingsColl].
    fold b1. by rewrite (update_doc_last _ nb b1). }
  split; [by apply Hstatus |].
  split.
  { rewrite run_scan.
    rewrite (post_scan_checkout env2 staff _ scan (freshCode env)
               (Some (freshId env)) b1); try done; [| by apply Hfind].
    cbv zeta. cbn [fst snd http_status bookingsColl set_bookings].
    f_equal. unfold set_bookings at 1. cbn [facilitiesColl settingsColl].
    fold b2. by rewrite (update_doc_last _ b1 b2). }
  split; [by apply Hstatus |].
  rewrite run_scan.
  destruct (post_scan_refused env3 staff
              (set_bookings db (bookingsColl db ++ [b2])) scan
              (freshCode env) (Some (freshId env)) b2) as [Hcode Hdb];
    [done | by apply Hfind | by left |].
  rewrite Hstaff in Hcode. by f_equal.
Qed.

Lemma created_booking_checks_in_and_out_witness :
  exists b payload db1 db2 db3,
    post_booking Sample.env0 Sample.student Sample.db0
      (Sample.request [2%N] 600 660 false)
    = (mkResponse 201 true "Booking created and approved automatically"
         (Some b), db1)
    /\ qrCodeUrl b = Some payload
    /\ run (mkEnv 590 0%N EmptyString) Sample.admin db1
         (Scan (mkScan (Some (Some payload)) None)) = (200%nat, db2)
    /\ status_of db2 (freshId Sample.env0) = Some CHECKED_IN
    /\ run (mkEnv 655 0%N EmptyString) Sample.admin db2
         (Scan (mkScan (Some (Some payload)) None)) = (200%nat, db3)
    /\ status_of db3 (freshId Sample.env0) = Some CHECKED_OUT
    /\ run (mkEnv 656 0%N EmptyString) Sample.admin db3
         (Scan (mkScan (Some (Some payload)) None)) = (400%nat, db3).
Proof.
  apply (created_booking_checks_in_and_out Sample.env0
           (mkEnv 590 0%N EmptyString) (mkEnv 655 0%N EmptyString)
           (mkEnv 656 0%N EmptyString) Sample.student Sample.admin Sample.db0
           (Sample.request [2%N] 600 660 false) [2%N] 600 660);
    try reflexivity.
  - apply sample_fresh0.
  - by left.
  - simpl. lia.
  - simpl. lia.
Defined.

(** ** Validated requests *)

(** The condition that guards the externalOrg rule never holds. *)
Lemma externalOrg_rule_is_dead (isExt : bool) :
  equals (toString isExt) (LBoolean true) = false.
Proof. reflexivity. Qed.

(** X11. Had the creation route run [validateBooking] first, a request
    that passes it would never be answered 400, and the booking it stores
    would have a non-empty facility list and a start before its end. The
    rule on externalOrg is guarded by a condition that never holds, so the
    same request passes whatever its isExternal and externalOrg are. *)
Theorem validated_creation_is_well_formed (env : Env) (user : User)
    (db : DB) (body : BookingBody) :
  validateBooking body = true ->
  fresh env db ->
  http_status (fst (post_booking env user db body)) <> 400%nat
  /\ (http_status (fst (post_booking env user db body)) = 201%nat ->
      exists b,
        bookingsColl (snd (post_booking env user db body))
        = bookingsColl db ++ [b]
        /\ facilities b <> [] /\ startTime b < endTime b)
  /\ (forall isExt org,
        validateBooking (mkBody (req_facilityIds body) (req_startTime body)
                           (req_endTime body) isExt org) = true).
Proof.
  intros Hval Hfresh.
  destruct (validateBooking_sound body Hval)
    as (ids & startT & endT & Hids & Hne & Hs & He & Hlt).
  split; [| split].
  - rewrite (post_booking_exits env user db body ids startT endT) by done.
    by destruct (decision db ids startT endT (req_isExternal body)).
  - rewrite (post_booking_exits env user db body ids startT endT) by done.
    destruct (decision db ids startT endT (req_isExternal body)); simpl;
      try done; intros _; eexists; (split; [reflexivity |]); simpl; done.
  - intros isExt org. revert Hval. unfold validateBooking.
    cbn [req_facilityIds req_startTime req_endTime req_isExternal
         req_externalOrg].
    by rewrite !externalOrg_rule_is_dead.
Qed.

(** An external request that names no organisation. *)
Lemma validated_creation_is_well_formed_witness :
  http_status (fst (post_booking Sample.env0 Sample.student Sample.db0
                      (Sample.request [2%N] 600 660 true))) <> 400%nat
  /\ (http_status (fst (post_booking Sample.env0 Sample.student Sample.db0
                          (Sample.request [2%N] 600 660 true))) = 201%nat ->
      exists b,
        bookingsColl (snd (post_booking Sample.env0 Sample.student Sample.db0
                             (Sample.request [2%N] 600 660 true)))
        = bookingsColl Sample.db0 ++ [b]
        /\ facilities b <> [] /\ startTime b < endTime b)
  /\ (forall isExt org,
        validateBooking
          (mkBody (req_facilityIds (Sample.request [2%N] 600 660 true))
             (req_startTime (Sample.request [2%N] 600 660 true))
             (req_endTime (Sample.request [2%N] 600 660 true)) isExt org)
        = true).
Proof.
  apply (validated_creation_is_well_formed Sample.env0 Sample.student
           Sample.db0 (Sample.request [2%N] 600 660 true)).
  - reflexivity.
  - apply sample_fresh0.
Defined.

(** ** Deleting *)

Lemma findById_delete_other (coll : list Booking) (id id' : ObjectId) :
  id' <> id -> findById (delete_doc id coll) id' = findById coll id'.
Proof.
  intros Hne. unfold findById. induction coll as [|x coll IH]; simpl; [done |].
  destruct (N.eqb_spec (booking_id x) id) as [Heq | Hneq].
  - destruct (N.eqb_spec (booking_id x) id'); [congruence | done].
  - simpl. by rewrite IH.
Qed.

Lemma findById_delete_same (coll : list Booking) (id : ObjectId) :
  NoDup (List.map booking_id coll) -> findById (delete_doc id coll) id = None.
Proof.
  unfold findById. induction coll as [|x coll IH]; simpl; [done |].
  rewrite NoDup_cons. intros [Hx Hnd].
  destruct (N.eqb_spec (booking_id x) id) as [Heq | Hneq].
  - apply find_None_all. intros y Hy. apply N.eqb_neq. intros Hyid.
    apply Hx. rewrite Heq, <- Hyid.
    by apply list_elem_of_In, in_map, list_elem_of_In.
  - simpl. destruct (N.eqb_spec (booking_id x) id); [done | by apply IH].
Qed.

Lemma delete_doc_elem (coll : list Booking) (id : ObjectId) (y : Booking) :
  y ∈ delete_doc id coll -> y ∈ coll.
Proof.
  induction coll as [|x coll IH]; simpl; [done |].
  destruct (N.eqb (booking_id x) id); [by right |].
  intros Hy. apply elem_of_cons in Hy as [-> | Hy]; [left | right; auto].
Qed.

Lemma conflict_free_cons (x : Booking) (l : list Booking) :
  conflict_free (x :: l) <->
  (forall y, y ∈ l -> live x = true -> live y = true ->
             shares_facility x y -> ~ overlaps x y)
  /\ conflict_free l.
Proof.
  split.
  - intros Hcf. split.
    + intros y Hy. apply list_elem_of_lookup in Hy as [k Hk].
      by apply (Hcf 0%nat (S k)).
    + intros i j a b Hij Ha Hb. by apply (Hcf (S i) (S j)); [lia | |].
  - intros [Hx Hl] i j a b Hij Ha Hb Hla Hlb Hsh Hov.
    destruct i as [|i], j as [|j]; simpl in Ha, Hb; try done.
    + injection Ha as <-.
      apply (Hx b); [by apply list_elem_of_lookup; exists j | done..].
    + injection Hb as <-.
      apply (Hx a); [by apply list_elem_of_lookup; exists i | done | done | |].
      * destruct Hsh as (fid & ? & ?). by exists fid.
      * destruct Hov. by split.
    + apply (Hl i j a b); try done. lia.
Qed.

Lemma delete_keeps_conflict_free (coll : list Booking) (id : ObjectId) :
  conflict_free coll -> conflict_free (delete_doc id coll).
Proof.
  induction coll as [|x coll IH]; simpl; [done |].
  rewrite conflict_free_cons. intros [Hx Hl].
  destruct (N.eqb (booking_id x) id); [done |].
  apply conflict_free_cons. split; [| by apply IH].
  intros y Hy. apply Hx. by apply (delete_doc_elem _ id).
Qed.

Lemma delete_doc_length (coll : list Booking) (id : ObjectId) (b : Booking) :
  findById coll id = Some b ->
  length coll = S (length (delete_doc id coll)).
Proof.
  unfold findById. induction coll as [|x coll IH]; simpl; [done |].
  destruct (N.eqb (booking_id x) id); [done |].
  intros H. simpl. by rewrite <- IH.
Qed.

(** X12. A delete request succeeds exactly when the caller is an
    administrator and the booking exists. With _id a unique key it then
    removes that booking and only that one: the id is no longer found,
    every other id is found as before, and a conflict-free store stays
    conflict-free. A refused request writes nothing. *)
Theorem delete_removes_only_target (user : User) (db : DB) (id : ObjectId) :
  unique_booking_ids db ->
  (http_status (fst (delete_booking user db id)) = 200%nat <->
   role user = ADMIN /\ is_Some (findById (bookingsColl db) id))
  /\ (http_status (fst (delete_booking user db id)) = 200%nat ->
      findById (bookingsColl (snd (delete_booking user db id))) id = None
      /\ (forall id', id' <> id ->
            findById (bookingsColl (snd (delete_booking user db id))) id'
            = findById (bookingsColl db) id')
      /\ length (bookingsColl db)
         = S (length (bookingsColl (snd (delete_booking user db id))))
      /\ (conflict_free (bookingsColl db) ->
          conflict_free (bookingsColl (snd (delete_booking user db id)))))
  /\ (http_status (fst (delete_booking user db id)) <> 200%nat ->
      snd (delete_booking user db id) = db).
Proof.
  intros Hnd. unfold delete_booking, requireRole. cbn [existsb].
  destruct (decide (ADMIN = role user)) as [Hrole | Hrole].
  2: { rewrite bool_decide_eq_false_2 by done. simpl.
       split; [split; [done | intros [? _]; congruence] | by split]. }
  rewrite bool_decide_eq_true_2 by done. cbn [orb negb].
  destruct (findById (bookingsColl db) id) as [b|] eqn:Hfind; simpl.
  - split; [by split; [intros _; split; [| eexists] |] |].
    split; [| done]. intros _.
    split; [by apply findById_delete_same |].
    split; [intros id' Hne; by apply findById_delete_other |].
    split; [by apply (delete_doc_length _ _ b) |].
    apply delete_keeps_conflict_free.
  - split; [split; [done | by intros [_ [? ?]]] | by split].
Qed.

Lemma delete_removes_only_target_witness :
  (http_status (fst (delete_booking Sample.admin Sample.db0 50%N)) = 200%nat
   <-> role Sample.admin = ADMIN
       /\ is_Some (findById (bookingsColl Sample.db0) 50%N))
  /\ (http_status (fst (delete_booking Sample.admin Sample.db0 50%N))
      = 200%nat ->
      findById (bookingsColl (snd (delete_booking Sample.admin Sample.db0
                                    50%N))) 50%N = None
      /\ (forall id', id' <> 50%N ->
            findById (bookingsColl (snd (delete_booking Sample.admin
                                           Sample.db0 50%N))) id'
            = findById (bookingsColl Sample.db0) id')
      /\ length (bookingsColl Sample.db0)
         = S (length (bookingsColl (snd (delete_booking Sample.admin
                                           Sample.db0 50%N))))
      /\ (conflict_free (bookingsColl Sample.db0) ->
          conflict_free (bookingsColl (snd (delete_booking Sample.admin
                                              Sample.db0 50%N)))))
  /\ (http_status (fst (delete_booking Sample.admin Sample.db0 50%N))
      <> 200%nat ->
      snd (delete_booking Sample.admin Sample.db0 50%N) = Sample.db0).
Proof.
  apply (delete_removes_only_target Sample.admin Sample.db0 50%N).
  apply sample_unique_bookings0.
Defined.

(** ** What a caller who is not an administrator can do *)

(** Saving one stored booking back: every stored booking is still there,
    the saved one in its new state and the others as they were. *)
Lemma update_doc_reach (coll : list Booking) (b b' : Booking) :
  NoDup (List.map booking_id coll) ->
  b ∈ coll -> booking_id b' = booking_id b ->
  (forall x, x ∈ coll ->
     (x = b /\ b' ∈ update_doc b' coll) \/ x ∈ update_doc b' coll)
  /\ (forall y, y ∈ update_doc b' coll ->
        exists x, x ∈ coll /\ booking_id x = booking_id y).
Proof.
  intros Hnd Hb Hid. split.
  - intros x Hx.
    destruct (N.eqb_spec (booking_id x) (booking_id b')) as [Heq | Hne].
    + left. split.
      * apply (unique_key booking_id coll); [done | done | done |].
        by rewrite Heq.
      * unfold update_doc. apply list_elem_of_In, in_map_iff. exists x.
        split; [| by apply list_elem_of_In].
        by rewrite Heq, N.eqb_refl.
    + right. unfold update_doc. apply list_elem_of_In, in_map_iff. exists x.
      split; [| by apply list_elem_of_In].
      by destruct (N.eqb_spec (booking_id x) (booking_id b')).
  - intros y Hy. apply update_doc_elem in Hy as [-> | Hy].
    + by exists b.
    + by exists y.
Qed.

(** Creation leaves the stored bookings as they are and adds at most one,
    owned by the caller. *)
Lemma post_booking_reach (env : Env) (user : User) (db : DB)
    (body : BookingBody) :
  fresh env db ->
  snd (post_booking env user db body) = db
  \/ exists b, userId b = user_id user
               /\ bookingsColl (snd (post_booking env user db body))
                  = bookingsColl db ++ [b].
Proof.
  intros Hfresh.
  destruct (req_facilityIds body) as [ids|] eqn:Hids;
    [| left; unfold post_booking; by rewrite Hids].
  destruct (req_startTime body) as [startT|] eqn:Hs;
    [| left; unfold post_booking; by rewrite Hids, Hs].
  destruct (req_endTime body) as [endT|] eqn:He;
    [| left; unfold post_booking; by rewrite Hids, Hs, He].
  rewrite (post_booking_exits env user db body ids startT endT) by done.
  destruct (decision db ids startT endT (req_isExternal body));
    try (by left); right; eexists;
    (split; [| cbv zeta; cbn [snd bookingsColl set_bookings]; reflexivity]);
    reflexivity.
Qed.

(** X13. What a caller who is not an administrator can do to the stored
    bookings, through any of the requests that write them (create,
    approve, reject, cancel, scan, delete, approval of a check-in
    request): no booking is removed and none changes its owner; a stored
    booking is left exactly as it was unless the caller is its owner and
    cancels it, or the caller is staff and checks it in or out by a scan
    or by approving a check-in request; the only booking that can appear
    is one the caller creates, owned by the caller. And
    GET /api/bookings/:id shows such a caller only bookings they own. *)
Theorem non_admin_powers (env : Env) (user : User)
    (requests : list CheckInRequest) (db : DB) (r : Route) :
  role user <> ADMIN ->
  unique_booking_ids db ->
  fresh env db ->
  (forall b, b ∈ bookingsColl db ->
     exists b',
       b' ∈ bookingsColl (handle env user requests db r)
       /\ booking_id b' = booking_id b /\ userId b' = userId b
       /\ (b' = b
           \/ (userId b = user_id user /\ status b' = CANCELLED
               /\ exists id notes, r = ChangeBooking (Cancel id notes))
           \/ (role user = STAFF
               /\ (status b' = CHECKED_IN \/ status b' = CHECKED_OUT)
               /\ ((exists body, r = ChangeBooking (Scan body))
                   \/ exists id damage,
                        r = ApproveCheckInRequest id damage))))
  /\ (forall b', b' ∈ bookingsColl (handle env user requests db r) ->
        (exists b, b ∈ bookingsColl db /\ booking_id b = booking_id b')
        \/ (userId b' = user_id user
            /\ exists body, r = CreateBooking body))
  /\ (forall id b, data (get_booking user db id) = Some b ->
        userId b = user_id user).
Proof.
  intros Hrole Hnd Hfresh.
  assert (requireRole [ADMIN] user = false) as Hadmin.
  { unfold requireRole. cbn [existsb].
    by rewrite bool_decide_eq_false_2. }
  assert (bool_decide (role user = ADMIN) = false) as Hbd
    by (by apply bool_decide_eq_false).
  assert (forall db', db' = db ->
            (forall b, b ∈ bookingsColl db ->
               exists b',
                 b' ∈ bookingsColl db'
                 /\ booking_id b' = booking_id b /\ userId b' = userId b
                 /\ (b' = b
                     \/ (userId b = user_id user /\ status b' = CANCELLED
                         /\ exists id notes,
                              r = ChangeBooking (Cancel id notes))
                     \/ (role user = STAFF
                         /\ (status b' = CHECKED_IN
                             \/ status b' = CHECKED_OUT)
                         /\ ((exists body, r = ChangeBooking (Scan body))
                             \/ exists id damage,
                                  r = ApproveCheckInRequest id damage))))
            /\ (forall b', b' ∈ bookingsColl db' ->
                  (exists b, b ∈ bookingsColl db
                             /\ booking_id b = booking_id b')
                  \/ (userId b' = user_id user
                      /\ exists body, r = CreateBooking body))) as Hsame.
  { intros db' ->. split.
    - intros b Hb. exists b. split; [done |]. split; [done |]. split; [done |]. by left.
    - intros b' Hb'. left. by exists b'. }
  assert (forall b b',
            b ∈ bookingsColl db -> booking_id b' = booking_id b ->
            userId b' = userId b ->
            ((userId b = user_id user /\ status b' = CANCELLED
              /\ exists id notes, r = ChangeBooking (Cancel id notes))
             \/ (role user = STAFF
                 /\ (status b' = CHECKED_IN \/ status b' = CHECKED_OUT)
                 /\ ((exists body, r = ChangeBooking (Scan body))
                     \/ exists id damage,
                          r = ApproveCheckInRequest id damage))) ->
            (forall x, x ∈ bookingsColl db ->
               exists x',
                 x' ∈ update_doc b' (bookingsColl db)
                 /\ booking_id x' = booking_id x /\ userId x' = userId x
                 /\ (x' = x
                     \/ (userId x = user_id user /\ status x' = CANCELLED
                         /\ exists id notes,
                              r = ChangeBooking (Cancel id notes))
                     \/ (role user = STAFF
                         /\ (status x' = CHECKED_IN
                             \/ status x' = CHECKED_OUT)
                         /\ ((exists body, r = ChangeBooking (Scan body))
                             \/ exists id damage,
                                  r = ApproveCheckInRequest id damage))))
            /\ (forall y, y ∈ update_doc b' (bookingsColl db) ->
                  (exists x, x ∈ bookingsColl db
                             /\ booking_id x = booking_id y)
                  \/ (userId y = user_id user
                      /\ exists body, r = CreateBooking body))) as Hwrite.
  { intros b b' Hb Hid Hown Hwho.
    destruct (update_doc_reach (bookingsColl db) b b' Hnd Hb Hid)
      as [Hfwd Hback].
    split.
    - intros x Hx. destruct (Hfwd x Hx) as [[-> Hin] | Hin].
      + exists b'. split; [done |]. split; [done |]. split; [done |].
        right. destruct Hwho as [(Hu & Hst & Hr) | Hstaff]; [left | by right].
        done.
      + exists x. split; [done |]. split; [done |]. split; [done |]. by left.
    - intros y Hy. left. by apply Hback. }
  apply and_assoc. split.
  2: { intros id b. unfold get_booking. rewrite Hbd.
       destruct (findById (bookingsColl db) id) as [x|]; [| done].
       cbn [negb andb].
       destruct (N.eqb_spec (userId x) (user_id user)) as [Hown | Hown];
         [| done].
       simpl. by intros [= <-]. }
  destruct r as [body | [id notes | id notes | id notes | body] | id
                 | id damage]; cbn [handle].
  - destruct (post_booking_reach env user db body Hfresh)
      as [Heq | (n & Hown & Hcoll)]; [by apply Hsame |].
    rewrite Hcoll. split.
    + intros b Hb. exists b. split; [apply elem_of_app; by left |].
      split; [done |]. split; [done |]. by left.
    + intros b' Hb'. apply elem_of_app in Hb' as [Hb' | Hb'].
      * left. by exists b'.
      * apply list_elem_of_singleton in Hb' as ->. right.
        split; [done | by exists body].
  - apply Hsame. unfold run, patch_approve. by rewrite Hadmin.
  - apply Hsame. unfold run, patch_reject. by rewrite Hadmin.
  - unfold run, patch_cancel. rewrite Hbd.
    destruct (findById (bookingsColl db) id) as [b|] eqn:Hfind;
      [| by apply Hsame].
    destruct (findById_Some _ _ _ Hfind) as [Hb Hid].
    cbn [negb andb].
    destruct (N.eqb_spec (userId b) (user_id user)) as [Hown | Hown];
      [| by apply Hsame].
    cbn [negb].
    destruct (status_eqb (status b) CHECKED_IN
              || status_eqb (status b) CHECKED_OUT); [by apply Hsame |].
    cbv zeta. cbn [snd bookingsColl set_bookings].
    apply (Hwrite b); [done | by destruct (truthy notes)
                      | by destruct (truthy notes) |].
    left. split; [done |]. split; [by destruct (truthy notes) |].
    by exists id, notes.
  - destruct (run_effect env user db (Scan body))
      as [[_ Heq] | (b & b' & e & Hb & H200 & Hdb & Hcore & _ & _ & _ & Hstep)];
      [by apply Hsame |].
    rewrite Hdb. cbn [bookingsColl set_bookings].
    destruct Hcore as (Hid & Hown & _).
    apply (Hwrite b); [done | done | done |]. right.
    split; [| split; [inversion Hstep; [by left | by right]
                     | left; by exists body]].
    rewrite run_scan in H200. cbn [fst] in H200. unfold post_scan in H200.
    destruct (requireRole [ADMIN; STAFF] user) eqn:Hstaff; [| done].
    by apply requireRole_staff in Hstaff as [? | ?].
  - apply Hsame. unfold delete_booking. by rewrite Hadmin.
  - unfold patch_request_approve.
    destruct (requireRole [ADMIN; STAFF] user) eqn:Hstaff;
      [| by apply Hsame].
    apply requireRole_staff in Hstaff as [? | Hstaff]; [done |].
    cbn [negb].
    destruct (findRequestById requests id) as [q|]; [| by apply Hsame].
    destruct (negb (bool_decide (request_status q = REQUEST_PENDING)));
      [by apply Hsame |].
    destruct (findById (bookingsColl db) (request_bookingId q)) as [b|]
      eqn:Hfind; [| by apply Hsame].
    destruct (findById_Some _ _ _ Hfind) as [Hb Hid].
    cbv zeta. cbn [snd bookingsColl set_bookings].
    apply (Hwrite b); [done | by destruct (request_type q)
                      | by destruct (request_type q) |].
    right. split; [done |].
    split; [destruct (request_type q); [by left | by right]
           | right; by exists id, damage].
Qed.

(** The student cancels booking 50, which is theirs. *)
Lemma non_admin_powers_witness :
  (forall b, b ∈ bookingsColl Sample.db0 ->
     exists b',
       b' ∈ bookingsColl (handle Sample.env0 Sample.student Sample.requests0
                            Sample.db0 (ChangeBooking (Cancel 50%N None)))
       /\ booking_id b' = booking_id b /\ userId b' = userId b
       /\ (b' = b
           \/ (userId b = user_id Sample.student /\ status b' = CANCELLED
               /\ exists id notes,
                    ChangeBooking (Cancel 50%N None)
                    = ChangeBooking (Cancel id notes))
           \/ (role Sample.student = STAFF
               /\ (status b' = CHECKED_IN \/ status b' = CHECKED_OUT)
               /\ ((exists body,
                      ChangeBooking (Cancel 50%N None)
                      = ChangeBooking (Scan body))
                   \/ exists id damage,
                        ChangeBooking (Cancel 50%N None)
                        = ApproveCheckInRequest id damage))))
  /\ (forall b',
        b' ∈ bookingsColl (handle Sample.env0 Sample.student
                             Sample.requests0 Sample.db0
                             (ChangeBooking (Cancel 50%N None))) ->
        (exists b, b ∈ bookingsColl Sample.db0
                   /\ booking_id b = booking_id b')
        \/ (userId b' = user_id Sample.student
            /\ exists body,
                 ChangeBooking (Cancel 50%N None) = CreateBooking body))
  /\ (forall id b, data (get_booking Sample.student Sample.db0 id) = Some b ->
        userId b = user_id Sample.student).
Proof.
  apply (non_admin_powers Sample.env0 Sample.student Sample.requests0
           Sample.db0 (ChangeBooking (Cancel 50%N None))).
  - discriminate.
  - apply sample_unique_bookings0.
  - apply sample_fresh0.
Defined.

(** What the three kinds of caller reach on [Sample.db0], whose two
    bookings belong to the student: the student cancels their own, a
    member of staff cannot cancel it but checks it in by approving the
    pending request, and a second student can do neither. *)
Example sample_reach :
  let staff := mkUser 7%N STAFF in
  let other := mkUser 8%N STUDENT in
  status_of (handle Sample.env0 Sample.student Sample.requests0 Sample.db0
               (ChangeBooking (Cancel 50%N None))) 50%N = Some CANCELLED
  /\ handle Sample.env0 staff Sample.requests0 Sample.db0
       (ChangeBooking (Cancel 50%N None)) = Sample.db0
  /\ status_of (handle Sample.env0 staff Sample.requests0 Sample.db0
                  (ApproveCheckInRequest 9%N None)) 50%N = Some CHECKED_IN
  /\ handle Sample.env0 other Sample.requests0 Sample.db0
       (ChangeBooking (Cancel 50%N None)) = Sample.db0
  /\ handle Sample.env0 other Sample.requests0 Sample.db0
       (ApproveCheckInRequest 9%N None) = Sample.db0.
Proof. repeat split; reflexivity. Qed.

(** ** Codes the manual path does find *)

Lemma toUpperCase_fixed (s : string) :
  has_lower s = false -> toUpperCase s = s.
Proof.
  induction s as [|c s IH]; simpl; [done |].
  intros H. apply orb_false_iff in H as [Hc Hs].
  unfold upper_ascii. by rewrite Hc, IH.
Qed.

(** X14. Let [b] be the first stored booking with its check-in code, and
    let that code contain no lowercase letter. Then any non-empty manual
    code that equals it up to the case of its letters leads the scan's
    lookup, and the lookup of GET /api/qr-scanner/booking/:code, to [b]. *)
Theorem manual_code_finds_uppercase (user : User) (db : DB) (b : Booking)
    (m : string) :
  has_lower (checkInCode b) = false ->
  findOne_checkIn (bookingsColl db) (checkInCode b) None = Some b ->
  m <> EmptyString ->
  toUpperCase m = toUpperCase (checkInCode b) ->
  requireRole [ADMIN; STAFF] user = true ->
  (exists code bid,
     scan_query (mkScan None (Some m)) = inr (code, bid)
     /\ findOne_checkIn (bookingsColl db) code bid = Some b)
  /\ get_booking_by_code user db m
     = mkResponse 200 true EmptyString (Some b).
Proof.
  intros Hlow Hfirst Hne Hup Hrole.
  rewrite (toUpperCase_fixed _ Hlow) in Hup. split.
  - exists (checkInCode b), None. split; [| done].
    unfold scan_query. cbn [scan_qrData scan_manualCode].
    destruct m; [done |]. cbn [truthy]. by rewrite Hup.
  - unfold get_booking_by_code. by rewrite Hrole, Hup, Hfirst.
Qed.

Lemma manual_code_finds_uppercase_witness :
  (exists code bid,
     scan_query (mkScan None (Some "qrStuvwx"%string)) = inr (code, bid)
     /\ findOne_checkIn (bookingsColl Sample.db0) code bid
        = Some (Sample.held 51%N 6%N 600 660 APPROVED "QRSTUVWX"))
  /\ get_booking_by_code Sample.admin Sample.db0 "qrStuvwx"
     = mkResponse 200 true EmptyString
         (Some (Sample.held 51%N 6%N 600 660 APPROVED "QRSTUVWX")).
Proof.
  apply (manual_code_finds_uppercase Sample.admin Sample.db0
           (Sample.held 51%N 6%N 600 660 APPROVED "QRSTUVWX") "qrStuvwx");
    try reflexivity.
  discriminate.
Defined.

(** ** Account lock *)

(** X15. Whatever the state before, once a failed login has brought the
    counter to 5 or more the account is locked at that time; and on a new
    account (no failures, no lock) the first four failures leave it
    unlocked while the fifth locks it until two hours after that failure. *)
Theorem fifth_failure_locks :
  (forall u t,
     5 <= loginAttempts (incrementLoginAttempts u t) ->
     isLocked (incrementLoginAttempts u t) t = true)
  /\ (forall t1 t2 t3 t4 t5,
        lockUntil (failed_logins (mkLogin 0 None) [t1; t2; t3; t4]) = None
        /\ failed_logins (mkLogin 0 None) [t1; t2; t3; t4; t5]
           = mkLogin 5 (Some (t5 + 7200000))).
Proof.
  split.
  - intros u t. unfold incrementLoginAttempts, isLocked.
    destruct (lockUntil u) as [l|] eqn:Hl; simpl.
    + destruct (Z.ltb_spec l t); simpl; [lia |].
      destruct (Z.geb_spec (loginAttempts u + 1) 5); simpl; [| lia].
      destruct (Z.gtb_spec l t); simpl; intros _; apply Z.gtb_gt; lia.
    + destruct (Z.geb_spec (loginAttempts u + 1) 5); simpl; [| lia].
      intros _. apply Z.gtb_gt. lia.
  - intros t1 t2 t3 t4 t5. split; [reflexivity |].
    unfold failed_logins. simpl. unfold incrementLoginAttempts. simpl.
    f_equal.
Qed.

Lemma failed_logins_app (u : LoginState) (ts ts' : list Date) :
  failed_logins u (ts ++ ts') = failed_logins (failed_logins u ts) ts'.
Proof. unfold failed_logins. apply fold_left_app. Qed.

(** X16. Failed logins while the account is locked never move the end of
    the lock: if every failure happens before [lockUntil], the lock end is
    unchanged and the counter has grown by the number of failures; the
    first failure after the lock has run out clears it and restarts the
    counter at 1. *)
Theorem lock_end_is_fixed (u : LoginState) (l : Date) (ts : list Date)
    (t : Date) :
  lockUntil u = Some l ->
  (forall x, x ∈ ts -> x < l) ->
  l < t ->
  failed_logins u ts = mkLogin (loginAttempts u + Z.of_nat (length ts)) (Some l)
  /\ failed_logins u (ts ++ [t]) = mkLogin 1 None.
Proof.
  intros Hl Hts Ht.
  assert (failed_logins u ts
          = mkLogin (loginAttempts u + Z.of_nat (length ts)) (Some l)) as Hlocked.
  { clear Ht. revert u Hl. induction ts as [|x ts IH]; intros u Hl.
    - unfold failed_logins. simpl. destruct u. simpl in *. subst.
      f_equal. lia.
    - unfold failed_logins. simpl. fold (failed_logins
        (incrementLoginAttempts u x) ts).
      assert (incrementLoginAttempts u x
              = mkLogin (loginAttempts u + 1) (Some l)) as Hstep.
      { unfold incrementLoginAttempts, isLocked. rewrite Hl.
        assert (x < l) as Hx by (apply Hts; left).
        destruct (Z.ltb_spec l x); [lia |].
        destruct (Z.gtb_spec l x); [| lia].
        by rewrite andb_false_r. }
      rewrite Hstep, IH; [| intros y Hy; apply Hts; by right | done].
      simpl. f_equal. lia. }
  split; [done |].
  rewrite failed_logins_app, Hlocked. unfold failed_logins. simpl.
  unfold incrementLoginAttempts. simpl.
  by destruct (Z.ltb_spec l t); [| lia].
Qed.

Lemma lock_end_is_fixed_witness :
  failed_logins (mkLogin 5 (Some 1000)) [10; 20; 999]
  = mkLogin (5 + Z.of_nat (length [10; 20; 999])) (Some 1000)
  /\ failed_logins (mkLogin 5 (Some 1000)) ([10; 20; 999] ++ [1001])
     = mkLogin 1 None.
Proof.
  apply (lock_end_is_fixed (mkLogin 5 (Some 1000)) 1000 [10; 20; 999] 1001).
  - reflexivity.
  - intros x Hx. repeat (apply elem_of_cons in Hx as [-> | Hx]; [lia |]).
    by apply elem_of_nil in Hx.
  - lia.
Defined.

(** ** Check-in requests *)

Lemma update_request_lookup (r' : CheckInRequest)
    (requests : list CheckInRequest) (i : nat) (y : CheckInRequest) :
  update_request r' requests !! i = Some y ->
  exists x, requests !! i = Some x /\ (y = r' \/ y = x).
Proof.
  unfold update_request.
  change (List.map ?f requests) with (f <$> requests).
  rewrite list_lookup_fmap.
  destruct (requests !! i) as [x|]; [| done].
  simpl. intros [= <-]. exists x. split; [done |].
  destruct (N.eqb (request_id x) (request_id r')); auto.
Qed.

Lemma update_keeps_pending_unique (r' : CheckInRequest)
    (requests : list CheckInRequest) :
  request_status r' <> REQUEST_PENDING ->
  pending_unique requests -> pending_unique (update_request r' requests).
Proof.
  intros Hnp Huniq i j r1 r2 Hij H1 H2 Hp1 Hp2 Hb.
  apply update_request_lookup in H1 as (x1 & Hx1 & [-> | ->]); [done |].
  apply update_request_lookup in H2 as (x2 & Hx2 & [-> | ->]); [done |].
  by apply (Huniq i j).
Qed.

Lemma find_pending_request_None (requests : list CheckInRequest)
    (bookingId : ObjectId) (type : RequestType) (x : CheckInRequest) :
  find_pending_request requests bookingId type = None ->
  x ∈ requests ->
  request_status x = REQUEST_PENDING ->
  request_bookingId x = bookingId ->
  request_type x <> type.
Proof.
  unfold find_pending_request. intros Hnone Hx Hp Hb Ht.
  apply list_elem_of_In in Hx.
  pose proof (find_none _ _ Hnone x Hx) as Hno. simpl in Hno.
  by rewrite Hb, N.eqb_refl, !bool_decide_eq_true_2 in Hno.
Qed.

(** X17. The three check-in-request handlers keep the rule that a booking
    has at most one PENDING request of each type: creation refuses a
    second one, and approve and reject only ever move a request out of
    PENDING. *)
Theorem pending_requests_stay_unique (env : Env) (user : User)
    (requests : list CheckInRequest) (db : DB) :
  pending_unique requests ->
  (forall body,
     pending_unique (snd (post_request env user requests db body)))
  /\ (forall id damage,
        pending_unique
          (snd (fst (patch_request_approve env user requests db id damage))))
  /\ (forall id,
        pending_unique (snd (patch_request_reject env user requests id))).
Proof.
  intros Huniq. split; [| split].
  - intros body. unfold post_request.
    destruct (rb_bookingId body) as [bookingId|]; [| done].
    destruct (rb_facilityId body) as [facilityId|]; [| done].
    destruct (rb_type body) as [type|]; [| done].
    destruct (findById (bookingsColl db) bookingId) as [booking|]; [| done].
    destruct (negb (N.eqb (userId booking) (user_id user))); [done |].
    destruct (find_pending_request requests bookingId type) eqn:Hnone;
      [done |].
    cbv zeta. destruct (negb (request_valid _)); [done |]. cbn [snd].
    set (r := mkRequest _ _ _ _ _ _ _ _ _ _).
    intros i j r1 r2 Hij H1 H2 Hp1 Hp2 Hb.
    apply lookup_app_Some in H1 as [H1 | [Hi H1]];
      apply lookup_app_Some in H2 as [H2 | [Hj H2]].
    + by apply (Huniq i j).
    + apply list_lookup_singleton_Some in H2 as [_ <-].
      apply (find_pending_request_None requests bookingId type r1);
        [done | by apply list_elem_of_lookup; exists i | done | done].
    + apply list_lookup_singleton_Some in H1 as [_ <-].
      intros Heq. symmetry in Heq. revert Heq.
      apply (find_pending_request_None requests bookingId type r2);
        [done | by apply list_elem_of_lookup; exists j | done | done].
    + apply list_lookup_singleton_Some in H1 as [? _].
      apply list_lookup_singleton_Some in H2 as [? _]. lia.
  - intros id damage. unfold patch_request_approve.
    destruct (negb (requireRole [ADMIN; STAFF] user)); [done |].
    destruct (findRequestById requests id) as [r|]; [| done].
    destruct (negb (bool_decide (request_status r = REQUEST_PENDING)));
      [done |].
    destruct (findById (bookingsColl db) (request_bookingId r)); [| done].
    cbv zeta. cbn [fst snd]. by apply update_keeps_pending_unique.
  - intros id. unfold patch_request_reject.
    destruct (negb (requireRole [ADMIN; STAFF] user)); [done |].
    destruct (findRequestById requests id) as [r|]; [| done].
    destruct (negb (bool_decide (request_status r = REQUEST_PENDING)));
      [done |].
    cbv zeta. cbn [snd]. by apply update_keeps_pending_unique.
Qed.

Lemma pending_requests_stay_unique_witness :
  (forall body,
     pending_unique
       (snd (post_request Sample.env0 Sample.student Sample.requests0
               Sample.db0 body)))
  /\ (forall id damage,
        pending_unique
          (snd (fst (patch_request_approve Sample.env0 Sample.student
                       Sample.requests0 Sample.db0 id damage))))
  /\ (forall id,
        pending_unique
          (snd (patch_request_reject Sample.env0 Sample.student
                  Sample.requests0 id))).
Proof.
  apply (pending_requests_stay_unique Sample.env0 Sample.student
           Sample.requests0 Sample.db0).
  intros i j r1 r2 Hij H1 H2.
  destruct i as [|i], j as [|j]; simpl in H1, H2; done.
Defined.

Example sample_second_request_refused :
  http_status
    (fst (post_request Sample.env0 Sample.student Sample.requests0 Sample.db0
            (mkRequestBody (Some 50%N) (Some 1%N) (Some CHECK_IN) None)))
  = 400%nat
  /\ http_status
       (fst (post_request Sample.env0 Sample.student Sample.requests0
               Sample.db0
               (mkRequestBody (Some 50%N) (Some 1%N) (Some CHECK_OUT) None)))
     = 201%nat.
Proof. split; reflexivity. Qed.

Lemma findRequestById_Some requests id (r : CheckInRequest) :
  findRequestById requests id = Some r -> r ∈ requests /\ request_id r = id.
Proof.
  unfold findRequestById. intros H. apply find_some in H as [Hin Heq].
  split; [by apply list_elem_of_In | by apply N.eqb_eq].
Qed.

Lemma findRequestById_update_same requests (r r' : CheckInRequest) :
  findRequestById requests (request_id r') = Some r ->
  findRequestById (update_request r' requests) (request_id r') = Some r'.
Proof.
  unfold findRequestById, update_request.
  induction requests as [|x requests IH]; simpl; [done |].
  destruct (N.eqb_spec (request_id x) (request_id r')) as [Heq | Hne].
  - intros _. by rewrite N.eqb_refl.
  - intros H. destruct (N.eqb_spec (request_id x) (request_id r')); [done |].
    by apply IH.
Qed.

(** X18. A check-in request is processed once. When its approval
    succeeds, the request is stored as APPROVED with the approver and the
    time, the booking it refers to is CHECKED_IN or CHECKED_OUT according
    to the request's type, and every later attempt to approve or to reject
    that request is refused and writes nothing. *)
Theorem request_processed_once (env : Env) (user : User)
    (requests : list CheckInRequest) (db : DB) (id : ObjectId)
    (damage : option DamageReport) :
  http_status (fst (fst (patch_request_approve env user requests db id damage)))
  = 200%nat ->
  let requests' :=
    snd (fst (patch_request_approve env user requests db id damage)) in
  let db' := snd (patch_request_approve env user requests db id damage) in
  exists r r',
    findRequestById requests id = Some r
    /\ request_status r = REQUEST_PENDING
    /\ findRequestById requests' id = Some r'
    /\ request_status r' = REQUEST_APPROVED
    /\ processedBy r' = Some (user_id user)
    /\ processedAt r' = Some (now env)
    /\ status_of db' (request_bookingId r)
       = Some (match request_type r with
               | CHECK_IN => CHECKED_IN
               | CHECK_OUT => CHECKED_OUT
               end)
    /\ (forall env2 user2 damage2,
          http_status (fst (fst (patch_request_approve env2 user2 requests'
                                   db' id damage2))) <> 200%nat
          /\ snd (fst (patch_request_approve env2 user2 requests' db' id
                         damage2)) = requests'
          /\ snd (patch_request_approve env2 user2 requests' db' id damage2)
             = db')
    /\ (forall env2 user2,
          http_status (fst (patch_request_reject env2 user2 requests' id))
          <> 200%nat
          /\ snd (patch_request_reject env2 user2 requests' id) = requests').
Proof.
  unfold patch_request_approve at 1 2 3.
  destruct (negb (requireRole [ADMIN; STAFF] user)); [done |].
  destruct (findRequestById requests id) as [r|] eqn:Hr; [| done].
  destruct (bool_decide (request_status r = REQUEST_PENDING)) eqn:Hp;
    [| done].
  apply bool_decide_eq_true in Hp. cbn [negb].
  destruct (findById (bookingsColl db) (request_bookingId r)) as [b|] eqn:Hb;
    [| done].
  cbv zeta. cbn [fst snd http_status]. intros _.
  destruct (findRequestById_Some _ _ _ Hr) as [_ Hid].
  set (r' := process_request r REQUEST_APPROVED user (now env) _).
  set (b' := match request_type r with CHECK_IN => _ | CHECK_OUT => _ end).
  assert (findRequestById (update_request r' requests) id = Some r') as Hr'.
  { rewrite <- Hid. change (request_id r) with (request_id r').
    apply (findRequestById_update_same _ r). by rewrite <- Hid in Hr. }
  exists r, r'. split; [done |]. split; [done |]. split; [done |].
  split; [done |]. split; [done |]. split; [done |].
  split.
  { destruct (findById_Some _ _ _ Hb) as [_ Hbid].
    assert (booking_id b' = request_bookingId r
            /\ status b' = match request_type r with
                           | CHECK_IN => CHECKED_IN
                           | CHECK_OUT => CHECKED_OUT
                           end) as [Hid' Hst]
      by (subst b'; by destruct (request_type r)).
    rewrite <- Hid'. rewrite (status_of_update_same db b b')
      by (by rewrite Hid'). by rewrite Hst. }
  split.
  - intros env2 user2 damage2. unfold patch_request_approve.
    destruct (negb (requireRole [ADMIN; STAFF] user2)); [done |].
    by rewrite Hr'.
  - intros env2 user2. unfold patch_request_reject.
    destruct (negb (requireRole [ADMIN; STAFF] user2)); [done |].
    by rewrite Hr'.
Qed.

Lemma request_processed_once_witness :
  let requests' :=
    snd (fst (patch_request_approve Sample.env0 Sample.admin Sample.requests0
                Sample.db0 9%N None)) in
  let db' :=
    snd (patch_request_approve Sample.env0 Sample.admin Sample.requests0
           Sample.db0 9%N None) in
  exists r r',
    findRequestById Sample.requests0 9%N = Some r
    /\ request_status r = REQUEST_PENDING
    /\ findRequestById requests' 9%N = Some r'
    /\ request_status r' = REQUEST_APPROVED
    /\ processedBy r' = Some (user_id Sample.admin)
    /\ processedAt r' = Some (now Sample.env0)
    /\ status_of db' (request_bookingId r)
       = Some (match request_type r with
               | CHECK_IN => CHECKED_IN
               | CHECK_OUT => CHECKED_OUT
               end)
    /\ (forall env2 user2 damage2,
          http_status (fst (fst (patch_request_approve env2 user2 requests'
                                   db' 9%N damage2))) <> 200%nat
          /\ snd (fst (patch_request_approve env2 user2 requests' db' 9%N
                         damage2)) = requests'
          /\ snd (patch_request_approve env2 user2 requests' db' 9%N damage2)
             = db')
    /\ (forall env2 user2,
          http_status (fst (patch_request_reject env2 user2 requests' 9%N))
          <> 200%nat
          /\ snd (patch_request_reject env2 user2 requests' 9%N) = requests').
Proof.
  apply (request_processed_once Sample.env0 Sample.admin Sample.requests0
           Sample.db0 9%N None).
  reflexivity.
Defined.

(** ** Static queries of the Facility model *)

Lemma find_facilities_spec (coll : list FacilityDoc)
    (query : gmap string QueryEntry) (f : FacilityDoc) :
  f ∈ find_facilities coll query <->
  f ∈ coll /\ map_Forall (fun k e => match_entry f k e = true) query.
Proof.
  unfold find_facilities.
  by rewrite list_elem_of_In, filter_In, bool_decide_eq_true,
    <- list_elem_of_In.
Qed.

(** X19. findForExternalBooking writes the key $or twice in one object
    literal, so only the second $or reaches the database: the query
    returns exactly the stored facilities that are active, enabled for
    external booking and whose availabilityEnd is unset or not before now.
    Neither availabilityStart nor maintenanceMode is consulted; every
    facility whose isExternalBookingAvailable is true is returned, but not
    only those. *)
Theorem external_query_ignores_start (coll : list FacilityDoc) (t : Date) :
  (forall f,
     f ∈ findForExternalBooking coll t <->
     f ∈ coll /\ active (fd_base f) = true
     /\ externalBookingEnabled f = true
     /\ match availabilityEnd f with Some e => t <= e | None => True end)
  /\ (forall f, f ∈ coll -> isExternalBookingAvailable f t = true ->
        f ∈ findForExternalBooking coll t).
Proof.
  assert (forall f,
     f ∈ findForExternalBooking coll t <->
     f ∈ coll /\ active (fd_base f) = true
     /\ externalBookingEnabled f = true
     /\ match availabilityEnd f with Some e => t <= e | None => True end)
    as Hspec.
  { intros f. unfold findForExternalBooking. rewrite find_facilities_spec.
    unfold object_literal. cbn [fold_left fst snd].
    rewrite insert_insert_eq.
    rewrite !map_Forall_insert by (by simplify_map_eq).
    unfold match_entry, get_field. cbn [existsb fst snd String.eqb].
    simpl. destruct (active (fd_base f)), (externalBookingEnabled f),
      (availabilityEnd f) as [e|]; simpl;
      rewrite ?orb_false_r, ?Z.geb_le;
      intuition (try done; try apply map_Forall_empty). }
  split; [done |].
  intros f Hf Hav. apply Hspec. split; [done |].
  unfold isExternalBookingAvailable, isAvailable in Hav.
  destruct (externalBookingEnabled f); [| done].
  destruct (active (fd_base f)); [| done].
  destruct (maintenanceMode (fd_base f)); [done |]. simpl in Hav.
  apply andb_true_iff in Hav as [_ Hend].
  repeat split. destruct (availabilityEnd f); [| done].
  by apply Z.geb_le in Hend.
Qed.

(** X20. findAvailable(role) returns exactly the stored facilities the
    role can book according to canUserBook, and findAvailable() exactly
    those whose isAvailable is true. *)
Theorem findAvailable_agrees_with_canUserBook (coll : list FacilityDoc) :
  (forall role f,
     f ∈ findAvailable coll (Some role) <->
     f ∈ coll /\ canUserBook f role = true)
  /\ (forall f,
        f ∈ findAvailable coll None <->
        f ∈ coll /\ isAvailable (fd_base f) = true).
Proof.
  split.
  - intros role f. unfold findAvailable. cbv zeta.
    rewrite find_facilities_spec.
    unfold object_literal. cbn [fold_left fst snd].
    rewrite !map_Forall_insert by (by simplify_map_eq).
    unfold canUserBook, isAvailable, match_entry, get_field. simpl.
    destruct (active (fd_base f)), (maintenanceMode (fd_base f)); simpl;
      try (intuition (try done; try apply map_Forall_empty); fail).
    assert (existsb (fun r => bool_decide (r = role) || false)
              (allowedRoles f)
            = existsb (fun r => bool_decide (r = role)) (allowedRoles f))
      as ->.
    { induction (allowedRoles f) as [|r rs IH]; simpl; [done |].
      by rewrite IH, orb_false_r. }
    intuition (try done; try apply map_Forall_empty).
  - intros f. unfold findAvailable. cbv zeta.
    rewrite find_facilities_spec.
    unfold object_literal. cbn [fold_left fst snd].
    rewrite !map_Forall_insert by (by simplify_map_eq).
    unfold isAvailable, match_entry, get_field. simpl.
    destruct (active (fd_base f)), (maintenanceMode (fd_base f)); simpl;
      intuition (try done; try apply map_Forall_empty).
Qed.

Example sample_external_query_returns_unavailable :
  let f :=
    mkFacilityDoc (Sample.room 8%N HALL false true true)
      [STUDENT] true (Some 5000) None in
  isExternalBookingAvailable f 100 = false
  /\ findForExternalBooking [f] 100 = [f]
  /\ canUserBook f STUDENT = false
  /\ findAvailable [f] (Some STUDENT) = [].
Proof. repeat split; vm_compute; reflexivity. Qed.

(** ** Feedback *)

Lemma find_feedback_app_new (feedbacks : list Feedback) (f : Feedback) :
  find_feedback feedbacks (fb_bookingId f) (fb_userId f) = None ->
  find_feedback (feedbacks ++ [f]) (fb_bookingId f) (fb_userId f) = Some f.
Proof.
  unfold find_feedback. induction feedbacks as [|x l IH]; simpl.
  - by rewrite !N.eqb_refl.
  - destruct (N.eqb (fb_bookingId x) (fb_bookingId f)
              && N.eqb (fb_userId x) (fb_userId f)); [done | apply IH].
Qed.

(** X21. Feedback is accepted only from the owner of a booking that is
    CHECKED_OUT, and once: the store never holds two feedbacks of one user
    for one booking, a second submission for the same booking is answered
    400 and stores nothing, and an administrator's response keeps the
    rule. *)
Theorem feedback_once_per_booking (env : Env) (user responder : User)
    (feedbacks : list Feedback) (db : DB) :
  feedback_unique feedbacks ->
  NoDup (List.map fb_id feedbacks) ->
  (forall body,
     feedback_unique (snd (post_feedback env user feedbacks db body))
     /\ (http_status (fst (post_feedback env user feedbacks db body))
         = 201%nat ->
         (exists b,
            fbb_bookingId body ≫= findById (bookingsColl db) = Some b
            /\ userId b = user_id user /\ status b = CHECKED_OUT)
         /\ forall env2 body2,
              fbb_bookingId body2 = fbb_bookingId body ->
              post_feedback env2 user
                (snd (post_feedback env user feedbacks db body)) db body2
              = (failure 400 "Feedback already submitted for this booking",
                 snd (post_feedback env user feedbacks db body))))
  /\ (forall id message,
        feedback_unique
          (snd (patch_feedback_respond env responder feedbacks id message))).
Proof.
  intros Huniq Hnd. split.
  - intros body.
    remember (post_feedback env user feedbacks db body) as res eqn:Hres.
    unfold post_feedback in Hres.
    destruct (fbb_bookingId body ≫= findById (bookingsColl db))
      as [b|] eqn:Hb; [| by subst res].
    destruct (N.eqb_spec (userId b) (user_id user)) as [Hown | Hown];
      [| by subst res].
    cbn [negb] in Hres.
    destruct (status_eqb (status b) CHECKED_OUT) eqn:Hst; [| by subst res].
    apply status_eqb_spec in Hst. cbn [negb] in Hres.
    destruct (find_feedback feedbacks (booking_id b) (user_id user))
      eqn:Hnone; [by subst res |].
    cbv zeta in Hres. set (f := mkFeedback _ _ _ _ _ _ _ _ _ _) in Hres.
    destruct (negb (feedback_valid f)); [by subst res |]. subst res.
    cbn [fst snd http_status].
    split.
    + intros i j f1 f2 Hij H1 H2 Hbk Hus.
      assert (forall x, x ∈ feedbacks -> fb_bookingId x = booking_id b ->
                fb_userId x <> user_id user) as Hold.
      { intros x Hx Hxb Hxu. apply list_elem_of_In in Hx.
        pose proof (find_none _ _ Hnone x Hx) as Hno. simpl in Hno.
        by rewrite Hxb, Hxu, !N.eqb_refl in Hno. }
      apply lookup_app_Some in H1 as [H1 | [Hi H1]];
        apply lookup_app_Some in H2 as [H2 | [Hj H2]].
      * by apply (Huniq i j f1 f2).
      * apply list_lookup_singleton_Some in H2 as [_ <-].
        apply (Hold f1); [by apply list_elem_of_lookup; exists i | done..].
      * apply list_lookup_singleton_Some in H1 as [_ <-].
        apply (Hold f2); [by apply list_elem_of_lookup; exists j | done..].
      * apply list_lookup_singleton_Some in H1 as [? _].
        apply list_lookup_singleton_Some in H2 as [? _]. lia.
    + intros _. split; [by exists b |].
      intros env2 body2 Hsame. unfold post_feedback.
      rewrite Hsame, Hb. rewrite Hown, N.eqb_refl. cbn [negb].
      rewrite Hst. change (status_eqb CHECKED_OUT CHECKED_OUT) with true.
      cbn [negb].
      assert (find_feedback (feedbacks ++ [f]) (booking_id b) (user_id user)
              = Some f) as ->
        by (apply (find_feedback_app_new feedbacks f); exact Hnone).
      done.
  - intros id message. unfold patch_feedback_respond.
    destruct (negb (requireRole [ADMIN] responder)); [done |].
    destruct (truthy message) as [m|]; [| done].
    destruct (List.find (fun f => N.eqb (fb_id f) id) feedbacks)
      as [f|] eqn:Hf; [| done].
    cbv zeta. cbn [snd fb_id].
    intros i j f1 f2 Hij H1 H2.
    change (List.map ?g feedbacks) with (g <$> feedbacks) in H1, H2.
    rewrite list_lookup_fmap in H1, H2.
    destruct (feedbacks !! i) as [x1|] eqn:Hx1; [| done].
    destruct (feedbacks !! j) as [x2|] eqn:Hx2; [| done].
    simpl in H1, H2. injection H1 as <-. injection H2 as <-.
    apply find_some in Hf as [Hfin Hfid]. apply N.eqb_eq in Hfid.
    assert (forall x, x ∈ feedbacks -> fb_id x = fb_id f -> x = f) as Hsame.
    { intros x Hx Hid.
      by apply (unique_key fb_id feedbacks);
        [| | apply list_elem_of_In |]. }
    assert (forall k x, feedbacks !! k = Some x ->
              fb_bookingId (if N.eqb (fb_id x) (fb_id f)
                            then mkFeedback (fb_id f) (fb_bookingId f)
                                   (fb_userId f) (fb_facilities f)
                                   (fb_rating f) (fb_comment f)
                                   (fb_category f) (fb_isAnonymous f)
                                   FEEDBACK_REVIEWED
                                   (Some (mkAdminResponse m (user_id responder)
                                            (now env)))
                            else x) = fb_bookingId x
              /\ fb_userId (if N.eqb (fb_id x) (fb_id f)
                            then mkFeedback (fb_id f) (fb_bookingId f)
                                   (fb_userId f) (fb_facilities f)
                                   (fb_rating f) (fb_comment f)
                                   (fb_category f) (fb_isAnonymous f)
                                   FEEDBACK_REVIEWED
                                   (Some (mkAdminResponse m (user_id responder)
                                            (now env)))
                            else x) = fb_userId x) as Hkeep.
    { intros k x Hk.
      destruct (N.eqb_spec (fb_id x) (fb_id f)) as [Heq | Hne]; [| done].
      rewrite (Hsame x); [done | by apply list_elem_of_lookup; exists k
                               | done]. }
    destruct (Hkeep i x1 Hx1) as [-> ->].
    destruct (Hkeep j x2 Hx2) as [-> ->].
    by apply (Huniq i j).
Qed.

(** The student, who has left feedback for booking 61 and not yet for
    booking 60, and the administrator who responds. *)
Lemma feedback_once_per_booking_witness :
  (forall body,
     feedback_unique (snd (post_feedback Sample.env0 Sample.student
                             Sample.feedbacks0 Sample.db_done body))
     /\ (http_status (fst (post_feedback Sample.env0 Sample.student
                             Sample.feedbacks0 Sample.db_done body))
         = 201%nat ->
         (exists b,
            fbb_bookingId body ≫= findById (bookingsColl Sample.db_done)
            = Some b
            /\ userId b = user_id Sample.student /\ status b = CHECKED_OUT)
         /\ forall env2 body2,
              fbb_bookingId body2 = fbb_bookingId body ->
              post_feedback env2 Sample.student
                (snd (post_feedback Sample.env0 Sample.student
                        Sample.feedbacks0 Sample.db_done body))
                Sample.db_done body2
              = (failure 400 "Feedback already submitted for this booking",
                 snd (post_feedback Sample.env0 Sample.student
                        Sample.feedbacks0 Sample.db_done body))))
  /\ (forall id message,
        feedback_unique
          (snd (patch_feedback_respond Sample.env0 Sample.admin
                  Sample.feedbacks0 id message))).
Proof.
  apply (feedback_once_per_booking Sample.env0 Sample.student Sample.admin
           Sample.feedbacks0 Sample.db_done).
  - intros i j f1 f2 Hij H1 H2.
    destruct i as [|i], j as [|j]; try done;
      simpl in H1, H2; by rewrite ?lookup_nil in H1, H2.
  - apply (bool_decide_unpack _). vm_compute. exact I.
Defined.

(** On that store the student's feedback for booking 60 is accepted and
    stored beside the first, a second one for booking 60 or for booking 61
    is refused, and the administrator's response to feedback 900 is
    stored. *)
Example sample_feedback_round :
  let first :=
    post_feedback Sample.env0 Sample.student Sample.feedbacks0
      Sample.db_done (Sample.feedback_body 60%N 4 " fine ") in
  http_status (fst first) = 201%nat
  /\ (fb_bookingId <$> snd first) = [61%N; 60%N]
  /\ (fb_comment <$> data (fst first)) = Some (Some (js_string "fine"))
  /\ http_status (fst (post_feedback Sample.env0 Sample.student (snd first)
                         Sample.db_done (Sample.feedback_body 60%N 2 "bad")))
     = 400%nat
  /\ http_status (fst (post_feedback Sample.env0 Sample.student
                         Sample.feedbacks0 Sample.db_done
                         (Sample.feedback_body 61%N 2 "bad"))) = 400%nat
  /\ ((fun f => (fb_status f, respondedBy <$> fb_adminResponse f)) <$>
        snd (patch_feedback_respond Sample.env0 Sample.admin
               Sample.feedbacks0 900%N (Some "thanks"%string)))
     = [(FEEDBACK_REVIEWED, Some 1%N)].
Proof. repeat split; reflexivity. Qed.

Lemma counted_in_full_trim_start (s : JsString) :
  counted_in_full s = true -> counted_in_full (trim_start s) = true.
Proof.
  induction s as [|c s IH]; [done |].
  intros H. simpl. destruct (is_space c); [| done].
  apply IH. simpl in H. by apply andb_true_iff in H as [_ H].
Qed.

Lemma counted_in_full_trim_end (s : JsString) :
  counted_in_full s = true -> counted_in_full (trim_end s) = true.
Proof.
  induction s as [|c s IH]; [done |].
  intros H. simpl in H. apply andb_true_iff in H as [Hc Hs].
  specialize (IH Hs). simpl.
  destruct (trim_end s) as [|d rest].
  - destruct (is_space c); [done |]. simpl. by rewrite Hc.
  - change (counted_in_full (c :: d :: rest))
      with ((negb (is_high_surrogate c)
             && negb ((c =? 65039) || (c =? 65038))%N)
            && counted_in_full (d :: rest)).
    by rewrite Hc, IH.
Qed.

(** On such a string the length that isLength compares is [length]. *)
Lemma counted_in_full_length (s : JsString) :
  counted_in_full s = true ->
  presentationSequences s = 0%nat /\ surrogatePairs s = 0%nat.
Proof.
  unfold presentationSequences.
  induction s as [|c s IH]; [done |].
  intros H. simpl in H. apply andb_true_iff in H as [Hc Hs].
  apply andb_true_iff in Hc as [Hhigh Hsel].
  apply negb_true_iff in Hhigh, Hsel.
  destruct (IH Hs) as [IH1 IH2]. split.
  - simpl. by rewrite Hsel.
  - simpl. destruct s as [|l rest]; [done |]. by rewrite Hhigh.
Qed.

(** X22. A body that passes [validateFeedback] and whose comment holds no
    surrogate pair and no variation selector (the code units isLength
    leaves out of its count, while the schema's maxlength counts every
    unit) never fails the schema's own validators: submitted by the owner
    of a CHECKED_OUT booking that has no feedback from them yet, it is
    answered 201 and stored, with the booking's facilities, the given
    rating, the trimmed comment and the status PENDING. *)
Theorem validated_feedback_is_stored (env : Env) (user : User)
    (feedbacks : list Feedback) (db : DB) (body : FeedbackBody)
    (bid : ObjectId) (b : Booking) :
  validateFeedback body = true ->
  (forall c, fbb_comment body = Some c -> counted_in_full c = true) ->
  fbb_bookingId body = Some bid ->
  findById (bookingsColl db) bid = Some b ->
  userId b = user_id user ->
  status b = CHECKED_OUT ->
  find_feedback feedbacks bid (user_id user) = None ->
  exists f,
    post_feedback env user feedbacks db body
    = (mkResponse 201 true EmptyString (Some f), feedbacks ++ [f])
    /\ fb_bookingId f = bid /\ fb_userId f = user_id user
    /\ fb_facilities f = facilities b
    /\ fb_rating f = fbb_rating body
    /\ fb_comment f = trim <$> fbb_comment body
    /\ fb_status f = FEEDBACK_PENDING.
Proof.
  intros Hval Hfull Hbid Hb Hown Hst Hnone.
  destruct (findById_Some _ _ _ Hb) as [_ Hid].
  unfold post_feedback. rewrite Hbid. cbn [mbind option_bind].
  rewrite Hb, Hown, N.eqb_refl, Hst.
  change (status_eqb CHECKED_OUT CHECKED_OUT) with true. cbn [negb].
  rewrite Hid, Hnone. cbv zeta.
  set (f := mkFeedback _ _ _ _ _ _ _ _ _ _).
  assert (feedback_valid f = true) as ->.
  { unfold validateFeedback in Hval. rewrite Hbid in Hval.
    apply andb_true_iff in Hval as [Hr Hc]. simpl in Hr.
    unfold feedback_valid. subst f. cbn [fb_rating fb_comment].
    rewrite Hr. destruct (fbb_comment body) as [c|]; [| done].
    cbn [fmap option_fmap option_map andb].
    assert (counted_in_full (trim c) = true) as Htrim
      by (by apply counted_in_full_trim_end, counted_in_full_trim_start,
               Hfull).
    destruct (counted_in_full_length _ Htrim) as [Hp Hs].
    unfold isLength in Hc. rewrite Hp, Hs in Hc.
    apply andb_true_iff in Hc as [_ Hc]. apply Nat.leb_le in Hc.
    apply Nat.leb_le. lia. }
  exists f. by repeat split.
Qed.

Lemma validated_feedback_is_stored_witness :
  exists f,
    post_feedback Sample.env0 Sample.student Sample.feedbacks0
      Sample.db_done (Sample.feedback_body 60%N 4 " fine ")
    = (mkResponse 201 true EmptyString (Some f), Sample.feedbacks0 ++ [f])
    /\ fb_bookingId f = 60%N /\ fb_userId f = user_id Sample.student
    /\ fb_facilities f
       = facilities (Sample.held 60%N 1%N 0 10 CHECKED_OUT "ZZZZ0000")
    /\ fb_rating f = fbb_rating (Sample.feedback_body 60%N 4 " fine ")
    /\ fb_comment f
       = trim <$> fbb_comment (Sample.feedback_body 60%N 4 " fine ")
    /\ fb_status f = FEEDBACK_PENDING.
Proof.
  apply (validated_feedback_is_stored Sample.env0 Sample.student
           Sample.feedbacks0 Sample.db_done
           (Sample.feedback_body 60%N 4 " fine ")
           60%N (Sample.held 60%N 1%N 0 10 CHECKED_OUT "ZZZZ0000"));
    try reflexivity.
  intros c [= <-]. reflexivity.
Defined.

(** U+00A0 and U+3000 are white space too. *)
Example sample_trim :
  trim (js_string "  a b  ") = js_string "a b"
  /\ trim ([160; 12288] ++ js_string "a" ++ [8232; 65279])%N = js_string "a".
Proof. split; reflexivity. Qed.

(** ** Deleting a facility *)

(** X23. Deleting a facility is a soft delete: an administrator's delete
    of a stored facility keeps every document and every booking, only
    sets that facility's [active] to false, and from then on every
    creation request that names the facility is answered 404. *)
Theorem deleted_facility_is_not_bookable (user : User) (db : DB)
    (id : ObjectId) (f : Facility) :
  unique_facility_ids db ->
  role user = ADMIN ->
  f ∈ facilitiesColl db -> fac_id f = id ->
  let db' := snd (delete_facility user db id) in
  http_status (fst (delete_facility user db id)) = 200%nat
  /\ bookingsColl db' = bookingsColl db
  /\ List.map fac_id (facilitiesColl db') = List.map fac_id (facilitiesColl db)
  /\ set_active f false ∈ facilitiesColl db'
  /\ (forall g, g ∈ facilitiesColl db -> fac_id g <> id ->
        g ∈ facilitiesColl db')
  /\ (forall env user' body ids startT endT,
        req_facilityIds body = Some ids ->
        req_startTime body = Some startT ->
        req_endTime body = Some endT ->
        id ∈ ids ->
        post_booking env user' db' body
        = (failure 404 "One or more facilities not found or inactive", db')).
Proof.
  intros Hnd Hrole Hf Hid. unfold delete_facility, requireRole.
  cbn [existsb]. rewrite Hrole, bool_decide_eq_true_2 by done.
  cbn [orb negb].
  destruct (List.find (fun x => N.eqb (fac_id x) id) (facilitiesColl db))
    as [x|] eqn:Hfind.
  2: { exfalso. apply list_elem_of_In in Hf.
       pose proof (find_none _ _ Hfind f Hf) as Hno. simpl in Hno.
       by rewrite Hid, N.eqb_refl in Hno. }
  apply find_some in Hfind as [Hx Hxid]. apply N.eqb_eq in Hxid.
  apply list_elem_of_In in Hx.
  assert (x = f) as ->.
  { apply (unique_key fac_id (facilitiesColl db)); [done | done | done |].
    by rewrite Hxid, Hid. }
  cbv zeta. cbn [fst snd http_status bookingsColl facilitiesColl].
  set (coll' := List.map _ (facilitiesColl db)).
  assert (List.map fac_id coll' = List.map fac_id (facilitiesColl db))
    as Hids.
  { subst coll'. rewrite map_map. apply map_ext. intros y.
    by destruct (N.eqb_spec (fac_id y) (fac_id (set_active f false))). }
  assert (set_active f false ∈ coll') as Hin.
  { subst coll'. apply list_elem_of_In, in_map_iff. exists f.
    split; [| by apply list_elem_of_In].
    by rewrite N.eqb_refl. }
  split; [done |]. split; [done |]. split; [done |]. split; [done |].
  split.
  - intros g Hg Hne. subst coll'. apply list_elem_of_In, in_map_iff.
    exists g. split; [| by apply list_elem_of_In].
    destruct (N.eqb_spec (fac_id g) (fac_id (set_active f false)));
      [simpl in *; congruence | done].
  - intros env user' body ids startT endT Hids' Hs He Hidin.
    unfold post_booking. rewrite Hids', Hs, He.
    cbn [facilitiesColl].
    assert (length (find_requested coll' ids) < length ids)%nat as Hlt.
    { apply (lookup_short_when_inactive
               (mkDB coll' (bookingsColl db) (settingsColl db)) ids
               (set_active f false)); try done.
      - unfold unique_facility_ids. cbn [facilitiesColl]. by rewrite Hids.
      - simpl. by rewrite Hid. }
    destruct (Nat.eqb_spec (length (find_requested coll' ids)) (length ids));
      [lia | done].
Qed.

Lemma deleted_facility_is_not_bookable_witness :
  let db' := snd (delete_facility Sample.admin Sample.db0 2%N) in
  http_status (fst (delete_facility Sample.admin Sample.db0 2%N)) = 200%nat
  /\ bookingsColl db' = bookingsColl Sample.db0
  /\ List.map fac_id (facilitiesColl db')
     = List.map fac_id (facilitiesColl Sample.db0)
  /\ set_active (Sample.room 2%N CONFERENCE_ROOM false true false) false
     ∈ facilitiesColl db'
  /\ (forall g, g ∈ facilitiesColl Sample.db0 -> fac_id g <> 2%N ->
        g ∈ facilitiesColl db')
  /\ (forall env user' body ids startT endT,
        req_facilityIds body = Some ids ->
        req_startTime body = Some startT ->
        req_endTime body = Some endT ->
        2%N ∈ ids ->
        post_booking env user' db' body
        = (failure 404 "One or more facilities not found or inactive", db')).
Proof.
  apply (deleted_facility_is_not_bookable Sample.admin Sample.db0 2%N
           (Sample.room 2%N CONFERENCE_ROOM false true false)).
  - apply sample_unique_facilities0.
  - reflexivity.
  - apply (bool_decide_unpack _). vm_compute. exact I.
  - reflexivity.
Defined.
